(** * Skinova clinic administration: the record-keeping rules of
      [appointments/models.py] and [pos/models.py]

    The Django models are embedded as records, one module per model class,
    with the methods of the class as functions of the same name.  A model
    method that reads or writes the database threads the tables it touches
    explicitly; a method that can raise returns an [outcome] next to the
    state the database is in when it returns or raises.

    Conventions of the embedding:
    - a primary key is an [option positive]: [None] for an instance that
      was never saved (Python's [self.pk is None]), and an auto-increment
      key is never zero, so that [if self.pk:] is [Some _];
    - [PositiveIntegerField] and Python [int] values are [Z];
    - a [DateField] value is the ordinal of the day, a [Z];
    - a [DecimalField] with [decimal_places=2] is held as its exact number
      of hundredths, a [Z]; an [int] times such a decimal and the sum of
      such decimals are exact in Python's [Decimal] at these sizes; the
      database is SQLite (the backup command copies its file), which
      writes a decimal as it is and converts it when a row is read, and
      the conversion of an amount of more than 10 digits raises
      [decimal.InvalidOperation]: such a stored amount is never read, and
      the statements say nothing about its value;
    - a foreign key to a catalogue row that the modelled methods only read
      ([Service], [Package]) is the related object itself, as [self.service]
      is in Python; a foreign key to a row that is written is the key of
      the row in its table;
    - columns that no modelled method reads (names, notes, prices of the
      catalogue, timestamps) are left out of the records;
    - the constraints the database holds on the session records
      ([unique_together] of [ClientPackage] and [ClientServiceSession], and
      the check that a [PositiveIntegerField] is not negative) are not part
      of [super_save]: [add_session] and the views write stored rows, which
      cannot break them, and a statement about the [save] of an arbitrary
      record carries them as a hypothesis ([ClientPackage_writable]);
    - the appointments are those of the calendar of [datetime], which ends
      on 9999-12-31: [Appointment.clean] adds the duration without the
      [OverflowError] of [datetime], and [Appointment.full_clean] leaves
      out the field checks, of which the one of a package or session link
      that names no record can fail; a statement that depends on either
      carries [in_calendar] and [links_resolve] as hypotheses;
    - Django's own code ([Model.full_clean], [Model.save], managers) is not
      part of the repository; each model states next to its [full_clean]
      and [super_save] which part of it is embedded. *)

From Stdlib Require Import ZArith List Bool Lia String Floats Uint63.
Import ListNotations.
Open Scope Z_scope.

(** ** Exceptions and stateful computations *)

Inductive exn : Type :=
| ValidationError (message : string)
| DoesNotExist
| ZeroDivisionError
| ValueError
| OverflowError
| RecursionError
| TypeError
| InvalidOperation.          (* decimal.InvalidOperation *)

Inductive outcome (A : Type) : Type :=
| Ok (a : A)
| Raise (e : exn).
Arguments Ok {A} a.
Arguments Raise {A} e.

(** A computation over a database state [S]: the outcome together with the
    state at the moment it returns or raises. *)
Definition M (S A : Type) : Type := S -> outcome A * S.

Definition ret {S A} (a : A) : M S A := fun s => (Ok a, s).
Definition raise {S A} (e : exn) : M S A := fun s => (Raise e, s).
Definition bind {S A B} (c : M S A) (k : A -> M S B) : M S B :=
  fun s => match c s with
           | (Ok a, s') => k a s'
           | (Raise e, s') => (Raise e, s')
           end.
Definition gets {S A} (f : S -> A) : M S A := fun s => (Ok (f s), s).
Definition lift {S A} (r : outcome A) : M S A := fun s => (r, s).
Definition modify {S} (f : S -> S) : M S unit := fun s => (Ok tt, f s).

Declare Scope db_scope.
Delimit Scope db_scope with db.
Notation "x <- c ;; k" := (bind c (fun x => k))
  (at level 100, c at next level, right associativity) : db_scope.
Notation "c ;;; k" := (bind c (fun _ => k))
  (at level 100, right associativity) : db_scope.
Open Scope db_scope.

(** Run a computation on one table of a larger state. *)
Definition zoom {S T A} (proj : S -> T) (inj : T -> S -> S) (c : M T A) : M S A :=
  fun s => let (r, t') := c (proj s) in (r, inj t' s).

Definition is_validation_error {A} (r : outcome A) : Prop :=
  exists message, r = Raise (ValidationError message).

Definition is_ok {A} (r : outcome A) : Prop := exists a, r = Ok a.

(** ** Tables keyed by primary key *)

Module Table.
Section Rows.
Context {Row : Type}.
Variable pk_of : Row -> option positive.
Variable with_pk : positive -> Row -> Row.

Definition has_pk (id : positive) (r : Row) : bool :=
match pk_of r with
| Some j => Pos.eqb j id
| None => false
end.

(** [objects.get(pk=id)] *)
Definition get (id : positive) (rows : list Row) : option Row :=
find (has_pk id) rows.

(** The key the database gives to the next inserted row: 1 in an empty
  table, above every key in use otherwise.  (An AUTOINCREMENT key is also
  above the keys of deleted rows, which the table does not remember; no
  statement depends on the value of a fresh key.) *)
Definition next_pk (rows : list Row) : positive :=
fold_right (fun r m => match pk_of r with
                       | Some j => Pos.max (Pos.succ j) m
                       | None => m
                       end) 1%positive rows.

Definition update (id : positive) (r : Row) (rows : list Row) : list Row :=
map (fun r0 => if has_pk id r0 then r else r0) rows.

(** [instance.delete()] *)
Definition delete (id : positive) (rows : list Row) : list Row :=
filter (fun r => negb (has_pk id r)) rows.

(** [models.Model.save]: UPDATE the row of the instance's key when there is
  one, INSERT otherwise; an instance without a key gets the next one. *)
Definition base_save (self : Row) (rows : list Row) : Row * list Row :=
match pk_of self with
| Some id =>
    if existsb (has_pk id) rows
    then (self, update id self rows)
    else (self, rows ++ [self])
| None =>
    let self' := with_pk (next_pk rows) self in
    (self', rows ++ [self'])
end.
End Rows.
End Table.
Import Table.

(** ** appointments.models.Service *)

Module Service.
Record t : Type := mk {
  pk : positive;
  duration : Z;             (* minutes *)
  sessions_required : Z
}.

(** Django's [Model.__eq__] on saved instances of one model: same key. *)
Definition eqb (a b : t) : bool := Pos.eqb (pk a) (pk b).

Definition requires_multiple_sessions (self : t) : bool :=
  1 <? sessions_required self.
End Service.

(** ** appointments.models.Package *)

Module Package.
Record t : Type := mk {
  pk : option positive;
  total_sessions : Z
}.

(** The state [Package] methods touch: the package rows and the rows of
    the many-to-many [services] relation, (package key, service key). *)
Record store : Type := mk_store {
  objects : list t;
  services_through : list (positive * positive)
}.

Definition with_pk (id : positive) (self : t) : t :=
  mk (Some id) (total_sessions self).

(** [package.services.all()] as the keys of the linked services. *)
Definition services (id : positive) (through : list (positive * positive))
  : list positive :=
  map snd (filter (fun row => Pos.eqb (fst row) id) through).

(** [self.services.count()] *)
Definition services_count (id : positive) (through : list (positive * positive)) : Z :=
  Z.of_nat (List.length (services id through)).

(** [self.services.exists()] *)
Definition services_exists (id : positive) (through : list (positive * positive)) : bool :=
  match services id through with
  | [] => false
  | _ :: _ => true
  end.

Definition clean (self : t) : M store unit :=
  match pk self with
  | Some id =>
      service_count <- gets (fun st => services_count id (services_through st)) ;;
      if service_count <? 3
      then raise (ValidationError "Package must include at least 3 services.")
      else if 5 <? service_count
      then raise (ValidationError "Package cannot include more than 5 services.")
      else ret tt
  | None => ret tt
  end.

(** [Model.full_clean]: field checks cannot fail on a [t]; the model has
    no unique field and no constraint, which leaves [clean]. *)
Definition full_clean (self : t) : M store unit := clean self.

Definition super_save (self : t) : M store t :=
  fun st =>
    let (self', rows) := base_save pk with_pk self (objects st) in
    (Ok self', mk_store rows (services_through st)).

Definition save (self : t) : M store t :=
  self <- super_save self ;;
  (* Validate after services can be counted *)
  has_services <- gets (fun st =>
    match pk self with
    | Some id => services_exists id (services_through st)
    | None => false
    end) ;;
  if has_services
  then full_clean self ;;; ret self
  else ret self.
End Package.

(** ** Python numbers used by the progress percentage

    [a / b] on two [int]s is true division: a double, or [ZeroDivisionError]
    when [b] is zero.  The doubles are Rocq's primitive binary64 floats; an
    [int] below 2^53 in absolute value (the counters are 32-bit columns)
    converts exactly and the quotient is then the correctly rounded one, as
    in Python. *)

Definition float_of_int (n : Z) : float :=
  if n <? 0
  then PrimFloat.opp (PrimFloat.of_uint63 (Uint63.of_Z (- n)))
  else PrimFloat.of_uint63 (Uint63.of_Z n).

Definition truediv (a b : Z) : outcome float :=
  if b =? 0 then Raise ZeroDivisionError
  else Ok (PrimFloat.div (float_of_int a) (float_of_int b)).

(** [int(x)] on a float: truncation toward zero; [ValueError] on a NaN and
    [OverflowError] on an infinity. *)
Definition py_int (x : float) : outcome Z :=
  match Prim2SF x with
  | S754_zero _ => Ok 0
  | S754_finite sign m e =>
      let magnitude :=
        match e with
        | Z0 => Zpos m
        | Zpos p => Zpos m * 2 ^ Zpos p
        | Zneg p => Zpos m / 2 ^ Zpos p
        end in
      Ok (if sign then - magnitude else magnitude)
  | S754_infinity _ => Raise OverflowError
  | S754_nan => Raise ValueError
  end.

(** [int((a / b) * 100)] *)
Definition percentage (a b : Z) : outcome Z :=
  match truediv a b with
  | Ok q => py_int (PrimFloat.mul q (float_of_int 100))
  | Raise e => Raise e
  end.

Definition is_none {A} (o : option A) : bool :=
  match o with
  | None => true
  | Some _ => false
  end.

(** ** appointments.models.ClientPackage *)

Module ClientPackage.
Record t : Type := mk {
  pk : option positive;
  client : positive;
  package : Package.t;
  sessions_completed : Z;
  is_completed : bool;
  assigned_date : Z;
  completed_date : option Z
}.

(** [ClientPackage.objects]: the rows of the table. *)
Definition objects : Type := list t.

Definition with_pk (id : positive) (self : t) : t :=
  mk (Some id) (client self) (package self) (sessions_completed self)
     (is_completed self) (assigned_date self) (completed_date self).
Definition set_sessions_completed (n : Z) (self : t) : t :=
  mk (pk self) (client self) (package self) n
     (is_completed self) (assigned_date self) (completed_date self).
Definition set_is_completed (b : bool) (self : t) : t :=
  mk (pk self) (client self) (package self) (sessions_completed self)
     b (assigned_date self) (completed_date self).
Definition set_assigned_date (d : Z) (self : t) : t :=
  mk (pk self) (client self) (package self) (sessions_completed self)
     (is_completed self) d (completed_date self).
Definition set_completed_date (d : option Z) (self : t) : t :=
  mk (pk self) (client self) (package self) (sessions_completed self)
     (is_completed self) (assigned_date self) d.

Definition get_progress_percentage (self : t) : outcome Z :=
  if Package.total_sessions (package self) =? 0 then Ok 0
  else percentage (sessions_completed self) (Package.total_sessions (package self)).

Definition get_remaining_sessions (self : t) : Z :=
  Z.max 0 (Package.total_sessions (package self) - sessions_completed self).

Section Methods.
(** [timezone.now().date()] during the request. *)
Variable today : Z.

(** Whether [models.Model.save] inserts the instance. *)
Definition adding (self : t) (rows : objects) : bool :=
  match pk self with
  | Some id => negb (existsb (has_pk pk id) rows)
  | None => true
  end.

(** [super().save()]; [assigned_date] is [auto_now_add].  The write is
    that of a row the database takes: its constraints are not embedded. *)
Definition super_save (self : t) : M objects t :=
  fun rows =>
    let self := if adding self rows then set_assigned_date today self else self in
    let (self', rows') := base_save pk with_pk self rows in
    (Ok self', rows').

Definition save (self : t) : M objects t :=
  let self :=
    (* Check if sessions are completed *)
    if Package.total_sessions (package self) <=? sessions_completed self then
      (* Mark as completed if not already *)
      if negb (is_completed self) then
        let self := set_is_completed true self in
        if is_none (completed_date self)
        then set_completed_date (Some today) self
        else self
      else self
    else
      (* Mark as not completed if sessions haven't reached total *)
      if is_completed self
      then set_completed_date None (set_is_completed false self)
      else self in
  super_save self.

(** Returns the method's result and the instance as the call leaves it. *)
Definition add_session (self : t) : M objects (bool * t) :=
  if negb (is_completed self) then
    let self := set_sessions_completed (sessions_completed self + 1) self in
    let self :=
      if Package.total_sessions (package self) <=? sessions_completed self
      then set_completed_date (Some today) (set_is_completed true self)
      else self in
    self <- save self ;;
    ret (true, self)
  else ret (false, self).
End Methods.
End ClientPackage.

(** ** appointments.models.ClientServiceSession *)

Module ClientServiceSession.
Record t : Type := mk {
  pk : option positive;
  client : positive;
  service : Service.t;
  sessions_completed : Z;
  is_completed : bool;
  started_date : Z;
  completed_date : option Z
}.

Definition objects : Type := list t.

Definition with_pk (id : positive) (self : t) : t :=
  mk (Some id) (client self) (service self) (sessions_completed self)
     (is_completed self) (started_date self) (completed_date self).
Definition set_sessions_completed (n : Z) (self : t) : t :=
  mk (pk self) (client self) (service self) n
     (is_completed self) (started_date self) (completed_date self).
Definition set_is_completed (b : bool) (self : t) : t :=
  mk (pk self) (client self) (service self) (sessions_completed self)
     b (started_date self) (completed_date self).
Definition set_started_date (d : Z) (self : t) : t :=
  mk (pk self) (client self) (service self) (sessions_completed self)
     (is_completed self) d (completed_date self).
Definition set_completed_date (d : option Z) (self : t) : t :=
  mk (pk self) (client self) (service self) (sessions_completed self)
     (is_completed self) (started_date self) d.

Definition get_progress_percentage (self : t) : outcome Z :=
  if Service.sessions_required (service self) =? 0 then Ok 0
  else percentage (sessions_completed self) (Service.sessions_required (service self)).

Definition get_remaining_sessions (self : t) : Z :=
  Z.max 0 (Service.sessions_required (service self) - sessions_completed self).

Section Methods.
Variable today : Z.

Definition adding (self : t) (rows : objects) : bool :=
  match pk self with
  | Some id => negb (existsb (has_pk pk id) rows)
  | None => true
  end.

(** [super().save()]; [started_date] is [auto_now_add].  The write is
    that of a row the database takes: its constraints are not embedded. *)
Definition super_save (self : t) : M objects t :=
  fun rows =>
    let self := if adding self rows then set_started_date today self else self in
    let (self', rows') := base_save pk with_pk self rows in
    (Ok self', rows').

Definition save (self : t) : M objects t :=
  let self :=
    if Service.sessions_required (service self) <=? sessions_completed self then
      if negb (is_completed self) then
        let self := set_is_completed true self in
        if is_none (completed_date self)
        then set_completed_date (Some today) self
        else self
      else self
    else
      if is_completed self
      then set_completed_date None (set_is_completed false self)
      else self in
  super_save self.

Definition add_session (self : t) : M objects (bool * t) :=
  if negb (is_completed self) then
    let self := set_sessions_completed (sessions_completed self + 1) self in
    let self :=
      if Service.sessions_required (service self) <=? sessions_completed self
      then set_completed_date (Some today) (set_is_completed true self)
      else self in
    self <- save self ;;
    ret (true, self)
  else ret (false, self).

(** [objects.get_or_create(client=, service=, defaults={'sessions_completed': 0})]:
    the row of the pair (there is at most one, the pair is
    [unique_together]), or a new instance created through [save]. *)
Definition get_or_create (client_id : positive) (svc : Service.t)
  : M objects (t * bool) :=
  found <- gets (find (fun r => Pos.eqb (client r) client_id
                                && Service.eqb (service r) svc)) ;;
  match found with
  | Some r => ret (r, false)
  | None =>
      r <- save (mk None client_id svc 0 false today None) ;;
      ret (r, true)
  end.
End Methods.
End ClientServiceSession.

(** ** appointments.models.Appointment *)

Module Appointment.
Inductive status_t : Type := pending | confirmed | completed | cancelled.

Definition status_eqb (a b : status_t) : bool :=
  match a, b with
  | pending, pending | confirmed, confirmed
  | completed, completed | cancelled, cancelled => true
  | _, _ => false
  end.

(** [datetime.time] *)
Record time : Type := mk_time {
  hour : Z;
  minute : Z;
  second : Z;
  microsecond : Z
}.

Definition time_eqb (a b : time) : bool :=
  (hour a =? hour b) && (minute a =? minute b)
  && (second a =? second b) && (microsecond a =? microsecond b).

Record t : Type := mk {
  pk : option positive;
  client : positive;
  service : Service.t;
  staff : positive;
  appointment_date : Z;
  appointment_time : time;
  status : status_t;
  client_package : option positive;
  client_service_session : option positive
}.

Definition with_pk (id : positive) (self : t) : t :=
  mk (Some id) (client self) (service self) (staff self) (appointment_date self)
     (appointment_time self) (status self) (client_package self)
     (client_service_session self).
Definition set_client_package (v : option positive) (self : t) : t :=
  mk (pk self) (client self) (service self) (staff self) (appointment_date self)
     (appointment_time self) (status self) v (client_service_session self).
Definition set_client_service_session (v : option positive) (self : t) : t :=
  mk (pk self) (client self) (service self) (staff self) (appointment_date self)
     (appointment_time self) (status self) (client_package self) v.

(** The tables [Appointment] methods read and write. *)
Record DB : Type := mk_db {
  objects : list t;
  client_packages : ClientPackage.objects;
  client_service_sessions : ClientServiceSession.objects;
  package_services : list (positive * positive)
}.

Definition set_objects (rows : list t) (db : DB) : DB :=
  mk_db rows (client_packages db) (client_service_sessions db) (package_services db).
Definition set_client_packages (rows : ClientPackage.objects) (db : DB) : DB :=
  mk_db (objects db) rows (client_service_sessions db) (package_services db).
Definition set_client_service_sessions (rows : ClientServiceSession.objects) (db : DB) : DB :=
  mk_db (objects db) (client_packages db) rows (package_services db).

(** A [datetime] as the microseconds of the local time line.
    [timezone.make_aware] attaches the default time zone; the datetimes
    compared by [clean] lie on one date of one zone, where adding a
    [timedelta] and comparing follow the local time line. *)
Definition combine (date : Z) (tm : time) : Z :=
  (((date * 24 + hour tm) * 60 + minute tm) * 60 + second tm) * 1000000
  + microsecond tm.
Definition make_aware (dt : Z) : Z := dt.
Definition timedelta_minutes (m : Z) : Z := m * 60 * 1000000.

Definition start_datetime (self : t) : Z :=
  make_aware (combine (appointment_date self) (appointment_time self)).
Definition end_datetime (self : t) : Z :=
  start_datetime self + timedelta_minutes (Service.duration (service self)).

(** [status__in=['pending', 'confirmed']] *)
Definition is_active (s : status_t) : bool :=
  status_eqb s pending || status_eqb s confirmed.

(** [.exclude(pk=k)]; [exclude(pk=None)] keeps the rows that have a key. *)
Definition exclude_pk (k : option positive) (r : t) : bool :=
  match k with
  | Some id => negb (has_pk pk id r)
  | None => negb (is_none (pk r))
  end.

Fixpoint for_each {S A} (l : list A) (body : A -> M S unit) : M S unit :=
  match l with
  | [] => ret tt
  | x :: l' => body x ;;; for_each l' body
  end.

(** The query of [clean].  The order of the rows ([Meta.ordering]) only
    chooses which row the message names, and the message is kept without
    the formatted row. *)
Definition overlapping (self : t) (db : DB) : list t :=
  filter (fun r =>
            Pos.eqb (staff r) (staff self)
            && (appointment_date r =? appointment_date self)
            && is_active (status r)
            && exclude_pk (pk self) r)
         (objects db).

Definition clean (self : t) : M DB unit :=
  if is_none (pk self) then   (* Only check for new appointments *)
    existing <- gets (overlapping self) ;;
    for_each existing (fun existing_appt =>
      let existing_start := start_datetime existing_appt in
      let existing_end := end_datetime existing_appt in
      (* Check if appointments overlap *)
      if (start_datetime self <? existing_end) && (existing_start <? end_datetime self)
      then raise (ValidationError "Appointment overlaps with existing appointment")
      else ret tt)
  else ret tt.

Definition same_slot (a b : t) : bool :=
  Pos.eqb (staff a) (staff b)
  && (appointment_date a =? appointment_date b)
  && time_eqb (appointment_time a) (appointment_time b).

(** [Meta.constraints]: [UniqueConstraint] on (staff, appointment_date,
    appointment_time), as [Model.validate_constraints] checks it: some
    row other than the instance's own holds the same triple. *)
Definition unique_staff_appointment_time (self : t) (rows : list t) : bool :=
  negb (existsb (fun r => same_slot r self
                          && match pk self with
                             | Some id => negb (has_pk pk id r)
                             | None => true
                             end) rows).

Definition validate_constraints (self : t) : M DB unit :=
  fun db =>
    if unique_staff_appointment_time self (objects db)
    then (Ok tt, db)
    else (Raise (ValidationError
            "Appointment with this Staff, Appointment date and Appointment time already exists."),
          db).

(** [Model.full_clean]: [clean], then the constraints; the field checks
    are left out (on a [t] only the one of a package or session link that
    names no record can fail).  Django gathers the messages of both in one
    [ValidationError]; the first one stands for it here. *)
Definition full_clean (self : t) : M DB unit :=
  clean self ;;; validate_constraints self.

Inductive field : Type := client_package_field | client_service_session_field.

Definition copy_field (self : t) (row : t) (f : field) : t :=
  match f with
  | client_package_field => set_client_package (client_package self) row
  | client_service_session_field =>
      set_client_service_session (client_service_session self) row
  end.

(** [super().save(update_fields=...)]: without [update_fields] the whole
    row is written; with it, only the listed columns of the row of the
    instance, which has to exist. *)
Definition super_save (update_fields : option (list field)) (self : t) : M DB t :=
  fun db =>
    match update_fields with
    | None =>
        let (self', rows) := base_save pk with_pk self (objects db) in
        (Ok self', set_objects rows db)
    | Some fields =>
        match pk self with
        | Some id =>
            if existsb (has_pk pk id) (objects db)
            then (Ok self,
                  set_objects
                    (map (fun r => if has_pk pk id r
                                   then fold_left (copy_field self) fields r
                                   else r) (objects db)) db)
            else (Raise DoesNotExist, db)
        | None => (Raise ValueError, db)
        end
    end.

(** [package__services=self.service] *)
Definition package_includes (p : Package.t) (svc : Service.t)
           (through : list (positive * positive)) : bool :=
  match Package.pk p with
  | Some id => existsb (fun row => Pos.eqb (fst row) id
                                   && Pos.eqb (snd row) (Service.pk svc)) through
  | None => false
  end.

(** [ClientPackage.Meta.ordering = ['-assigned_date']]; rows of one date
    keep the order of the table. *)
Fixpoint insert_by_assigned_date (x : ClientPackage.t) (l : list ClientPackage.t)
  : list ClientPackage.t :=
  match l with
  | [] => [x]
  | y :: l' =>
      if ClientPackage.assigned_date y <=? ClientPackage.assigned_date x
      then x :: y :: l'
      else y :: insert_by_assigned_date x l'
  end.

Definition order_by_assigned_date_desc (l : list ClientPackage.t) : list ClientPackage.t :=
  fold_right insert_by_assigned_date [] l.

Definition active_packages (self : t) (db : DB) : list ClientPackage.t :=
  order_by_assigned_date_desc
    (filter (fun cp =>
               Pos.eqb (ClientPackage.client cp) (client self)
               && package_includes (ClientPackage.package cp) (service self)
                                   (package_services db)
               && negb (ClientPackage.is_completed cp))
            (client_packages db)).

Section Methods.
Variable today : Z.

(** Following the foreign key [self.client_package]. *)
Definition fetch_client_package (id : positive) : M DB ClientPackage.t :=
  fun db => match get ClientPackage.pk id (client_packages db) with
            | Some r => (Ok r, db)
            | None => (Raise DoesNotExist, db)
            end.

Definition fetch_client_service_session (id : positive)
  : M DB ClientServiceSession.t :=
  fun db => match get ClientServiceSession.pk id (client_service_sessions db) with
            | Some r => (Ok r, db)
            | None => (Raise DoesNotExist, db)
            end.

Definition on_client_packages {A} (c : M ClientPackage.objects A) : M DB A :=
  zoom client_packages set_client_packages c.
Definition on_client_service_sessions {A} (c : M ClientServiceSession.objects A)
  : M DB A :=
  zoom client_service_sessions set_client_service_sessions c.

(** [_auto_track_session], with the [self.save] it calls as a parameter. *)
Definition _auto_track_session
           (save : option (list field) -> t -> M DB t) (self : t) : M DB t :=
  (* Check for active packages containing this service *)
  active <- gets (active_packages self) ;;
  match active with
  | package :: _ =>
      (* Assign to the first active package *)
      let self := set_client_package (ClientPackage.pk package) self in
      _ <- on_client_packages (ClientPackage.add_session today package) ;;
      save (Some [client_package_field]) self
  | [] =>
      (* Check if service requires multiple sessions *)
      if 1 <? Service.sessions_required (service self) then
        got <- on_client_service_sessions
                 (ClientServiceSession.get_or_create today (client self) (service self)) ;;
        let service_session := fst got in
        if negb (ClientServiceSession.is_completed service_session) then
          added <- on_client_service_sessions
                     (ClientServiceSession.add_session today service_session) ;;
          let self := set_client_service_session
                        (ClientServiceSession.pk (snd added)) self in
          save (Some [client_service_session_field]) self
        else ret self
      else ret self
  end.

(** [save]; [depth] bounds the nesting of [save] calls as the
    interpreter's recursion limit does. *)
Fixpoint save (depth : nat) (update_fields : option (list field)) (self : t)
  : M DB t :=
  match depth with
  | O => raise RecursionError
  | S depth' =>
      full_clean self ;;;
      let is_new := is_none (pk self) in
      self <- super_save update_fields self ;;
      (* Auto-track session when appointment is marked as completed *)
      if status_eqb (status self) completed && negb is_new then
        match client_package self, client_service_session self with
        | Some id, _ =>
            cp <- fetch_client_package id ;;
            _ <- on_client_packages (ClientPackage.add_session today cp) ;;
            ret self
        | None, Some id =>
            css <- fetch_client_service_session id ;;
            _ <- on_client_service_sessions (ClientServiceSession.add_session today css) ;;
            ret self
        | None, None => _auto_track_session (save depth') self
        end
      else ret self
  end.
End Methods.

(** [get_end_time] follows below, with the other methods that read an
    appointment. *)
End Appointment.

(** ** pos.models.Order *)

Module Order.
Record t : Type := mk {
  pk : option positive;
  client : option positive;    (* optional: walk-ins *)
  total_price : Z              (* hundredths *)
}.

Definition with_pk (id : positive) (self : t) : t :=
  mk (Some id) (client self) (total_price self).
Definition set_total_price (v : Z) (self : t) : t :=
  mk (pk self) (client self) v.
End Order.

(** ** pos.models.OrderItem

    The instance holds the related service and appointment as the objects
    assigned to it (Django keeps the object given to the constructor on the
    instance); [product] is read for presence only and is held as a key.
    [order] is the key of the parent; [save] reads the parent row from the
    table.  An amount is held in hundredths; [subtotal] is [None] on an
    instance that was given none. *)

Module OrderItem.
Record t : Type := mk {
  pk : option positive;
  order : positive;
  product : option positive;
  service : option Service.t;
  appointment : option Appointment.t;
  quantity : Z;
  unit_price : Z;              (* hundredths *)
  subtotal : option Z          (* hundredths *)
}.

Definition with_pk (id : positive) (self : t) : t :=
  mk (Some id) (order self) (product self) (service self) (appointment self)
     (quantity self) (unit_price self) (subtotal self).
Definition set_subtotal (v : option Z) (self : t) : t :=
  mk (pk self) (order self) (product self) (service self) (appointment self)
     (quantity self) (unit_price self) v.

(** The tables of the point of sale. *)
Record store : Type := mk_store {
  orders : list Order.t;
  objects : list t
}.

Definition set_orders (rows : list Order.t) (st : store) : store :=
  mk_store rows (objects st).
Definition set_objects (rows : list t) (st : store) : store :=
  mk_store (orders st) rows.

(** [DecimalField(max_digits=10, decimal_places=2)]: an amount of at most
    10 digits, two of them after the point. *)
Definition ten_digits (amount : Z) : bool := Z.abs amount <? 10 ^ 10.

(** The upper end of a [PositiveIntegerField], from
    [connection.ops.integer_field_range]: the 64-bit range of SQLite. *)
Definition max_quantity : Z := 9223372036854775807.

(** Python's [sum] over the subtotals, a left fold from 0; adding [None]
    raises [TypeError]. *)
Definition sum (l : list (option Z)) : outcome Z :=
  fold_left (fun acc x => match acc, x with
                          | Ok a, Some v => Ok (a + v)
                          | Ok _, None => Raise TypeError
                          | Raise e, _ => Raise e
                          end) l (Ok 0).

(** The rows of [order.items]. *)
Definition items (order_id : positive) (st : store) : list t :=
  filter (fun it => Pos.eqb (order it) order_id) (objects st).

Definition clean (self : t) : M store unit :=
  match product self, service self with
  | None, None =>
      raise (ValidationError "Order item must have either a product or a service.")
  | Some _, Some _ =>
      raise (ValidationError "Order item cannot have both a product and a service.")
  | _, _ =>
      (* If service is provided, validate appointment link if applicable *)
      match service self, appointment self with
      | Some svc, Some appt =>
          if negb (Service.eqb (Appointment.service appt) svc)
          then raise (ValidationError "Appointment service must match order item service.")
          else ret tt
      | _, _ => ret tt
      end
  end.

(** [Model.clean_fields], field by field: the [order] key has to name a
    row; [quantity] runs the range validators of its field; [unit_price]
    and [subtotal] run [DecimalValidator(10, 2)], and a [subtotal] of
    [None] is refused by the field, which is not nullable. *)
Definition clean_fields (self : t) : M store unit :=
  fun st =>
    (match get Order.pk (order self) (orders st) with
     | None => Raise (ValidationError "order instance does not exist.")
     | Some _ =>
         if quantity self <? 0 then
           Raise (ValidationError "Ensure this value is greater than or equal to 0.")
         else if max_quantity <? quantity self then
           Raise (ValidationError
                    "Ensure this value is less than or equal to 9223372036854775807.")
         else if negb (ten_digits (unit_price self)) then
           Raise (ValidationError "Ensure that there are no more than 10 digits in total.")
         else
           match subtotal self with
           | None => Raise (ValidationError "This field cannot be null.")
           | Some s =>
               if ten_digits s then Ok tt
               else Raise (ValidationError
                             "Ensure that there are no more than 10 digits in total.")
           end
     end, st).

(** [Model.full_clean]: [clean_fields], then [clean]; the model has no
    unique field besides its key and no constraint.  Django runs [clean]
    also after a field error and raises one [ValidationError] with all the
    messages; the embedding raises the first of them. *)
Definition full_clean (self : t) : M store unit :=
  clean_fields self ;;; clean self.

(** [super().save()]: the write checks nothing that [full_clean] has not
    checked. *)
Definition super_save (self : t) : M store t :=
  fun st =>
    let (self', rows) := base_save pk with_pk self (objects st) in
    (Ok self', set_objects rows st).

(** [self.order]: the parent row, read from the table.  A decimal column
    is converted on the way out of the database, and the conversion of an
    amount of more than 10 digits raises [decimal.InvalidOperation]. *)
Definition fetch_order (id : positive) : M store Order.t :=
  fun st => match get Order.pk id (orders st) with
            | Some o => if ten_digits (Order.total_price o)
                        then (Ok o, st)
                        else (Raise InvalidOperation, st)
            | None => (Raise DoesNotExist, st)
            end.

(** Whether the decimal columns of a row convert. *)
Definition readable (it : t) : bool :=
  ten_digits (unit_price it)
  && match subtotal it with
     | Some s => ten_digits s
     | None => true
     end.

(** [self.order.items.all()], evaluated: every row of the order is
    converted before the first one is used. *)
Definition fetch_items (order_id : positive) : M store (list t) :=
  fun st => if forallb readable (items order_id st)
            then (Ok (items order_id st), st)
            else (Raise InvalidOperation, st).

(** [Order.save]: the model does not override it, and nothing is
    validated. *)
Definition order_save (o : Order.t) : M store Order.t :=
  fun st =>
    let (o', rows) := base_save Order.pk Order.with_pk o (orders st) in
    (Ok o', set_orders rows st).

Definition save (self : t) : M store t :=
  full_clean self ;;;
  (* Calculate subtotal *)
  let self := set_subtotal (Some (quantity self * unit_price self)) self in
  self <- super_save self ;;
  (* Update order total *)
  parent <- fetch_order (order self) ;;
  siblings <- fetch_items (order self) ;;
  total <- lift (sum (map subtotal siblings)) ;;
  _ <- order_save (Order.set_total_price total parent) ;;
  ret self.

(** [item.delete()]: the parent's total is not touched. *)
Definition delete (id : positive) : M store unit :=
  modify (fun st => set_objects (Table.delete pk id (objects st)) st).

End OrderItem.

(** * Vocabulary of the properties *)

(** The completion date a [save] leaves, from the flag and the date it
    found: stamped on the way to completed, cleared on the way back. *)
Definition date_after_save (today : Z) (reached was_completed : bool)
           (date : option Z) : option Z :=
  if reached then
    if was_completed then date
    else match date with
         | None => Some today
         | Some d => Some d
         end
  else if was_completed then None else date.

(** Case analysis on the branches of a [save] of a session record. *)
Ltac save_fields self E Hself :=
  destruct self; cbn in *;
  repeat match goal with
         | |- context [if ?b then _ else _] => destruct b eqn:?; cbn in *
         | H : context [if ?b then _ else _] |- _ => destruct b eqn:?; cbn in *
         | |- context [match ?o with Some _ => _ | None => _ end] => destruct o eqn:?; cbn in *
         | H : context [match ?o with Some _ => _ | None => _ end] |- _ =>
             destruct o eqn:?; cbn in *
         end;
  subst; cbn in *; repeat split; try reflexivity; try congruence;
  try (intros; cbn in *; congruence).

(** [start], [start + 1], ..., [n] numbers in all. *)
Fixpoint range (start : Z) (n : nat) : list Z :=
  match n with
  | O => []
  | S n' => start :: range (start + 1) n'
  end.

(** What [OrderItem.clean] rejects. *)
Definition malformed (self : OrderItem.t) : Prop :=
  (OrderItem.product self = None /\ OrderItem.service self = None)
  \/ (OrderItem.product self <> None /\ OrderItem.service self <> None)
  \/ (exists svc appt,
         OrderItem.service self = Some svc
         /\ OrderItem.appointment self = Some appt
         /\ Service.eqb (Appointment.service appt) svc = false).

(** An amount that fits a decimal column of 10 digits. *)
Definition fits (amount : Z) : Prop := Z.abs amount < 10 ^ 10.

(** The fields of an order item pass field validation on every database
    backend: the order exists, the quantity is in the 32-bit range of a
    [PositiveIntegerField], and the unit price and the supplied subtotal
    are amounts of at most 10 digits. *)
Definition fields_valid (self : OrderItem.t) (st : OrderItem.store) : Prop :=
  (exists parent, get Order.pk (OrderItem.order self) (OrderItem.orders st) = Some parent)
  /\ 0 <= OrderItem.quantity self <= 2147483647
  /\ fits (OrderItem.unit_price self)
  /\ exists s, OrderItem.subtotal self = Some s /\ fits s.

(** What [clean_fields] checks, with the range of the quantity as the
    embedding has it. *)
Definition fields_pass (self : OrderItem.t) (st : OrderItem.store) : Prop :=
  (exists parent, get Order.pk (OrderItem.order self) (OrderItem.orders st) = Some parent)
  /\ 0 <= OrderItem.quantity self <= OrderItem.max_quantity
  /\ fits (OrderItem.unit_price self)
  /\ exists s, OrderItem.subtotal self = Some s /\ fits s.






(** The triple of the unique constraint. *)
Definition slot (a : Appointment.t) : positive * Z * Appointment.time :=
  (Appointment.staff a, Appointment.appointment_date a, Appointment.appointment_time a).

(** The interval test of [clean], between a new appointment and a row. *)
Definition intervals_intersect (self r : Appointment.t) : Prop :=
  Appointment.start_datetime self < Appointment.end_datetime r
  /\ Appointment.end_datetime self > Appointment.start_datetime r.

(** [intervals_intersect] as [clean] computes it. *)
Definition intersects (self r : Appointment.t) : bool :=
  (Appointment.start_datetime self <? Appointment.end_datetime r)
  && (Appointment.start_datetime r <? Appointment.end_datetime self).

(** An existing appointment that blocks [self]: same staff member, same
    date, pending or confirmed, intersecting interval. *)
Definition blocks (self r : Appointment.t) : Prop :=
  Appointment.pk r <> None
  /\ Appointment.staff r = Appointment.staff self
  /\ Appointment.appointment_date r = Appointment.appointment_date self
  /\ (Appointment.status r = Appointment.pending
      \/ Appointment.status r = Appointment.confirmed)
  /\ intervals_intersect self r.

(** A row other than the instance's own that holds the same triple. *)
Definition takes_slot (self r : Appointment.t) : Prop :=
  slot r = slot self
  /\ match Appointment.pk self with
     | Some id => Appointment.pk r <> Some id
     | None => True
     end.





(** A list of client packages ordered by [assigned_date], latest first. *)
Fixpoint latest_first (l : list ClientPackage.t) : Prop :=
  match l with
  | [] => True
  | x :: rest =>
      (forall c, In c rest -> ClientPackage.assigned_date c <= ClientPackage.assigned_date x)
      /\ latest_first rest
  end.

(** The key of (client, service) in [get_or_create]. *)
Definition tracks (client_id : positive) (svc : Service.t) (r : ClientServiceSession.t) : bool :=
  Pos.eqb (ClientServiceSession.client r) client_id
  && Service.eqb (ClientServiceSession.service r) svc.

(** * Sample records *)



(** The package of [test_client_package_add_session]: three sessions. *)
Definition three_session_package : Package.t := Package.mk (Some 1%positive) 3.

(** Client 7 on that package: none done, two done, and three done with
    the flag set but no completion date. *)
Definition fresh_client_package : ClientPackage.t :=
  ClientPackage.mk (Some 1%positive) 7 three_session_package 0 false 100 None.
Definition nearly_done_client_package : ClientPackage.t :=
  ClientPackage.mk (Some 1%positive) 7 three_session_package 2 false 100 None.
Definition flagged_without_date : ClientPackage.t :=
  ClientPackage.mk (Some 1%positive) 7 three_session_package 3 true 100 None.

(** A counter written directly to the target, and one written back
    below it. *)
Definition edited_up : ClientPackage.t :=
  ClientPackage.mk (Some 1%positive) 7 three_session_package 3 false 100 None.
Definition edited_down : ClientPackage.t :=
  ClientPackage.mk (Some 1%positive) 7 three_session_package 1 true 100 (Some 120).

(** A package of zero sessions, and three sessions done of six. *)
Definition package_without_sessions : ClientPackage.t :=
  ClientPackage.mk None 7 (Package.mk (Some 2%positive) 0) 5 false 100 None.
Definition half_done_client_package : ClientPackage.t :=
  ClientPackage.mk None 7 (Package.mk (Some 3%positive) 6) 3 false 100 None.

(** Two services: a single-session facial of 60 minutes and a laser
    course of six sessions. *)
Definition facial : Service.t := Service.mk 1 60 1.
Definition laser : Service.t := Service.mk 2 45 6.

(** A confirmed facial of client 7 with staff member 2 on day 200. *)
Definition facial_appointment : Appointment.t :=
  Appointment.mk (Some 1%positive) 7 facial 2 200 (Appointment.mk_time 10 0 0 0)
                 Appointment.confirmed None None.

(** An order of client 7 without lines yet. *)
Definition open_order : Order.t := Order.mk (Some 1%positive) (Some 7%positive) 0.
Definition one_order : OrderItem.store := OrderItem.mk_store [open_order] [].

(** A cream sold twice at 12.50, entered with a wrong subtotal. *)
Definition cream_item : OrderItem.t :=
  OrderItem.mk None 1 (Some 3%positive) None None 2 1250 (Some 99).



(** The facial billed against its own appointment. *)
Definition facial_item : OrderItem.t :=
  OrderItem.mk None 1 None (Some facial) (Some facial_appointment) 1 8000 (Some 8000).

(** An order with the cream (2 x 12.50) and the facial (1 x 80.00). *)
Definition two_line_order : OrderItem.store :=
  snd (OrderItem.save facial_item
         (snd (OrderItem.save cream_item
                 (snd (OrderItem.order_save open_order (OrderItem.mk_store [] [])))))).

(** A serum sold three times at 40.00. *)
Definition serum_item : OrderItem.t :=
  OrderItem.mk None 1 (Some 5%positive) None None 3 4000 (Some 0).

(** [time(h, m)] *)
Definition at_time (h m : Z) : Appointment.time := Appointment.mk_time h m 0 0.

(** A 60-minute facial at 10:00 with staff member 2 on day 200. *)
Definition booked_at_10 : Appointment.t :=
  Appointment.mk (Some 1%positive) 7 facial 2 200 (at_time 10 0)
                 Appointment.confirmed None None.


(** A new request of client 8 for a facial with the same staff member on
    the same day. *)
Definition request_at (h m : Z) : Appointment.t :=
  Appointment.mk None 8 facial 2 200 (at_time h m) Appointment.pending None None.

(** A database with one appointment and nothing else. *)
Definition day_with (a : Appointment.t) : Appointment.DB :=
  Appointment.mk_db [a] [] [] [].

(** A completed laser appointment of client 7 (six sessions required). *)
Definition laser_done : Appointment.t :=
  Appointment.mk (Some 1%positive) 7 laser 2 200 (at_time 10 0)
                 Appointment.completed None None.

(** A completed facial of client 7. *)
Definition facial_done : Appointment.t :=
  Appointment.mk (Some 1%positive) 7 facial 2 200 (at_time 10 0)
                 Appointment.completed None None.

(** The client's laser course, already at six of six. *)
Definition finished_course : ClientServiceSession.t :=
  ClientServiceSession.mk (Some 1%positive) 7 laser 6 true 100 (Some 180).
Definition after_finished_course : Appointment.DB :=
  Appointment.mk_db [laser_done] [] [finished_course] [].

(** Client 7 holds the three-session package, none done, and the package
    includes the facial. *)
Definition with_open_package : Appointment.DB :=
  Appointment.mk_db [facial_done] [fresh_client_package] [] [(1, 1)]%positive.

(** * Further methods of the models *)

(** ** Appointment.get_end_time *)

Module AppointmentEnd.
(** [datetime.date.max.toordinal()]: a [datetime] past 9999-12-31 does not
    exist, and the sum that would give one raises [OverflowError]. *)
Definition max_ordinal : Z := 3652059.

Definition day_microseconds : Z := 86400000000.

(** Microseconds since midnight of a [datetime.time]. *)
Definition microseconds_of (tm : Appointment.time) : Z :=
  ((Appointment.hour tm * 60 + Appointment.minute tm) * 60 + Appointment.second tm) * 1000000
  + Appointment.microsecond tm.

(** The values [datetime.time] can hold. *)
Definition valid_time (tm : Appointment.time) : Prop :=
  0 <= Appointment.hour tm < 24 /\ 0 <= Appointment.minute tm < 60
  /\ 0 <= Appointment.second tm < 60 /\ 0 <= Appointment.microsecond tm < 1000000.

(** [datetime.time()]: the time of day of a point of the time line. *)
Definition time_of (dt : Z) : Appointment.time :=
  let us := dt mod day_microseconds in
  Appointment.mk_time (us / 3600000000) ((us / 60000000) mod 60)
                      ((us / 1000000) mod 60) (us mod 1000000).

(** The day ordinal of a point of the time line. *)
Definition ordinal_of (dt : Z) : Z := dt / day_microseconds.

(** [datetime + timedelta] *)
Definition add_timedelta (dt delta : Z) : outcome Z :=
  if (1 <=? ordinal_of (dt + delta)) && (ordinal_of (dt + delta) <=? max_ordinal)
  then Ok (dt + delta)
  else Raise OverflowError.

Definition get_end_time (self : Appointment.t) : outcome Appointment.time :=
  let start_datetime :=
    Appointment.combine (Appointment.appointment_date self)
                        (Appointment.appointment_time self) in
  match add_timedelta start_datetime
          (Appointment.timedelta_minutes (Service.duration (Appointment.service self))) with
  | Ok end_datetime => Ok (time_of end_datetime)
  | Raise e => Raise e
  end.
End AppointmentEnd.

(** * core.views: the session buttons of the client profile

    The bodies of the views, for a logged-in POST request (the decorators
    [login_required] and [require_POST] answer the other requests before
    the body runs).  A view returns its response and leaves the tables and
    the messages queued for the next page.  A message built by an f-string
    is kept as its text pattern with the values it formats; dates of a JSON
    answer are kept as dates, not as [strftime] text. *)

Module Views.
(** What the [try] blocks of the views catch: [Http404] of
    [get_object_or_404], or an exception of the models. *)
Inductive caught : Type :=
| Http404
| model_error (e : exn).

Inductive level : Type := success | info | warning | error.

Inductive text : Type :=
| plain (s : string)
| session_added_progress (done total : Z)   (* 'Session added! Progress: {}/{}' *)
| error_adding_session (e : caught)         (* 'Error adding session: {}' *)
| error_adjusting_session (e : caught).     (* 'Error adjusting session: {}' *)

Record state : Type := mk_state {
  client_packages : ClientPackage.objects;
  client_service_sessions : ClientServiceSession.objects;
  messages : list (level * text)
}.

Definition set_client_packages (rows : ClientPackage.objects) (st : state) : state :=
  mk_state rows (client_service_sessions st) (messages st).
Definition set_client_service_sessions (rows : ClientServiceSession.objects) (st : state)
  : state :=
  mk_state (client_packages st) rows (messages st).

(** [messages.success(request, ...)] and the like. *)
Definition add_message (l : level) (t : text) (st : state) : state :=
  mk_state (client_packages st) (client_service_sessions st) (messages st ++ [(l, t)]).

(** The body of the JSON answer of [adjust_session_count]. *)
Record session_json : Type := mk_json {
  json_sessions_completed : Z;
  json_total_sessions : Z;
  json_is_completed : bool;
  json_progress_percentage : Z;
  json_completed_date : option Z;
  json_assigned_date : option Z;
  json_started_date : option Z
}.

Inductive response : Type :=
| redirect_client_profile (client_id : positive)
| redirect_admin_index
| JsonResponse (status : Z) (body : session_json)
| JsonError (status : Z) (e : caught).

Section Requests.
(** The date of the request. *)
Variable today : Z.

(** [client_package.refresh_from_db()] *)
Definition refresh_package (self : ClientPackage.t) (st : state) : outcome ClientPackage.t :=
  match ClientPackage.pk self with
  | Some id => match get ClientPackage.pk id (client_packages st) with
               | Some row => Ok row
               | None => Raise DoesNotExist
               end
  | None => Raise DoesNotExist
  end.

(** [service_session.refresh_from_db()] *)
Definition refresh_service (self : ClientServiceSession.t) (st : state)
  : outcome ClientServiceSession.t :=
  match ClientServiceSession.pk self with
  | Some id => match get ClientServiceSession.pk id (client_service_sessions st) with
               | Some row => Ok row
               | None => Raise DoesNotExist
               end
  | None => Raise DoesNotExist
  end.

(** The [except Exception] branch of [add_package_session]. *)
Definition add_package_session_failed (client_package_id : positive) (e : caught)
           (st : state) : response * state :=
  let st := add_message error (error_adding_session e) st in
  (* Try to get client_id even if there's an error *)
  match get ClientPackage.pk client_package_id (client_packages st) with
  | Some client_package => (redirect_client_profile (ClientPackage.client client_package), st)
  | None => (redirect_admin_index, st)
  end.

Definition add_package_session (client_package_id : positive) (st : state)
  : response * state :=
  match get ClientPackage.pk client_package_id (client_packages st) with
  | None => add_package_session_failed client_package_id Http404 st
  | Some client_package =>
      if ClientPackage.is_completed client_package then
        (redirect_client_profile (ClientPackage.client client_package),
         add_message warning (plain "This package is already completed.") st)
      else
        match ClientPackage.add_session today client_package (client_packages st) with
        | (Raise e, rows) =>
            add_package_session_failed client_package_id (model_error e)
                                       (set_client_packages rows st)
        | (Ok (true, client_package), rows) =>
            let st := set_client_packages rows st in
            (* Refresh from database to get updated values *)
            match refresh_package client_package st with
            | Raise e => add_package_session_failed client_package_id (model_error e) st
            | Ok client_package =>
                let st := add_message success
                            (session_added_progress
                               (ClientPackage.sessions_completed client_package)
                               (Package.total_sessions
                                  (ClientPackage.package client_package)))
                            st in
                let st := if ClientPackage.is_completed client_package
                          then add_message info (plain "Package completed!") st
                          else st in
                (redirect_client_profile (ClientPackage.client client_package), st)
            end
        | (Ok (false, client_package), rows) =>
            (redirect_client_profile (ClientPackage.client client_package),
             add_message error (plain "Could not add session.")
                         (set_client_packages rows st))
        end
  end.

(** The [except Exception] branch of [add_service_session]. *)
Definition add_service_session_failed (service_session_id : positive) (e : caught)
           (st : state) : response * state :=
  let st := add_message error (error_adding_session e) st in
  match get ClientServiceSession.pk service_session_id (client_service_sessions st) with
  | Some service_session =>
      (redirect_client_profile (ClientServiceSession.client service_session), st)
  | None => (redirect_admin_index, st)
  end.

Definition add_service_session (service_session_id : positive) (st : state)
  : response * state :=
  match get ClientServiceSession.pk service_session_id (client_service_sessions st) with
  | None => add_service_session_failed service_session_id Http404 st
  | Some service_session =>
      if ClientServiceSession.is_completed service_session then
        (redirect_client_profile (ClientServiceSession.client service_session),
         add_message warning (plain "This service is already completed.") st)
      else
        match ClientServiceSession.add_session today service_session
                (client_service_sessions st) with
        | (Raise e, rows) =>
            add_service_session_failed service_session_id (model_error e)
                                       (set_client_service_sessions rows st)
        | (Ok (true, service_session), rows) =>
            let st := set_client_service_sessions rows st in
            match refresh_service service_session st with
            | Raise e => add_service_session_failed service_session_id (model_error e) st
            | Ok service_session =>
                let st := add_message success
                            (session_added_progress
                               (ClientServiceSession.sessions_completed service_session)
                               (Service.sessions_required
                                  (ClientServiceSession.service service_session)))
                            st in
                let st := if ClientServiceSession.is_completed service_session
                          then add_message info (plain "Service completed!") st
                          else st in
                (redirect_client_profile (ClientServiceSession.client service_session), st)
            end
        | (Ok (false, service_session), rows) =>
            (redirect_client_profile (ClientServiceSession.client service_session),
             add_message error (plain "Could not add session.")
                         (set_client_service_sessions rows st))
        end
  end.

(** The [item] of [adjust_session_count]: a client package or a client
    service session, with the attributes the view reads through it. *)
Inductive item : Type :=
| package_item (cp : ClientPackage.t)
| service_item (css : ClientServiceSession.t).

Definition item_client (it : item) : positive :=
  match it with
  | package_item cp => ClientPackage.client cp
  | service_item css => ClientServiceSession.client css
  end.
Definition item_sessions_completed (it : item) : Z :=
  match it with
  | package_item cp => ClientPackage.sessions_completed cp
  | service_item css => ClientServiceSession.sessions_completed css
  end.
Definition item_is_completed (it : item) : bool :=
  match it with
  | package_item cp => ClientPackage.is_completed cp
  | service_item css => ClientServiceSession.is_completed css
  end.
Definition item_completed_date (it : item) : option Z :=
  match it with
  | package_item cp => ClientPackage.completed_date cp
  | service_item css => ClientServiceSession.completed_date css
  end.
Definition item_total_sessions (it : item) : Z :=
  match it with
  | package_item cp => Package.total_sessions (ClientPackage.package cp)
  | service_item css => Service.sessions_required (ClientServiceSession.service css)
  end.
Definition item_get_progress_percentage (it : item) : outcome Z :=
  match it with
  | package_item cp => ClientPackage.get_progress_percentage cp
  | service_item css => ClientServiceSession.get_progress_percentage css
  end.

(** [item.add_session()] *)
Definition item_add_session (it : item) (st : state) : outcome item * state :=
  match it with
  | package_item cp =>
      match ClientPackage.add_session today cp (client_packages st) with
      | (Ok (_, cp'), rows) => (Ok (package_item cp'), set_client_packages rows st)
      | (Raise e, rows) => (Raise e, set_client_packages rows st)
      end
  | service_item css =>
      match ClientServiceSession.add_session today css (client_service_sessions st) with
      | (Ok (_, css'), rows) => (Ok (service_item css'), set_client_service_sessions rows st)
      | (Raise e, rows) => (Raise e, set_client_service_sessions rows st)
      end
  end.

(** [item.sessions_completed -= 1; item.is_completed = False;
    item.completed_date = None; item.save()] *)
Definition item_remove_session (it : item) (st : state) : outcome item * state :=
  match it with
  | package_item cp =>
      let cp := ClientPackage.set_completed_date None
                  (ClientPackage.set_is_completed false
                     (ClientPackage.set_sessions_completed
                        (ClientPackage.sessions_completed cp - 1) cp)) in
      match ClientPackage.save today cp (client_packages st) with
      | (Ok cp', rows) => (Ok (package_item cp'), set_client_packages rows st)
      | (Raise e, rows) => (Raise e, set_client_packages rows st)
      end
  | service_item css =>
      let css := ClientServiceSession.set_completed_date None
                   (ClientServiceSession.set_is_completed false
                      (ClientServiceSession.set_sessions_completed
                         (ClientServiceSession.sessions_completed css - 1) css)) in
      match ClientServiceSession.save today css (client_service_sessions st) with
      | (Ok css', rows) => (Ok (service_item css'), set_client_service_sessions rows st)
      | (Raise e, rows) => (Raise e, set_client_service_sessions rows st)
      end
  end.

(** [item.refresh_from_db()] *)
Definition item_refresh_from_db (it : item) (st : state) : outcome item :=
  match it with
  | package_item cp =>
      match refresh_package cp st with
      | Ok row => Ok (package_item row)
      | Raise e => Raise e
      end
  | service_item css =>
      match refresh_service css st with
      | Ok row => Ok (service_item row)
      | Raise e => Raise e
      end
  end.

(** The [except Exception] branch of [adjust_session_count]. *)
Definition adjust_failed (ajax : bool) (client_id : option positive) (e : caught)
           (st : state) : response * state :=
  if ajax then (JsonError 400 e, st)
  else
    let st := add_message error (error_adjusting_session e) st in
    match client_id with
    | Some id => (redirect_client_profile id, st)
    | None => (redirect_admin_index, st)
    end.

(** [ajax] is [request.headers.get('x-requested-with') == 'XMLHttpRequest'],
    [action] is [request.POST.get('action')]. *)
Definition adjust_session_count (ajax : bool) (action : option string)
           (item_type : string) (item_id : positive) (st : state) : response * state :=
  let found :=
    if String.eqb item_type "package" then
      Some (option_map package_item (get ClientPackage.pk item_id (client_packages st)))
    else if String.eqb item_type "service" then
      Some (option_map service_item
              (get ClientServiceSession.pk item_id (client_service_sessions st)))
    else None in
  match found with
  | None => (redirect_admin_index, st)
  | Some None => adjust_failed ajax None Http404 st
  | Some (Some it) =>
      let total_sessions := item_total_sessions it in
      let client_id := item_client it in
      let notify (l : level) (s : string) (st : state) : state :=
        if ajax then st else add_message l (plain s) st in
      let adjusted : outcome item * state :=
        match action with
        | Some a =>
            if String.eqb a "increment" then
              if negb (item_is_completed it) then
                match item_add_session it st with
                | (Ok it', st') => (Ok it', notify success "Session added."%string st')
                | (Raise e, st') => (Raise e, st')
                end
              else (Ok it, notify warning "Already completed."%string st)
            else if String.eqb a "decrement" then
              if 0 <? item_sessions_completed it then
                match item_remove_session it st with
                | (Ok it', st') => (Ok it', notify success "Session removed."%string st')
                | (Raise e, st') => (Raise e, st')
                end
              else (Ok it, notify warning "Cannot go below 0."%string st)
            else (Ok it, st)
        | None => (Ok it, st)
        end in
      match adjusted with
      | (Raise e, st) => adjust_failed ajax (Some client_id) (model_error e) st
      | (Ok it, st) =>
          if ajax then
            (* If AJAX request, return JSON with new state *)
            match item_refresh_from_db it st with
            | Raise e => adjust_failed ajax (Some client_id) (model_error e) st
            | Ok it =>
                match item_get_progress_percentage it with
                | Raise e => adjust_failed ajax (Some client_id) (model_error e) st
                | Ok percentage =>
                    (JsonResponse 200
                       (mk_json (item_sessions_completed it) total_sessions
                                (item_is_completed it) percentage
                                (item_completed_date it)
                                (match it with
                                 | package_item cp => Some (ClientPackage.assigned_date cp)
                                 | service_item _ => None
                                 end)
                                (match it with
                                 | package_item _ => None
                                 | service_item css =>
                                     Some (ClientServiceSession.started_date css)
                                 end)),
                     st)
                end
            end
          else (redirect_client_profile client_id, st)
      end
  end.
End Requests.
End Views.

(** * Vocabulary of the further properties *)



(** The database takes the row of a session record: the counter is in the
    range of a [PositiveIntegerField], which the column checks, the
    package is a saved one, and no other row holds the pair of
    [unique_together]. *)
Definition ClientPackage_writable (self : ClientPackage.t) (rows : ClientPackage.objects)
  : Prop :=
  0 <= ClientPackage.sessions_completed self <= 2147483647
  /\ Package.pk (ClientPackage.package self) <> None
  /\ forall r, In r rows -> ClientPackage.pk r <> ClientPackage.pk self ->
               ~ (ClientPackage.client r = ClientPackage.client self
                  /\ Package.pk (ClientPackage.package r)
                     = Package.pk (ClientPackage.package self)).

Definition ClientServiceSession_writable (self : ClientServiceSession.t)
           (rows : ClientServiceSession.objects) : Prop :=
  0 <= ClientServiceSession.sessions_completed self <= 2147483647
  /\ forall r, In r rows -> ClientServiceSession.pk r <> ClientServiceSession.pk self ->
               ~ (ClientServiceSession.client r = ClientServiceSession.client self
                  /\ Service.pk (ClientServiceSession.service r)
                     = Service.pk (ClientServiceSession.service self)).

(** Every stored appointment has a key. *)
Definition keyed (rows : list Appointment.t) : Prop :=
  forall r, In r rows -> Appointment.pk r <> None.

(** No two different pending or confirmed appointments of one staff member
    on one date have intersecting intervals. *)
Definition no_active_overlap (rows : list Appointment.t) : Prop :=
  forall r1 r2,
    In r1 rows -> In r2 rows -> Appointment.pk r1 <> Appointment.pk r2 ->
    Appointment.is_active (Appointment.status r1) = true ->
    Appointment.is_active (Appointment.status r2) = true ->
    Appointment.staff r1 = Appointment.staff r2 ->
    Appointment.appointment_date r1 = Appointment.appointment_date r2 ->
    ~ intervals_intersect r1 r2.

Definition bookings_ok (db : Appointment.DB) : Prop :=
  keyed (Appointment.objects db) /\ no_active_overlap (Appointment.objects db).

(** A confirmed facial at 14:00 the same day, to be moved to 10:30. *)
Definition booked_at_14 : Appointment.t :=
  Appointment.mk (Some 2%positive) 8 facial 2 200 (at_time 14 0)
                 Appointment.confirmed None None.
Definition moved_to_10_30 : Appointment.t :=
  Appointment.mk (Some 2%positive) 8 facial 2 200 (at_time 10 30)
                 Appointment.confirmed None None.
Definition two_bookings : Appointment.DB :=
  Appointment.mk_db [booked_at_10; booked_at_14] [] [] [].


(** [n] calls of [add_session] in a row on one [ClientPackage] instance, as
    [test_client_package_add_session] makes them. *)
Fixpoint ClientPackage_add_sessions (today : Z) (n : nat) (self : ClientPackage.t)
  : M ClientPackage.objects ClientPackage.t :=
  match n with
  | O => ret self
  | S n' =>
      r <- ClientPackage.add_session today self ;;
      ClientPackage_add_sessions today n' (snd r)
  end.

(** [n] calls of [add_session] in a row on one [ClientServiceSession] instance, as
    the views make them. *)
Fixpoint ClientServiceSession_add_sessions (today : Z) (n : nat) (self : ClientServiceSession.t)
  : M ClientServiceSession.objects ClientServiceSession.t :=
  match n with
  | O => ret self
  | S n' =>
      r <- ClientServiceSession.add_session today self ;;
      ClientServiceSession_add_sessions today n' (snd r)
  end.


(** The record a session button addresses: what [adjust_session_count]
    finds under an item type and a key. *)
Definition stored_item (item_type : string) (item_id : positive) (st : Views.state)
  : option Views.item :=
  if String.eqb item_type "package" then
    option_map Views.package_item
               (get ClientPackage.pk item_id (Views.client_packages st))
  else if String.eqb item_type "service" then
    option_map Views.service_item
               (get ClientServiceSession.pk item_id (Views.client_service_sessions st))
  else None.

(** The other records keep their stored state. *)
Definition others_unchanged (item_type : string) (item_id : positive)
           (st st' : Views.state) : Prop :=
  forall ty id, ty <> item_type \/ id <> item_id ->
                stored_item ty id st' = stored_item ty id st.

(** What [adjust_session_count] answers once the action is carried out on
    a found record: the JSON state of the record to an AJAX request, a
    message and the way back to the client's profile otherwise. *)
Definition json_of (it : Views.item) (percentage : Z) : Views.session_json :=
  Views.mk_json (Views.item_sessions_completed it) (Views.item_total_sessions it)
                (Views.item_is_completed it) percentage (Views.item_completed_date it)
                (match it with
                 | Views.package_item cp => Some (ClientPackage.assigned_date cp)
                 | Views.service_item _ => None
                 end)
                (match it with
                 | Views.package_item _ => None
                 | Views.service_item css => Some (ClientServiceSession.started_date css)
                 end).

Definition answer_of (ajax : bool) (it : Views.item) (l : Views.level) (s : string)
           (st : Views.state) : Views.response * Views.state :=
  if ajax then
    match Views.item_get_progress_percentage it with
    | Ok percentage => (Views.JsonResponse 200 (json_of it percentage), st)
    | Raise e => (Views.JsonError 400 (Views.model_error e), st)
    end
  else (Views.redirect_client_profile (Views.item_client it),
        Views.add_message l (Views.plain s) st).

(** The stored record after one more session, and after one less, as the
    model methods leave it. *)
Definition ClientPackage_plus_one (today : Z) (cp : ClientPackage.t) : ClientPackage.t :=
  let reached := Package.total_sessions (ClientPackage.package cp)
                 <=? ClientPackage.sessions_completed cp + 1 in
  ClientPackage.mk (ClientPackage.pk cp) (ClientPackage.client cp) (ClientPackage.package cp)
    (ClientPackage.sessions_completed cp + 1) reached (ClientPackage.assigned_date cp)
    (if reached then Some today else ClientPackage.completed_date cp).

Definition ClientPackage_minus_one (today : Z) (cp : ClientPackage.t) : ClientPackage.t :=
  let reached := Package.total_sessions (ClientPackage.package cp)
                 <=? ClientPackage.sessions_completed cp - 1 in
  ClientPackage.mk (ClientPackage.pk cp) (ClientPackage.client cp) (ClientPackage.package cp)
    (ClientPackage.sessions_completed cp - 1) reached (ClientPackage.assigned_date cp)
    (if reached then Some today else None).

Definition ClientServiceSession_plus_one (today : Z) (css : ClientServiceSession.t)
  : ClientServiceSession.t :=
  let reached := Service.sessions_required (ClientServiceSession.service css)
                 <=? ClientServiceSession.sessions_completed css + 1 in
  ClientServiceSession.mk (ClientServiceSession.pk css) (ClientServiceSession.client css)
    (ClientServiceSession.service css)
    (ClientServiceSession.sessions_completed css + 1) reached
    (ClientServiceSession.started_date css)
    (if reached then Some today else ClientServiceSession.completed_date css).

Definition ClientServiceSession_minus_one (today : Z) (css : ClientServiceSession.t)
  : ClientServiceSession.t :=
  let reached := Service.sessions_required (ClientServiceSession.service css)
                 <=? ClientServiceSession.sessions_completed css - 1 in
  ClientServiceSession.mk (ClientServiceSession.pk css) (ClientServiceSession.client css)
    (ClientServiceSession.service css)
    (ClientServiceSession.sessions_completed css - 1) reached
    (ClientServiceSession.started_date css)
    (if reached then Some today else None).

(** The profile of client 7: the three-session package at two of three,
    and the finished laser course. *)
Definition profile_of_client_7 : Views.state :=
  Views.mk_state [nearly_done_client_package] [finished_course] [].

(** An action that is neither [increment] nor [decrement], or none. *)
Definition other_action (action : option string) : Prop :=
  match action with
  | Some a => a <> "increment"%string /\ a <> "decrement"%string
  | None => True
  end.

(** A second, empty order next to the two-line order, and the stored facial
    line assigned to it. *)
Definition two_orders : OrderItem.store :=
  snd (OrderItem.order_save (Order.mk (Some 2%positive) None 0) two_line_order).
Definition moved_facial_item : OrderItem.t :=
  OrderItem.mk (Some 2%positive) 2 None (Some facial) (Some facial_appointment)
               1 8000 (Some 8000).

(** * Properties *)

(** ** Running computations *)

Lemma bind_ok {S A B} (c : M S A) (k : A -> M S B) s a s' :
  c s = (Ok a, s') -> bind c k s = k a s'.
Proof. intros H. unfold bind. rewrite H. reflexivity. Qed.

Lemma bind_raise {S A B} (c : M S A) (k : A -> M S B) s e s' :
  c s = (Raise e, s') -> bind c k s = (Raise e, s').
Proof. intros H. unfold bind. rewrite H. reflexivity. Qed.


Lemma validation_error_intro {A} m : is_validation_error (@Raise A (ValidationError m)).
Proof. exists m. reflexivity. Qed.

(** ** Tables *)

Section TableFacts.
Context {Row : Type}.
Variable pk_of : Row -> option positive.
Variable with_pk : positive -> Row -> Row.
Hypothesis pk_with_pk : forall id r, pk_of (with_pk id r) = Some id.

Lemma has_pk_iff id r : has_pk pk_of id r = true <-> pk_of r = Some id.
Proof.
  unfold has_pk. destruct (pk_of r) as [j|]; split; intros H; try discriminate.
  - apply Pos.eqb_eq in H. now subst.
  - injection H as ->. apply Pos.eqb_refl.
Qed.

Lemma next_pk_bound rows r j :
  In r rows -> pk_of r = Some j -> (j < next_pk pk_of rows)%positive.
Proof.
  induction rows as [|x rows IH]; simpl; intros Hin Hpk; [contradiction|].
  destruct Hin as [->|Hin].
  - rewrite Hpk. lia.
  - specialize (IH Hin Hpk). destruct (pk_of x); [|exact IH]. lia.
Qed.

Lemma next_pk_fresh rows : existsb (has_pk pk_of (next_pk pk_of rows)) rows = false.
Proof.
  destruct (existsb _ rows) eqn:E; [|reflexivity].
  apply existsb_exists in E. destruct E as [r [Hin Hpk]].
  apply has_pk_iff in Hpk. pose proof (next_pk_bound _ _ _ Hin Hpk) as Hlt. lia.
Qed.

Lemma update_absent id r rows :
  existsb (has_pk pk_of id) rows = false -> update pk_of id r rows = rows.
Proof.
  induction rows as [|x rows IH]; simpl; [reflexivity|].
  intros H. apply orb_false_iff in H. destruct H as [Hx Hrows].
  rewrite Hx, (IH Hrows). reflexivity.
Qed.

Lemma update_app id r l1 l2 :
  update pk_of id r (l1 ++ l2) = update pk_of id r l1 ++ update pk_of id r l2.
Proof. unfold update. apply map_app. Qed.

Lemma update_update id r rows :
  pk_of r = Some id ->
  update pk_of id r (update pk_of id r rows) = update pk_of id r rows.
Proof.
  intros Hr. unfold update. rewrite map_map. apply map_ext. intros x.
  destruct (has_pk pk_of id x) eqn:E.
  - apply has_pk_iff in Hr. rewrite Hr. reflexivity.
  - rewrite E. reflexivity.
Qed.

Lemma existsb_update id r rows :
  pk_of r = Some id ->
  existsb (has_pk pk_of id) (update pk_of id r rows) = existsb (has_pk pk_of id) rows.
Proof.
  intros Hr. apply has_pk_iff in Hr.
  induction rows as [|x rows IH]; simpl; [reflexivity|].
  rewrite IH. destruct (has_pk pk_of id x) eqn:E; [rewrite Hr|rewrite E]; reflexivity.
Qed.

Lemma get_update id r rows :
  pk_of r = Some id -> existsb (has_pk pk_of id) rows = true ->
  get pk_of id (update pk_of id r rows) = Some r.
Proof.
  intros Hr. apply has_pk_iff in Hr. unfold get.
  induction rows as [|x rows IH]; simpl; [discriminate|].
  destruct (has_pk pk_of id x) eqn:E; simpl.
  - rewrite Hr. reflexivity.
  - rewrite E. exact IH.
Qed.

Lemma get_update_other id j r rows :
  pk_of r = Some id -> j <> id ->
  get pk_of j (update pk_of id r rows) = get pk_of j rows.
Proof.
  intros Hr Hne. unfold get.
  induction rows as [|x rows IH]; simpl; [reflexivity|].
  destruct (has_pk pk_of id x) eqn:E.
  - apply has_pk_iff in E.
    assert (has_pk pk_of j r = false) as ->.
    { unfold has_pk. rewrite Hr. apply Pos.eqb_neq. congruence. }
    assert (has_pk pk_of j x = false) as ->.
    { unfold has_pk. rewrite E. apply Pos.eqb_neq. congruence. }
    exact IH.
  - rewrite IH. reflexivity.
Qed.

Lemma get_app id l1 l2 :
  get pk_of id (l1 ++ l2) =
  match get pk_of id l1 with Some r => Some r | None => get pk_of id l2 end.
Proof.
  unfold get. induction l1 as [|x l1 IH]; simpl; [reflexivity|].
  destruct (has_pk pk_of id x); [reflexivity|exact IH].
Qed.

Lemma get_absent id rows :
  existsb (has_pk pk_of id) rows = false -> get pk_of id rows = None.
Proof.
  unfold get. induction rows as [|x rows IH]; simpl; [reflexivity|].
  intros H. apply orb_false_iff in H. destruct H as [-> H]. exact (IH H).
Qed.

Lemma get_some_In id rows r : get pk_of id rows = Some r -> In r rows /\ pk_of r = Some id.
Proof.
  unfold get. intros H. apply find_some in H. destruct H as [Hin Hpk].
  split; [exact Hin|]. now apply has_pk_iff.
Qed.

(** What [base_save] returns is the instance with a key, stored under it. *)
Lemma base_save_stored self rows self' rows' :
  base_save pk_of with_pk self rows = (self', rows') ->
  exists id, pk_of self' = Some id
             /\ get pk_of id rows' = Some self'
             /\ (forall j, j <> id -> get pk_of j rows' = get pk_of j rows)
             /\ match pk_of self with
                | Some _ => self' = self
                | None => self' = with_pk (next_pk pk_of rows) self
                end.
Proof.
  unfold base_save. destruct (pk_of self) as [id|] eqn:Hpk.
  - destruct (existsb (has_pk pk_of id) rows) eqn:E;
      intros H; injection H as <- <-; exists id; repeat split; auto.
    + now apply get_update.
    + intros j Hj. now apply get_update_other.
    + rewrite get_app, (get_absent _ _ E). simpl.
      apply has_pk_iff in Hpk. rewrite Hpk. reflexivity.
    + intros j Hj. rewrite get_app. destruct (get pk_of j rows); [reflexivity|].
      simpl. unfold has_pk. rewrite Hpk.
      destruct (Pos.eqb_spec id j); [congruence|reflexivity].
  - intros H. injection H as <- <-. exists (next_pk pk_of rows).
    repeat split; auto.
    + rewrite get_app, (get_absent _ _ (next_pk_fresh rows)). simpl.
      unfold has_pk. rewrite pk_with_pk, Pos.eqb_refl. reflexivity.
    + intros j Hj. rewrite get_app. destruct (get pk_of j rows); [reflexivity|].
      simpl. unfold has_pk. rewrite pk_with_pk.
      destruct (Pos.eqb_spec (next_pk pk_of rows) j); [congruence|reflexivity].
Qed.

(** Saving again what [base_save] returned leaves the table as it is. *)
Lemma base_save_again self rows self' rows' :
  base_save pk_of with_pk self rows = (self', rows') ->
  base_save pk_of with_pk self' rows' = (self', rows').
Proof.
  unfold base_save at 1. destruct (pk_of self) as [id|] eqn:Hpk.
  - destruct (existsb (has_pk pk_of id) rows) eqn:E;
      intros H; injection H as <- <-; unfold base_save; rewrite Hpk.
    + rewrite (existsb_update _ _ _ Hpk), E, (update_update _ _ _ Hpk). reflexivity.
    + rewrite existsb_app. simpl. apply has_pk_iff in Hpk. rewrite Hpk, orb_true_r.
      rewrite update_app, (update_absent _ _ _ E). simpl. rewrite Hpk. reflexivity.
  - intros H. injection H as <- <-. unfold base_save. rewrite pk_with_pk.
    rewrite existsb_app. simpl.
    assert (has_pk pk_of (next_pk pk_of rows) (with_pk (next_pk pk_of rows) self) = true) as Hh.
    { apply has_pk_iff, pk_with_pk. }
    rewrite Hh, orb_true_r, update_app, (update_absent _ _ _ (next_pk_fresh rows)).
    simpl. rewrite Hh. reflexivity.
Qed.

Lemma base_save_exists self rows self' rows' id :
  base_save pk_of with_pk self rows = (self', rows') ->
  pk_of self' = Some id -> existsb (has_pk pk_of id) rows' = true.
Proof.
  intros H Hid. destruct (base_save_stored _ _ _ _ H) as [id' [Hpk [Hget _]]].
  assert (id' = id) by congruence. subst id'.
  apply get_some_In in Hget. apply existsb_exists. exists self'.
  split; [tauto|]. now apply has_pk_iff.
Qed.
End TableFacts.

(** ** Package: the 3-to-5 services rule *)








(** The validation of [save] comes after the row is written: when it
    raises, the table already holds the package. *)
Lemma Package_save_writes_first self st :
  snd (Package.save self st) = snd (Package.super_save self st).
Proof.
  unfold Package.save, Package.super_save, bind, gets.
  destruct (base_save Package.pk Package.with_pk self (Package.objects st)) as [self' rows].
  destruct (match Package.pk self' with Some id => _ | None => false end); [|reflexivity].
  unfold Package.full_clean, Package.clean.
  destruct (Package.pk self'); [|reflexivity].
  unfold bind, gets, raise, ret.
  destruct (_ <? 3); [reflexivity|]. destruct (5 <? _); reflexivity.
Qed.

(** ** Session counters: [save] and [add_session] *)

Lemma ClientPackage_pk_with_pk id r : ClientPackage.pk (ClientPackage.with_pk id r) = Some id.
Proof. reflexivity. Qed.

Lemma ClientServiceSession_pk_with_pk id r :
  ClientServiceSession.pk (ClientServiceSession.with_pk id r) = Some id.
Proof. reflexivity. Qed.

Lemma ClientPackage_save_fixed today self rows id :
  ClientPackage.pk self = Some id ->
  ClientPackage.is_completed self
  = (Package.total_sessions (ClientPackage.package self)
     <=? ClientPackage.sessions_completed self) ->
  base_save ClientPackage.pk ClientPackage.with_pk self rows = (self, rows) ->
  ClientPackage.save today self rows = (Ok self, rows).
Proof.
  intros Hpk Hinv Hsave.
  assert (existsb (has_pk ClientPackage.pk id) rows = true) as Hex
      by exact (base_save_exists _ _ ClientPackage_pk_with_pk _ _ _ _ _ Hsave Hpk).
  unfold ClientPackage.save, ClientPackage.super_save, ClientPackage.adding.
  rewrite Hinv.
  destruct (_ <=? _); cbn [negb]; rewrite Hpk, Hex; cbn [negb]; rewrite Hsave; reflexivity.
Qed.

Lemma ClientPackage_save_spec today self rows :
  exists self' rows' id,
    ClientPackage.save today self rows = (Ok self', rows')
    /\ ClientPackage.pk self' = Some id
    /\ get ClientPackage.pk id rows' = Some self'
    /\ (forall j, j <> id -> get ClientPackage.pk j rows' = get ClientPackage.pk j rows)
    /\ (forall k, ClientPackage.pk self = Some k -> id = k)
    /\ ClientPackage.client self' = ClientPackage.client self
    /\ ClientPackage.package self' = ClientPackage.package self
    /\ ClientPackage.sessions_completed self' = ClientPackage.sessions_completed self
    /\ ClientPackage.is_completed self'
       = (Package.total_sessions (ClientPackage.package self)
          <=? ClientPackage.sessions_completed self)
    /\ ClientPackage.completed_date self'
       = date_after_save today
           (Package.total_sessions (ClientPackage.package self)
            <=? ClientPackage.sessions_completed self)
           (ClientPackage.is_completed self) (ClientPackage.completed_date self)
    /\ forall today', ClientPackage.save today' self' rows' = (Ok self', rows').
Proof.
  unfold ClientPackage.save at 1, ClientPackage.super_save.
  match goal with
  | |- context [base_save _ _ ?x rows] => set (self2 := x)
  end.
  destruct (base_save ClientPackage.pk ClientPackage.with_pk self2 rows)
    as [self' rows'] eqn:E.
  destruct (base_save_stored _ _ ClientPackage_pk_with_pk _ _ _ _ E)
    as [id [Hpk [Hget [Hother Hself]]]].
  pose proof (base_save_again _ _ ClientPackage_pk_with_pk _ _ _ _ E) as Hagain.
  assert (ClientPackage.client self' = ClientPackage.client self
          /\ ClientPackage.package self' = ClientPackage.package self
          /\ ClientPackage.sessions_completed self' = ClientPackage.sessions_completed self
          /\ ClientPackage.is_completed self'
             = (Package.total_sessions (ClientPackage.package self)
                <=? ClientPackage.sessions_completed self)
          /\ ClientPackage.completed_date self'
             = date_after_save today
                 (Package.total_sessions (ClientPackage.package self)
                  <=? ClientPackage.sessions_completed self)
                 (ClientPackage.is_completed self) (ClientPackage.completed_date self)
          /\ (forall k, ClientPackage.pk self = Some k -> id = k)) as Hf.
  { clear Hget Hother Hagain E. subst self2. unfold ClientPackage.adding in *.
    unfold date_after_save. save_fields self E Hself. }
  destruct Hf as [Hc [Hp [Hs [Hi [Hd Hk]]]]].
  exists self', rows', id. repeat split; auto.
  intros today'. apply (ClientPackage_save_fixed today' self' rows' id Hpk); [|exact Hagain].
  rewrite Hi, Hp, Hs. reflexivity.
Qed.

Lemma ClientPackage_add_session_spec today self rows :
  ClientPackage.is_completed self = false ->
  exists self' rows' id,
    ClientPackage.add_session today self rows = (Ok (true, self'), rows')
    /\ ClientPackage.pk self' = Some id
    /\ get ClientPackage.pk id rows' = Some self'
    /\ (forall j, j <> id -> get ClientPackage.pk j rows' = get ClientPackage.pk j rows)
    /\ (forall k, ClientPackage.pk self = Some k -> id = k)
    /\ ClientPackage.client self' = ClientPackage.client self
    /\ ClientPackage.package self' = ClientPackage.package self
    /\ ClientPackage.sessions_completed self' = ClientPackage.sessions_completed self + 1
    /\ ClientPackage.is_completed self'
       = (Package.total_sessions (ClientPackage.package self)
          <=? ClientPackage.sessions_completed self + 1)
    /\ ClientPackage.completed_date self'
       = (if Package.total_sessions (ClientPackage.package self)
             <=? ClientPackage.sessions_completed self + 1
          then Some today else ClientPackage.completed_date self).
Proof.
  intros Hnot. unfold ClientPackage.add_session. rewrite Hnot. cbn [negb].
  match goal with
  | |- context [ClientPackage.save today ?x] => set (self1 := x)
  end.
  destruct (ClientPackage_save_spec today self1 rows)
    as [self' [rows' [id [Hsave [Hpk [Hget [Hother [Hk [Hc [Hp [Hs [Hi [Hd _]]]]]]]]]]]]].
  exists self', rows', id. rewrite (bind_ok _ _ _ _ _ Hsave).
  assert (ClientPackage.pk self1 = ClientPackage.pk self
          /\ ClientPackage.client self1 = ClientPackage.client self
          /\ ClientPackage.package self1 = ClientPackage.package self
          /\ ClientPackage.sessions_completed self1 = ClientPackage.sessions_completed self + 1
          /\ ClientPackage.is_completed self1
             = (Package.total_sessions (ClientPackage.package self)
                <=? ClientPackage.sessions_completed self + 1)
          /\ ClientPackage.completed_date self1
             = (if Package.total_sessions (ClientPackage.package self)
                   <=? ClientPackage.sessions_completed self + 1
                then Some today else ClientPackage.completed_date self)) as Hf.
  { subst self1. clear - Hnot. destruct self; cbn in *. subst.
    destruct (_ <=? _); cbn; repeat split; reflexivity. }
  destruct Hf as [H1 [H2 [H3 [H4 [H5 H6]]]]].
  rewrite H1 in Hk. rewrite H2 in Hc. rewrite H3 in Hp, Hi, Hd. rewrite H4 in Hs, Hi, Hd.
  rewrite H5, H6 in Hd.
  repeat split; auto.
  rewrite Hd. unfold date_after_save. destruct (_ <=? _); reflexivity.
Qed.

Lemma ClientPackage_add_session_completed today self rows :
  ClientPackage.is_completed self = true ->
  ClientPackage.add_session today self rows = (Ok (false, self), rows).
Proof. intros H. unfold ClientPackage.add_session. rewrite H. reflexivity. Qed.

Lemma ClientServiceSession_save_fixed today self rows id :
  ClientServiceSession.pk self = Some id ->
  ClientServiceSession.is_completed self
  = (Service.sessions_required (ClientServiceSession.service self)
     <=? ClientServiceSession.sessions_completed self) ->
  base_save ClientServiceSession.pk ClientServiceSession.with_pk self rows = (self, rows) ->
  ClientServiceSession.save today self rows = (Ok self, rows).
Proof.
  intros Hpk Hinv Hsave.
  assert (existsb (has_pk ClientServiceSession.pk id) rows = true) as Hex
      by exact (base_save_exists _ _ ClientServiceSession_pk_with_pk _ _ _ _ _ Hsave Hpk).
  unfold ClientServiceSession.save, ClientServiceSession.super_save, ClientServiceSession.adding.
  rewrite Hinv.
  destruct (_ <=? _); cbn [negb]; rewrite Hpk, Hex; cbn [negb]; rewrite Hsave; reflexivity.
Qed.

Lemma ClientServiceSession_save_spec today self rows :
  exists self' rows' id,
    ClientServiceSession.save today self rows = (Ok self', rows')
    /\ ClientServiceSession.pk self' = Some id
    /\ get ClientServiceSession.pk id rows' = Some self'
    /\ (forall j, j <> id -> get ClientServiceSession.pk j rows' = get ClientServiceSession.pk j rows)
    /\ (forall k, ClientServiceSession.pk self = Some k -> id = k)
    /\ ClientServiceSession.client self' = ClientServiceSession.client self
    /\ ClientServiceSession.service self' = ClientServiceSession.service self
    /\ ClientServiceSession.sessions_completed self' = ClientServiceSession.sessions_completed self
    /\ ClientServiceSession.is_completed self'
       = (Service.sessions_required (ClientServiceSession.service self)
          <=? ClientServiceSession.sessions_completed self)
    /\ ClientServiceSession.completed_date self'
       = date_after_save today
           (Service.sessions_required (ClientServiceSession.service self)
            <=? ClientServiceSession.sessions_completed self)
           (ClientServiceSession.is_completed self) (ClientServiceSession.completed_date self)
    /\ forall today', ClientServiceSession.save today' self' rows' = (Ok self', rows').
Proof.
  unfold ClientServiceSession.save at 1, ClientServiceSession.super_save.
  match goal with
  | |- context [base_save _ _ ?x rows] => set (self2 := x)
  end.
  destruct (base_save ClientServiceSession.pk ClientServiceSession.with_pk self2 rows)
    as [self' rows'] eqn:E.
  destruct (base_save_stored _ _ ClientServiceSession_pk_with_pk _ _ _ _ E)
    as [id [Hpk [Hget [Hother Hself]]]].
  pose proof (base_save_again _ _ ClientServiceSession_pk_with_pk _ _ _ _ E) as Hagain.
  assert (ClientServiceSession.client self' = ClientServiceSession.client self
          /\ ClientServiceSession.service self' = ClientServiceSession.service self
          /\ ClientServiceSession.sessions_completed self' = ClientServiceSession.sessions_completed self
          /\ ClientServiceSession.is_completed self'
             = (Service.sessions_required (ClientServiceSession.service self)
                <=? ClientServiceSession.sessions_completed self)
          /\ ClientServiceSession.completed_date self'
             = date_after_save today
                 (Service.sessions_required (ClientServiceSession.service self)
                  <=? ClientServiceSession.sessions_completed self)
                 (ClientServiceSession.is_completed self) (ClientServiceSession.completed_date self)
          /\ (forall k, ClientServiceSession.pk self = Some k -> id = k)) as Hf.
  { clear Hget Hother Hagain E. subst self2. unfold ClientServiceSession.adding in *.
    unfold date_after_save. save_fields self E Hself. }
  destruct Hf as [Hc [Hp [Hs [Hi [Hd Hk]]]]].
  exists self', rows', id. repeat split; auto.
  intros today'. apply (ClientServiceSession_save_fixed today' self' rows' id Hpk); [|exact Hagain].
  rewrite Hi, Hp, Hs. reflexivity.
Qed.

Lemma ClientServiceSession_add_session_spec today self rows :
  ClientServiceSession.is_completed self = false ->
  exists self' rows' id,
    ClientServiceSession.add_session today self rows = (Ok (true, self'), rows')
    /\ ClientServiceSession.pk self' = Some id
    /\ get ClientServiceSession.pk id rows' = Some self'
    /\ (forall j, j <> id -> get ClientServiceSession.pk j rows' = get ClientServiceSession.pk j rows)
    /\ (forall k, ClientServiceSession.pk self = Some k -> id = k)
    /\ ClientServiceSession.client self' = ClientServiceSession.client self
    /\ ClientServiceSession.service self' = ClientServiceSession.service self
    /\ ClientServiceSession.sessions_completed self' = ClientServiceSession.sessions_completed self + 1
    /\ ClientServiceSession.is_completed self'
       = (Service.sessions_required (ClientServiceSession.service self)
          <=? ClientServiceSession.sessions_completed self + 1)
    /\ ClientServiceSession.completed_date self'
       = (if Service.sessions_required (ClientServiceSession.service self)
             <=? ClientServiceSession.sessions_completed self + 1
          then Some today else ClientServiceSession.completed_date self).
Proof.
  intros Hnot. unfold ClientServiceSession.add_session. rewrite Hnot. cbn [negb].
  match goal with
  | |- context [ClientServiceSession.save today ?x] => set (self1 := x)
  end.
  destruct (ClientServiceSession_save_spec today self1 rows)
    as [self' [rows' [id [Hsave [Hpk [Hget [Hother [Hk [Hc [Hp [Hs [Hi [Hd _]]]]]]]]]]]]].
  exists self', rows', id. rewrite (bind_ok _ _ _ _ _ Hsave).
  assert (ClientServiceSession.pk self1 = ClientServiceSession.pk self
          /\ ClientServiceSession.client self1 = ClientServiceSession.client self
          /\ ClientServiceSession.service self1 = ClientServiceSession.service self
          /\ ClientServiceSession.sessions_completed self1 = ClientServiceSession.sessions_completed self + 1
          /\ ClientServiceSession.is_completed self1
             = (Service.sessions_required (ClientServiceSession.service self)
                <=? ClientServiceSession.sessions_completed self + 1)
          /\ ClientServiceSession.completed_date self1
             = (if Service.sessions_required (ClientServiceSession.service self)
                   <=? ClientServiceSession.sessions_completed self + 1
                then Some today else ClientServiceSession.completed_date self)) as Hf.
  { subst self1. clear - Hnot. destruct self; cbn in *. subst.
    destruct (_ <=? _); cbn; repeat split; reflexivity. }
  destruct Hf as [H1 [H2 [H3 [H4 [H5 H6]]]]].
  rewrite H1 in Hk. rewrite H2 in Hc. rewrite H3 in Hp, Hi, Hd. rewrite H4 in Hs, Hi, Hd.
  rewrite H5, H6 in Hd.
  repeat split; auto.
  rewrite Hd. unfold date_after_save. destruct (_ <=? _); reflexivity.
Qed.

Lemma ClientServiceSession_add_session_completed today self rows :
  ClientServiceSession.is_completed self = true ->
  ClientServiceSession.add_session today self rows = (Ok (false, self), rows).
Proof. intros H. unfold ClientServiceSession.add_session. rewrite H. reflexivity. Qed.

(** *** C2: [add_session] *)

(** C2: on a record that is not completed, [add_session] adds exactly one
    to [sessions_completed], returns [True] and stores the record; when the
    new count reaches the target it sets [is_completed] and stamps
    [completed_date] with today, and otherwise leaves both as they were.
    On a completed record it returns [False] and changes nothing.  The
    same holds for [ClientPackage] (target [package.total_sessions]) and
    for [ClientServiceSession] (target [service.sessions_required]). *)
Theorem add_session_advances_by_one today :
  (forall self rows,
      ClientPackage.is_completed self = false ->
      exists self' rows',
        ClientPackage.add_session today self rows = (Ok (true, self'), rows')
        /\ ClientPackage.sessions_completed self'
           = ClientPackage.sessions_completed self + 1
        /\ ClientPackage.client self' = ClientPackage.client self
        /\ ClientPackage.package self' = ClientPackage.package self
        /\ (Package.total_sessions (ClientPackage.package self)
            <= ClientPackage.sessions_completed self + 1 ->
            ClientPackage.is_completed self' = true
            /\ ClientPackage.completed_date self' = Some today)
        /\ (ClientPackage.sessions_completed self + 1
            < Package.total_sessions (ClientPackage.package self) ->
            ClientPackage.is_completed self' = false
            /\ ClientPackage.completed_date self' = ClientPackage.completed_date self)
        /\ exists id, ClientPackage.pk self' = Some id
                      /\ get ClientPackage.pk id rows' = Some self')
  /\ (forall self rows,
         ClientPackage.is_completed self = true ->
         ClientPackage.add_session today self rows = (Ok (false, self), rows))
  /\ (forall self rows,
         ClientServiceSession.is_completed self = false ->
         exists self' rows',
           ClientServiceSession.add_session today self rows = (Ok (true, self'), rows')
           /\ ClientServiceSession.sessions_completed self'
              = ClientServiceSession.sessions_completed self + 1
           /\ ClientServiceSession.client self' = ClientServiceSession.client self
           /\ ClientServiceSession.service self' = ClientServiceSession.service self
           /\ (Service.sessions_required (ClientServiceSession.service self)
               <= ClientServiceSession.sessions_completed self + 1 ->
               ClientServiceSession.is_completed self' = true
               /\ ClientServiceSession.completed_date self' = Some today)
           /\ (ClientServiceSession.sessions_completed self + 1
               < Service.sessions_required (ClientServiceSession.service self) ->
               ClientServiceSession.is_completed self' = false
               /\ ClientServiceSession.completed_date self'
                  = ClientServiceSession.completed_date self)
           /\ exists id, ClientServiceSession.pk self' = Some id
                         /\ get ClientServiceSession.pk id rows' = Some self')
  /\ (forall self rows,
         ClientServiceSession.is_completed self = true ->
         ClientServiceSession.add_session today self rows = (Ok (false, self), rows)).
Proof.
  split; [|split; [|split]].
  - intros self rows Hnot.
    destruct (ClientPackage_add_session_spec today self rows Hnot)
      as [self' [rows' [id [Hadd [Hpk [Hget [_ [_ [Hc [Hp [Hs [Hi Hd]]]]]]]]]]]].
    exists self', rows'. repeat split; auto.
    + rewrite Hi. now apply Z.leb_le.
    + rewrite Hd. apply Z.leb_le in H. now rewrite H.
    + rewrite Hi. apply Z.leb_gt. lia.
    + rewrite Hd. apply Z.leb_gt in H. now rewrite H.
    + now exists id.
  - apply ClientPackage_add_session_completed.
  - intros self rows Hnot.
    destruct (ClientServiceSession_add_session_spec today self rows Hnot)
      as [self' [rows' [id [Hadd [Hpk [Hget [_ [_ [Hc [Hp [Hs [Hi Hd]]]]]]]]]]]].
    exists self', rows'. repeat split; auto.
    + rewrite Hi. now apply Z.leb_le.
    + rewrite Hd. apply Z.leb_le in H. now rewrite H.
    + rewrite Hi. apply Z.leb_gt. lia.
    + rewrite Hd. apply Z.leb_gt in H. now rewrite H.
    + now exists id.
  - apply ClientServiceSession_add_session_completed.
Qed.

Lemma add_session_advances_by_one_witness :
  ClientPackage.is_completed nearly_done_client_package = false
  /\ exists self' rows',
      ClientPackage.add_session 120 nearly_done_client_package [nearly_done_client_package]
      = (Ok (true, self'), rows')
      /\ ClientPackage.sessions_completed self' = 2 + 1
      /\ ClientPackage.is_completed self' = true
      /\ ClientPackage.completed_date self' = Some 120.
Proof.
  split; [reflexivity|].
  destruct (proj1 (add_session_advances_by_one 120) nearly_done_client_package
              [nearly_done_client_package] eq_refl)
    as [self' [rows' [Hadd [Hs [_ [_ [Hdone _]]]]]]].
  exists self', rows'. split; [exact Hadd|]. split; [exact Hs|].
  apply Hdone. vm_compute. discriminate.
Defined.

(** The run of [test_client_package_add_session]: 0 of 3, one session,
    then two more. *)
Example add_session_three_times :
  let run :=
    (r1 <- ClientPackage.add_session 120 fresh_client_package ;;
     r2 <- ClientPackage.add_session 121 (snd r1) ;;
     r3 <- ClientPackage.add_session 122 (snd r2) ;;
     r4 <- ClientPackage.add_session 123 (snd r3) ;;
     ret (fst r1, snd r1, snd r3, fst r4)) in
  fst (run [fresh_client_package])
  = Ok (true,
        ClientPackage.mk (Some 1%positive) 7 three_session_package 1 false 100 None,
        ClientPackage.mk (Some 1%positive) 7 three_session_package 3 true 100 (Some 122),
        false).
Proof. reflexivity. Qed.

(** *** C4: [save] recomputes the flag *)

(** C4, as stated, fails: a record at its target whose flag is already
    set and whose [completed_date] is unset (the state
    [test_add_session_to_completed_package] creates) is saved without a
    stamp; [save] stamps the date only when it flips the flag. *)
Lemma save_does_not_stamp_flagged_record :
  Package.total_sessions (ClientPackage.package flagged_without_date)
  <= ClientPackage.sessions_completed flagged_without_date
  /\ ClientPackage.completed_date flagged_without_date = None
  /\ exists self' rows',
      ClientPackage.save 120 flagged_without_date [flagged_without_date] = (Ok self', rows')
      /\ ClientPackage.completed_date self' = None.
Proof.
  split; [vm_compute; discriminate|]. split; [reflexivity|].
  exists flagged_without_date, [flagged_without_date]. split; reflexivity.
Qed.

(** C4, amended: every [save] of a record that the database takes (its
    counter is in the range of the column and no other row holds its pair
    of client and package, or client and service) stores the record with
    [is_completed] equal to (sessions_completed >= target) and the counter
    untouched.  When the
    counter is at or past the target and the flag was not set, the save
    sets it and stamps [completed_date] with today if it was unset; when
    the counter is below the target and the flag was set, the save clears
    the flag and nulls [completed_date]; when the flag already agrees with
    the counter, [completed_date] is left as it is.  Saving the result
    again, on any day, changes nothing.  The same holds for
    [ClientPackage] and [ClientServiceSession]. *)
Theorem save_recomputes_completion today :
  (forall self rows,
      ClientPackage_writable self rows ->
      let target := Package.total_sessions (ClientPackage.package self) in
      let count := ClientPackage.sessions_completed self in
      exists self' rows',
        ClientPackage.save today self rows = (Ok self', rows')
        /\ ClientPackage.sessions_completed self' = count
        /\ ClientPackage.package self' = ClientPackage.package self
        /\ (ClientPackage.is_completed self' = true <-> target <= count)
        /\ (target <= count -> ClientPackage.is_completed self = false ->
            ClientPackage.completed_date self'
            = match ClientPackage.completed_date self with
              | None => Some today
              | Some d => Some d
              end)
        /\ (count < target -> ClientPackage.is_completed self = true ->
            ClientPackage.completed_date self' = None)
        /\ ((ClientPackage.is_completed self = true <-> target <= count) ->
            ClientPackage.completed_date self' = ClientPackage.completed_date self)
        /\ (exists id, ClientPackage.pk self' = Some id
                       /\ get ClientPackage.pk id rows' = Some self')
        /\ forall today', ClientPackage.save today' self' rows' = (Ok self', rows'))
  /\ (forall self rows,
         ClientServiceSession_writable self rows ->
         let target := Service.sessions_required (ClientServiceSession.service self) in
         let count := ClientServiceSession.sessions_completed self in
         exists self' rows',
           ClientServiceSession.save today self rows = (Ok self', rows')
           /\ ClientServiceSession.sessions_completed self' = count
           /\ ClientServiceSession.service self' = ClientServiceSession.service self
           /\ (ClientServiceSession.is_completed self' = true <-> target <= count)
           /\ (target <= count -> ClientServiceSession.is_completed self = false ->
               ClientServiceSession.completed_date self'
               = match ClientServiceSession.completed_date self with
                 | None => Some today
                 | Some d => Some d
                 end)
           /\ (count < target -> ClientServiceSession.is_completed self = true ->
               ClientServiceSession.completed_date self' = None)
           /\ ((ClientServiceSession.is_completed self = true <-> target <= count) ->
               ClientServiceSession.completed_date self'
               = ClientServiceSession.completed_date self)
           /\ (exists id, ClientServiceSession.pk self' = Some id
                          /\ get ClientServiceSession.pk id rows' = Some self')
           /\ forall today', ClientServiceSession.save today' self' rows' = (Ok self', rows')).
Proof.
  split.
  - intros self rows _ target count.
    destruct (ClientPackage_save_spec today self rows)
      as [self' [rows' [id [Hsave [Hpk [Hget [_ [_ [_ [Hp [Hs [Hi [Hd Hagain]]]]]]]]]]]]].
    fold target count in Hi, Hd. exists self', rows'.
    split; [exact Hsave|]. split; [exact Hs|]. split; [exact Hp|].
    split; [rewrite Hi; apply Z.leb_le|].
    split; [intros Hle Hflag; rewrite Hd; apply Z.leb_le in Hle;
            rewrite Hle, Hflag; reflexivity|].
    split; [intros Hlt Hflag; rewrite Hd; apply Z.leb_gt in Hlt;
            rewrite Hlt, Hflag; reflexivity|].
    split; [|split; [now exists id|exact Hagain]].
    intros Hagree. rewrite Hd. unfold date_after_save.
    destruct (Z.leb_spec target count) as [Hle|Hlt].
    + rewrite (proj2 Hagree Hle). reflexivity.
    + destruct (ClientPackage.is_completed self); [|reflexivity].
      pose proof (proj1 Hagree eq_refl). lia.
  - intros self rows _ target count.
    destruct (ClientServiceSession_save_spec today self rows)
      as [self' [rows' [id [Hsave [Hpk [Hget [_ [_ [_ [Hp [Hs [Hi [Hd Hagain]]]]]]]]]]]]].
    fold target count in Hi, Hd. exists self', rows'.
    split; [exact Hsave|]. split; [exact Hs|]. split; [exact Hp|].
    split; [rewrite Hi; apply Z.leb_le|].
    split; [intros Hle Hflag; rewrite Hd; apply Z.leb_le in Hle;
            rewrite Hle, Hflag; reflexivity|].
    split; [intros Hlt Hflag; rewrite Hd; apply Z.leb_gt in Hlt;
            rewrite Hlt, Hflag; reflexivity|].
    split; [|split; [now exists id|exact Hagain]].
    intros Hagree. rewrite Hd. unfold date_after_save.
    destruct (Z.leb_spec target count) as [Hle|Hlt].
    + rewrite (proj2 Hagree Hle). reflexivity.
    + destruct (ClientServiceSession.is_completed self); [|reflexivity].
      pose proof (proj1 Hagree eq_refl). lia.
Qed.

Lemma save_recomputes_completion_witness :
  (exists self' rows',
      ClientPackage.save 120 edited_up [edited_up] = (Ok self', rows')
      /\ ClientPackage.is_completed self' = true
      /\ ClientPackage.completed_date self' = Some 120)
  /\ (exists self' rows',
         ClientPackage.save 130 edited_down [edited_down] = (Ok self', rows')
         /\ ClientPackage.is_completed self' = false
         /\ ClientPackage.completed_date self' = None).
Proof.
  assert (ClientPackage_writable edited_up [edited_up]) as Hup.
  { split; [cbn; lia|]. split; [discriminate|]. intros r [<-|[]] Hpk. now elim Hpk. }
  assert (ClientPackage_writable edited_down [edited_down]) as Hdown.
  { split; [cbn; lia|]. split; [discriminate|]. intros r [<-|[]] Hpk. now elim Hpk. }
  split.
  - destruct (proj1 (save_recomputes_completion 120) edited_up [edited_up] Hup)
      as [self' [rows' [Hsave [_ [_ [Hflag [Hstamp _]]]]]]].
    exists self', rows'. split; [exact Hsave|]. split.
    + apply Hflag. vm_compute. discriminate.
    + apply Hstamp; [vm_compute; discriminate|reflexivity].
  - destruct (proj1 (save_recomputes_completion 130) edited_down [edited_down] Hdown)
      as [self' [rows' [Hsave [_ [_ [Hflag [_ [Hclear _]]]]]]]].
    exists self', rows'. split; [exact Hsave|]. split.
    + destruct (ClientPackage.is_completed self'); [|reflexivity].
      pose proof (proj1 Hflag eq_refl) as Hle. vm_compute in Hle.
      exfalso. apply Hle. reflexivity.
    + apply Hclear; [reflexivity|reflexivity].
Defined.

(** ** C10: the progress percentage *)

Lemma py_int_no_zero_division x : py_int x <> Raise ZeroDivisionError.
Proof. unfold py_int. destruct (Prim2SF x); try destruct s; discriminate. Qed.

Lemma percentage_no_zero_division a b : b <> 0 -> percentage a b <> Raise ZeroDivisionError.
Proof.
  intros Hb. unfold percentage, truediv.
  destruct (Z.eqb_spec b 0); [contradiction|]. apply py_int_no_zero_division.
Qed.

(** C10: the claim gives the result as the integer truncation of
    sessions_completed / target x 100, and the code misses it: 29 sessions
    of 50 are 58 percent exactly, and [get_progress_percentage] returns
    57, for a [ClientPackage] and for a [ClientServiceSession].  The method
    divides first, in doubles, and 29 / 50 is the double just below 0.58. *)
Theorem progress_percentage_29_of_50 :
  ClientPackage.get_progress_percentage
    (ClientPackage.mk (Some 1%positive) 7 (Package.mk (Some 2%positive) 50) 29 false 100 None)
  = Ok 57
  /\ ClientServiceSession.get_progress_percentage
       (ClientServiceSession.mk (Some 1%positive) 7 (Service.mk 2 45 50) 29 false 100 None)
     = Ok 57
  /\ 29 * 100 / 50 = 58
  /\ 29 * 100 mod 50 = 0.
Proof. repeat split; vm_compute; reflexivity. Qed.

(** ** Point of sale: order items *)



Lemma OrderItem_pk_with_pk id r : OrderItem.pk (OrderItem.with_pk id r) = Some id.
Proof. reflexivity. Qed.

Lemma OrderItem_clean_spec self st :
  snd (OrderItem.clean self st) = st
  /\ (malformed self -> is_validation_error (fst (OrderItem.clean self st)))
  /\ (~ malformed self -> OrderItem.clean self st = (Ok tt, st)).
Proof.
  unfold OrderItem.clean, malformed.
  destruct (OrderItem.product self) as [p|], (OrderItem.service self) as [svc|];
    cbn [raise ret fst snd].
  - split; [reflexivity|]. split; [intros; apply validation_error_intro|].
    intros H. exfalso. apply H. right. left. split; discriminate.
  - split; [reflexivity|]. split; [|reflexivity].
    intros [[H _]|[[_ H]|[s [a [H _]]]]]; [discriminate|congruence|discriminate].
  - destruct (OrderItem.appointment self) as [appt|].
    + destruct (Service.eqb (Appointment.service appt) svc) eqn:E; cbn [negb raise ret fst snd].
      * split; [reflexivity|]. split; [|reflexivity].
        intros [[_ H]|[[H _]|[s [a [Hs [Ha Hne]]]]]]; [discriminate|congruence|].
        injection Hs as <-. injection Ha as <-. congruence.
      * split; [reflexivity|]. split; [intros; apply validation_error_intro|].
        intros H. exfalso. apply H. right. right. now exists svc, appt.
    + split; [reflexivity|]. split; [|reflexivity].
      intros [[_ H]|[[H _]|[s [a [_ [Ha _]]]]]]; [discriminate|congruence|discriminate].
  - split; [reflexivity|]. split; [intros; apply validation_error_intro|].
    intros H. exfalso. apply H. left. split; reflexivity.
Qed.

Lemma malformed_dec self : malformed self \/ ~ malformed self.
Proof.
  unfold malformed.
  destruct (OrderItem.product self) as [p|], (OrderItem.service self) as [svc|].
  - left. right. left. split; discriminate.
  - right. intros [[H _]|[[_ H]|[s [a [H _]]]]]; [discriminate|congruence|discriminate].
  - destruct (OrderItem.appointment self) as [appt|].
    + destruct (Service.eqb (Appointment.service appt) svc) eqn:E.
      * right. intros [[_ H]|[[H _]|[s [a [Hs [Ha Hne]]]]]]; [discriminate|congruence|].
        injection Hs as <-. injection Ha as <-. congruence.
      * left. right. right. now exists svc, appt.
    + right. intros [[_ H]|[[H _]|[s [a [_ [Ha _]]]]]]; [discriminate|congruence|discriminate].
  - left. left. split; reflexivity.
Qed.

Lemma ten_digits_fits a : OrderItem.ten_digits a = true <-> fits a.
Proof. unfold OrderItem.ten_digits, fits. apply Z.ltb_lt. Qed.

Lemma ten_digits_not_fits a : OrderItem.ten_digits a = false <-> ~ fits a.
Proof. rewrite <- ten_digits_fits. destruct (OrderItem.ten_digits a); split; congruence. Qed.

Lemma fields_valid_pass self st : fields_valid self st -> fields_pass self st.
Proof.
  intros [Hparent [Hq [Hp Hs]]]. split; [exact Hparent|]. split; [|split; assumption].
  unfold OrderItem.max_quantity. lia.
Qed.

(** [clean_fields] raises nothing but a validation error, writes nothing,
    and passes exactly the instances whose fields pass. *)
Lemma OrderItem_clean_fields_spec self st :
  (fields_pass self st /\ OrderItem.clean_fields self st = (Ok tt, st))
  \/ (~ fields_pass self st
      /\ exists message,
          OrderItem.clean_fields self st = (Raise (ValidationError message), st)).
Proof.
  unfold OrderItem.clean_fields, fields_pass.
  destruct (get Order.pk (OrderItem.order self) (OrderItem.orders st)) as [parent|] eqn:Hparent.
  2:{ right. split; [intros [[p Hp] _]; discriminate Hp|]. eexists. reflexivity. }
  destruct (Z.ltb_spec (OrderItem.quantity self) 0) as [Hneg|Hpos].
  { right. split; [intros [_ [Hq _]]; lia|]. eexists. reflexivity. }
  destruct (Z.ltb_spec OrderItem.max_quantity (OrderItem.quantity self)) as [Hbig|Hsmall].
  { right. split; [intros [_ [Hq _]]; lia|]. eexists. reflexivity. }
  destruct (OrderItem.ten_digits (OrderItem.unit_price self)) eqn:Hprice; cbn [negb].
  2:{ right. split; [|eexists; reflexivity].
      intros [_ [_ [Hp _]]]. apply ten_digits_not_fits in Hprice. contradiction. }
  destruct (OrderItem.subtotal self) as [s|] eqn:Hsub.
  2:{ right. split; [|eexists; reflexivity].
      intros [_ [_ [_ [s [Hs _]]]]]. discriminate Hs. }
  destruct (OrderItem.ten_digits s) eqn:Hs.
  - left. split; [|reflexivity].
    split; [now exists parent|]. split; [lia|]. split; [now apply ten_digits_fits|].
    exists s. split; [reflexivity|now apply ten_digits_fits].
  - right. split; [|eexists; reflexivity].
    intros [_ [_ [_ [s' [Hs' Hfit]]]]]. injection Hs' as <-.
    apply ten_digits_not_fits in Hs. contradiction.
Qed.

(** [full_clean] passes exactly the instances whose fields pass and that
    [clean] accepts; otherwise it raises a validation error and the store
    is as it was. *)
Lemma OrderItem_full_clean_spec self st :
  (fields_pass self st /\ ~ malformed self /\ OrderItem.full_clean self st = (Ok tt, st))
  \/ ((~ fields_pass self st \/ malformed self)
      /\ exists message,
          OrderItem.full_clean self st = (Raise (ValidationError message), st)).
Proof.
  unfold OrderItem.full_clean.
  destruct (OrderItem_clean_fields_spec self st) as [[Hpass Hfields]|[Hfail [m Hfields]]].
  - rewrite (bind_ok _ _ _ _ _ Hfields).
    destruct (OrderItem_clean_spec self st) as [Hst [Hbad Hwell]].
    destruct (malformed_dec self) as [Hmal|Hmal].
    + right. split; [right; exact Hmal|].
      destruct (Hbad Hmal) as [m Hm]. exists m.
      destruct (OrderItem.clean self st) as [r s]. cbn [fst snd] in *. congruence.
    + left. split; [exact Hpass|]. split; [exact Hmal|exact (Hwell Hmal)].
  - right. split; [left; exact Hfail|]. exists m. now apply bind_raise.
Qed.

Lemma OrderItem_save_rejected self st :
  ~ fields_pass self st \/ malformed self ->
  exists message, OrderItem.save self st = (Raise (ValidationError message), st).
Proof.
  intros Hbad.
  destruct (OrderItem_full_clean_spec self st) as [[Hpass [Hwell _]]|[_ [m Hm]]].
  - destruct Hbad; contradiction.
  - exists m. unfold OrderItem.save. now apply bind_raise.
Qed.

(** The store a [save] leaves once [full_clean] has passed, step by step:
    the item row is written, and the order's total is written unless the
    order or one of its lines cannot be read back. *)
Lemma OrderItem_save_validated self st parent :
  fields_pass self st -> ~ malformed self ->
  get Order.pk (OrderItem.order self) (OrderItem.orders st) = Some parent ->
  let priced := OrderItem.set_subtotal
                  (Some (OrderItem.quantity self * OrderItem.unit_price self)) self in
  let self' := fst (base_save OrderItem.pk OrderItem.with_pk priced (OrderItem.objects st)) in
  let rows' := snd (base_save OrderItem.pk OrderItem.with_pk priced (OrderItem.objects st)) in
  let lines := filter (fun it => Pos.eqb (OrderItem.order it) (OrderItem.order self)) rows' in
  OrderItem.save self st
  = if OrderItem.ten_digits (Order.total_price parent)
       && forallb OrderItem.readable lines
    then match OrderItem.sum (map OrderItem.subtotal lines) with
         | Ok total =>
             (Ok self',
              OrderItem.mk_store
                (update Order.pk (OrderItem.order self)
                        (Order.set_total_price total parent) (OrderItem.orders st))
                rows')
         | Raise e => (Raise e, OrderItem.mk_store (OrderItem.orders st) rows')
         end
    else (Raise InvalidOperation, OrderItem.mk_store (OrderItem.orders st) rows').
Proof.
  intros Hpass Hwell Hparent priced self' rows' lines.
  destruct (OrderItem_full_clean_spec self st) as [[_ [_ Hclean]]|[[Hbad|Hbad] _]];
    [|contradiction|contradiction].
  unfold OrderItem.save. rewrite (bind_ok _ _ _ _ _ Hclean).
  fold priced. unfold OrderItem.super_save, bind at 1.
  destruct (base_save OrderItem.pk OrderItem.with_pk priced (OrderItem.objects st))
    as [s r] eqn:E. subst self' rows' lines. cbn [fst snd] in *.
  assert (OrderItem.order s = OrderItem.order self) as Horder.
  { destruct (base_save_stored _ _ OrderItem_pk_with_pk _ _ _ _ E) as [_ [_ [_ [_ Hs]]]].
    destruct (OrderItem.pk priced); subst s; reflexivity. }
  rewrite Horder. unfold bind at 1. unfold OrderItem.fetch_order.
  cbn [OrderItem.orders OrderItem.set_objects]. rewrite Hparent.
  destruct (OrderItem.ten_digits (Order.total_price parent)); cbn [andb]; [|reflexivity].
  unfold bind at 1. unfold OrderItem.fetch_items, OrderItem.items.
  cbn [OrderItem.objects].
  destruct (forallb OrderItem.readable _); [|reflexivity].
  unfold bind at 1. unfold lift.
  destruct (OrderItem.sum _) as [total|e]; [|reflexivity].
  unfold bind, OrderItem.order_save, ret.
  destruct (get_some_In _ _ _ _ Hparent) as [Hin Hpk].
  unfold base_save. cbn [Order.pk Order.set_total_price]. rewrite Hpk.
  change (OrderItem.orders (OrderItem.set_objects r st)) with (OrderItem.orders st).
  assert (existsb (has_pk Order.pk (OrderItem.order self)) (OrderItem.orders st) = true) as ->.
  { apply existsb_exists. exists parent. split; [exact Hin|]. now apply has_pk_iff. }
  reflexivity.
Qed.

(** Every [save] either is rejected by [full_clean] with the store as it
    was, or has passed it and carries on. *)
Lemma OrderItem_save_outcome self st :
  (exists message, OrderItem.save self st = (Raise (ValidationError message), st))
  \/ (fields_pass self st /\ ~ malformed self
      /\ exists parent,
          get Order.pk (OrderItem.order self) (OrderItem.orders st) = Some parent).
Proof.
  destruct (OrderItem_full_clean_spec self st) as [[Hpass [Hwell _]]|[Hbad _]].
  - right. split; [exact Hpass|]. split; [exact Hwell|]. exact (proj1 Hpass).
  - left. now apply OrderItem_save_rejected.
Qed.

Lemma sum_from acc l :
  fold_left (fun acc x => match acc, x with
                          | Ok a, Some v => Ok (a + v)
                          | Ok _, None => Raise TypeError
                          | Raise e, _ => Raise e
                          end) (map Some l) (Ok acc)
  = Ok (fold_left Z.add l acc).
Proof.
  revert acc. induction l as [|x l IH]; intros acc; [reflexivity|]. cbn. apply IH.
Qed.





(** What a [save] that returns has done. *)
Lemma OrderItem_save_returned self st self' st' :
  OrderItem.save self st = (Ok self', st') ->
  let priced := OrderItem.set_subtotal
                  (Some (OrderItem.quantity self * OrderItem.unit_price self)) self in
  let rows' := snd (base_save OrderItem.pk OrderItem.with_pk priced (OrderItem.objects st)) in
  let lines := filter (fun it => Pos.eqb (OrderItem.order it) (OrderItem.order self)) rows' in
  fields_pass self st /\ ~ malformed self
  /\ self' = fst (base_save OrderItem.pk OrderItem.with_pk priced (OrderItem.objects st))
  /\ exists parent total,
      get Order.pk (OrderItem.order self) (OrderItem.orders st) = Some parent
      /\ fits (Order.total_price parent)
      /\ forallb OrderItem.readable lines = true
      /\ OrderItem.sum (map OrderItem.subtotal lines) = Ok total
      /\ st' = OrderItem.mk_store
                 (update Order.pk (OrderItem.order self)
                         (Order.set_total_price total parent) (OrderItem.orders st))
                 rows'.
Proof.
  intros Hsave priced rows' lines.
  destruct (OrderItem_save_outcome self st) as [[m Hm]|[Hpass [Hwell [parent Hparent]]]];
    [rewrite Hm in Hsave; discriminate Hsave|].
  split; [exact Hpass|]. split; [exact Hwell|].
  rewrite (OrderItem_save_validated self st parent Hpass Hwell Hparent) in Hsave.
  subst lines rows' priced.
  destruct (OrderItem.ten_digits (Order.total_price parent)) eqn:Htotal;
    cbn [andb] in Hsave; [|discriminate Hsave].
  destruct (forallb OrderItem.readable _) eqn:Hall; [|discriminate Hsave].
  destruct (OrderItem.sum _) as [total|e] eqn:Hsum; [|discriminate Hsave].
  injection Hsave as <- <-. split; [reflexivity|].
  exists parent, total. split; [exact Hparent|]. split; [now apply ten_digits_fits|].
  repeat split; reflexivity.
Qed.












(** *** C5: the order total *)














(** Three lines added to an empty order, then the first one removed and
    the second saved again: the total is 25.00 + 80.00 + 120.00, then
    80.00 + 120.00. *)
Example order_total_three_lines :
  option_map Order.total_price
    (get Order.pk 1%positive
         (OrderItem.orders (snd (OrderItem.save serum_item two_line_order))))
  = Some (2 * 1250 + 1 * 8000 + 3 * 4000)
  /\ option_map Order.total_price
       (get Order.pk 1%positive
            (OrderItem.orders
               (snd (OrderItem.save
                       (OrderItem.with_pk 2 facial_item)
                       (snd (OrderItem.delete 1%positive
                               (snd (OrderItem.save serum_item two_line_order))))))))
     = Some (1 * 8000 + 3 * 4000).
Proof. split; vm_compute; reflexivity. Qed.


(** ** Appointments: the overlap guard and the unique slot *)

Lemma Appointment_pk_with_pk id r : Appointment.pk (Appointment.with_pk id r) = Some id.
Proof. reflexivity. Qed.

Lemma time_eqb_eq a b : Appointment.time_eqb a b = true <-> a = b.
Proof.
  unfold Appointment.time_eqb. destruct a as [h1 m1 s1 u1], b as [h2 m2 s2 u2]; cbn.
  rewrite !andb_true_iff, !Z.eqb_eq. split.
  - intros [[[-> ->] ->] ->]. reflexivity.
  - intros H. injection H as -> -> -> ->. auto.
Qed.

Lemma same_slot_iff a b : Appointment.same_slot a b = true <-> slot a = slot b.
Proof.
  unfold Appointment.same_slot, slot.
  rewrite !andb_true_iff, Pos.eqb_eq, Z.eqb_eq, time_eqb_eq. split.
  - intros [[-> ->] ->]. reflexivity.
  - intros H. injection H as -> -> ->. auto.
Qed.

Lemma for_each_raise_if {S A} (test : A -> bool) e (l : list A) (s : S) :
  Appointment.for_each l (fun x => if test x then raise e else ret tt) s
  = (if existsb test l then Raise e else Ok tt, s).
Proof.
  induction l as [|x l IH]; cbn [Appointment.for_each existsb]; [reflexivity|].
  unfold bind. destruct (test x); cbn [raise ret orb]; [reflexivity|exact IH].
Qed.

Lemma Appointment_clean_new self db :
  Appointment.pk self = None ->
  Appointment.clean self db
  = (if existsb (intersects self) (Appointment.overlapping self db)
     then Raise (ValidationError "Appointment overlaps with existing appointment")
     else Ok tt, db).
Proof.
  intros Hnew. unfold Appointment.clean. rewrite Hnew. cbn [is_none].
  unfold bind, gets. apply for_each_raise_if.
Qed.

Lemma Appointment_clean_persisted self db :
  Appointment.pk self <> None -> Appointment.clean self db = (Ok tt, db).
Proof.
  intros Hpk. unfold Appointment.clean.
  destruct (Appointment.pk self); [reflexivity|contradiction].
Qed.

Lemma status_is_active s :
  Appointment.is_active s = true
  <-> s = Appointment.pending \/ s = Appointment.confirmed.
Proof.
  destruct s; cbn; split; intros H; auto; try discriminate;
    destruct H as [H|H]; discriminate H.
Qed.

Lemma blocking_row_iff self db :
  Appointment.pk self = None ->
  existsb (intersects self) (Appointment.overlapping self db) = true
  <-> exists r, In r (Appointment.objects db) /\ blocks self r.
Proof.
  intros Hnew. rewrite existsb_exists. unfold Appointment.overlapping, blocks.
  split.
  - intros [r [Hin Hcut]]. apply filter_In in Hin. destruct Hin as [Hin Hf].
    rewrite Hnew in Hf. cbn [Appointment.exclude_pk] in Hf.
    rewrite !andb_true_iff, Pos.eqb_eq, Z.eqb_eq, status_is_active, negb_true_iff in Hf.
    destruct Hf as [[[Hstaff Hdate] Hstatus] Hkey].
    unfold intersects in Hcut. rewrite andb_true_iff, !Z.ltb_lt in Hcut.
    exists r. split; [exact Hin|]. split; [|split; [exact Hstaff|split; [exact Hdate|]]].
    + destruct (Appointment.pk r); [discriminate|discriminate Hkey].
    + split; [exact Hstatus|]. unfold intervals_intersect. lia.
  - intros [r [Hin [Hkey [Hstaff [Hdate [Hstatus [Hlt Hgt]]]]]]].
    exists r. split.
    + apply filter_In. split; [exact Hin|]. rewrite Hnew. cbn [Appointment.exclude_pk].
      rewrite !andb_true_iff, Pos.eqb_eq, Z.eqb_eq, status_is_active, negb_true_iff.
      repeat split; auto. destruct (Appointment.pk r); [reflexivity|contradiction].
    + unfold intersects. rewrite andb_true_iff, !Z.ltb_lt. lia.
Qed.

Lemma slot_taken_iff self rows :
  Appointment.unique_staff_appointment_time self rows = false
  <-> exists r, In r rows /\ takes_slot self r.
Proof.
  unfold Appointment.unique_staff_appointment_time, takes_slot.
  rewrite negb_false_iff, existsb_exists. split.
  - intros [r [Hin Hr]]. apply andb_true_iff in Hr. destruct Hr as [Hslot Hkey].
    exists r. split; [exact Hin|]. split; [now apply same_slot_iff|].
    destruct (Appointment.pk self) as [id|]; [|exact I].
    apply negb_true_iff in Hkey. intros Hpk.
    apply (has_pk_iff Appointment.pk) in Hpk. congruence.
  - intros [r [Hin [Hslot Hkey]]]. exists r. split; [exact Hin|].
    apply andb_true_iff. split; [now apply same_slot_iff|].
    destruct (Appointment.pk self) as [id|]; [|reflexivity].
    apply negb_true_iff. destruct (has_pk Appointment.pk id r) eqn:E; [|reflexivity].
    apply (has_pk_iff Appointment.pk) in E. contradiction.
Qed.

Lemma Appointment_full_clean_spec self db :
  snd (Appointment.full_clean self db) = db
  /\ (is_validation_error (fst (Appointment.full_clean self db))
      \/ (Appointment.full_clean self db = (Ok tt, db)
          /\ fst (Appointment.clean self db) = Ok tt
          /\ Appointment.unique_staff_appointment_time self (Appointment.objects db) = true)).
Proof.
  unfold Appointment.full_clean, bind, Appointment.validate_constraints.
  destruct (Appointment.pk self) as [id|] eqn:Hpk.
  - rewrite Appointment_clean_persisted by congruence.
    destruct (Appointment.unique_staff_appointment_time self (Appointment.objects db));
      cbn [fst snd]; split; auto.
    left. apply validation_error_intro.
  - rewrite (Appointment_clean_new self db Hpk).
    destruct (existsb _ _); cbn [fst snd].
    + split; [reflexivity|]. left. apply validation_error_intro.
    + destruct (Appointment.unique_staff_appointment_time self (Appointment.objects db));
        cbn [fst snd]; split; auto.
      left. apply validation_error_intro.
Qed.

(** Saving a new appointment: the checks, then the insert, and nothing
    else ([is_new] keeps the session tracking off). *)
Lemma Appointment_save_new today depth self db :
  Appointment.pk self = None ->
  Appointment.save today (S depth) None self db
  = match Appointment.full_clean self db with
    | (Ok _, _) => Appointment.super_save None self db
    | (Raise e, _) => (Raise e, db)
    end.
Proof.
  intros Hnew. cbn [Appointment.save]. unfold bind at 1.
  destruct (Appointment_full_clean_spec self db) as [Hst _].
  destruct (Appointment.full_clean self db) as [[[]|e] db'] eqn:E; cbn [snd] in Hst; subst db'.
  - unfold bind. destruct (Appointment.super_save None self db) as [[s|e] db'];
      [|reflexivity].
    rewrite Hnew. cbn [is_none negb]. rewrite andb_false_r. reflexivity.
  - reflexivity.
Qed.

(** *** C1: the overlap guard *)




(** *** C9: one appointment per staff member, date and start time *)








(** The rows of the table after [base_save]: the saved instance, and the
    rows of other keys as they were. *)
Lemma base_save_rows {Row} (pk_of : Row -> option positive) with_pk self rows r :
  In r (snd (base_save pk_of with_pk self rows)) ->
  r = fst (base_save pk_of with_pk self rows)
  \/ (In r rows /\ match pk_of self with
                   | Some id => pk_of r <> Some id
                   | None => True
                   end).
Proof.
  unfold base_save. destruct (pk_of self) as [id|] eqn:Hpk.
  - destruct (existsb (has_pk pk_of id) rows) eqn:E; cbn [fst snd].
    + unfold update. intros Hin. apply in_map_iff in Hin. destruct Hin as [r0 [Hr Hin]].
      destruct (has_pk pk_of id r0) eqn:E0; [left; congruence|].
      right. subst r0. split; [exact Hin|].
      intros H. apply has_pk_iff in H. congruence.
    + intros Hin. apply in_app_iff in Hin. destruct Hin as [Hin|[<-|[]]]; [|now left].
      right. split; [exact Hin|]. intros H.
      assert (existsb (has_pk pk_of id) rows = true) as Hex; [|congruence].
      apply existsb_exists. exists r. split; [exact Hin|now apply has_pk_iff].
  - cbn [fst snd]. intros Hin. apply in_app_iff in Hin.
    destruct Hin as [Hin|[<-|[]]]; [right; split; [exact Hin|exact I]|now left].
Qed.


Lemma slot_with_pk id r : slot (Appointment.with_pk id r) = slot r.
Proof. reflexivity. Qed.














(** ** C3: tracking a session when an appointment is completed *)

Lemma get_map_same_key {Row} (pk_of : Row -> option positive) (f : Row -> Row) id rows :
  (forall r, pk_of (f r) = pk_of r) ->
  get pk_of id (map f rows) = option_map f (get pk_of id rows).
Proof.
  intros Hf. unfold get. induction rows as [|x rows IH]; cbn; [reflexivity|].
  assert (has_pk pk_of id (f x) = has_pk pk_of id x) as ->.
  { unfold has_pk. now rewrite Hf. }
  destruct (has_pk pk_of id x); [reflexivity|exact IH].
Qed.

Lemma existsb_map_same_key {Row} (pk_of : Row -> option positive) (f : Row -> Row) id rows :
  (forall r, pk_of (f r) = pk_of r) ->
  existsb (has_pk pk_of id) (map f rows) = existsb (has_pk pk_of id) rows.
Proof.
  intros Hf. induction rows as [|x rows IH]; cbn; [reflexivity|].
  rewrite IH. unfold has_pk. now rewrite Hf.
Qed.

Lemma get_exists {Row} (pk_of : Row -> option positive) id rows r :
  get pk_of id rows = Some r -> existsb (has_pk pk_of id) rows = true.
Proof.
  intros H. apply get_some_In in H. destruct H as [Hin Hpk].
  apply existsb_exists. exists r. split; [exact Hin|now apply has_pk_iff].
Qed.

Lemma zoom_ok {S T A} (proj : S -> T) (inj : T -> S -> S) (c : M T A) s a t' :
  c (proj s) = (Ok a, t') -> zoom proj inj c s = (Ok a, inj t' s).
Proof. intros H. unfold zoom. rewrite H. reflexivity. Qed.

Lemma Appointment_full_clean_persisted self id db :
  Appointment.pk self = Some id ->
  Appointment.unique_staff_appointment_time self (Appointment.objects db) = true ->
  Appointment.full_clean self db = (Ok tt, db).
Proof.
  intros Hpk Hfree. unfold Appointment.full_clean, bind.
  rewrite Appointment_clean_persisted by congruence.
  unfold Appointment.validate_constraints. rewrite Hfree. reflexivity.
Qed.

Lemma existsb_pointwise {A} (f g : A -> bool) l :
  (forall x, f x = g x) -> existsb f l = existsb g l.
Proof.
  intros H. induction l as [|x l IH]; cbn; [reflexivity|]. now rewrite H, IH.
Qed.

Lemma unique_row_irrelevant self self2 rows :
  slot self2 = slot self -> Appointment.pk self2 = Appointment.pk self ->
  Appointment.unique_staff_appointment_time self2 rows
  = Appointment.unique_staff_appointment_time self rows.
Proof.
  intros Hslot Hpk. unfold Appointment.unique_staff_appointment_time. rewrite Hpk.
  f_equal. apply existsb_pointwise. intros r. f_equal.
  destruct (Appointment.same_slot r self) eqn:E.
  - apply same_slot_iff. apply same_slot_iff in E. congruence.
  - destruct (Appointment.same_slot r self2) eqn:E2; [|reflexivity].
    apply same_slot_iff in E2. rewrite Hslot in E2. apply same_slot_iff in E2. congruence.
Qed.

Lemma unique_after_base_save self id rows :
  Appointment.pk self = Some id ->
  Appointment.unique_staff_appointment_time self rows = true ->
  Appointment.unique_staff_appointment_time self
    (snd (base_save Appointment.pk Appointment.with_pk self rows)) = true.
Proof.
  intros Hpk Hfree.
  destruct (Appointment.unique_staff_appointment_time self (snd _)) eqn:E; [reflexivity|].
  apply slot_taken_iff in E. destruct E as [r [Hin [Hslot Hkey]]].
  rewrite Hpk in Hkey.
  destruct (base_save_rows _ _ _ _ _ Hin) as [Hr|[Hin0 _]].
  - exfalso. apply Hkey. rewrite Hr.
    destruct (base_save Appointment.pk Appointment.with_pk self rows) as [a b] eqn:Eb.
    destruct (base_save_stored _ _ Appointment_pk_with_pk _ _ _ _ Eb) as [_ [_ [_ [_ Hs]]]].
    rewrite Hpk in Hs. cbn [fst]. now subst a.
  - assert (Appointment.unique_staff_appointment_time self rows = false) as Hf; [|congruence].
    apply slot_taken_iff. exists r. split; [exact Hin0|]. split; [exact Hslot|].
    now rewrite Hpk.
Qed.

(** The first full write of a persisted appointment. *)
Lemma super_save_persisted self id db :
  Appointment.pk self = Some id ->
  exists rows,
    Appointment.super_save None self db = (Ok self, Appointment.set_objects rows db)
    /\ rows = snd (base_save Appointment.pk Appointment.with_pk self (Appointment.objects db))
    /\ get Appointment.pk id rows = Some self.
Proof.
  intros Hpk. unfold Appointment.super_save.
  destruct (base_save Appointment.pk Appointment.with_pk self (Appointment.objects db))
    as [self' rows] eqn:E.
  destruct (base_save_stored _ _ Appointment_pk_with_pk _ _ _ _ E)
    as [id' [Hpk' [Hget [_ Hself]]]].
  rewrite Hpk in Hself. subst self'. exists rows. cbn [snd].
  repeat split. congruence.
Qed.

(** [add_session] on a stored record, completed or not: the stored
    counter never goes down and goes up by at most one. *)
Lemma ClientPackage_add_session_any today cp rows k :
  ClientPackage.pk cp = Some k -> get ClientPackage.pk k rows = Some cp ->
  exists b cp' rows',
    ClientPackage.add_session today cp rows = (Ok (b, cp'), rows')
    /\ get ClientPackage.pk k rows' = Some cp'
    /\ ClientPackage.sessions_completed cp <= ClientPackage.sessions_completed cp'
       <= ClientPackage.sessions_completed cp + 1.
Proof.
  intros Hpk Hget. destruct (ClientPackage.is_completed cp) eqn:E.
  - exists false, cp, rows. rewrite (ClientPackage_add_session_completed today cp rows E).
    repeat split; auto; lia.
  - destruct (ClientPackage_add_session_spec today cp rows E)
      as [cp' [rows' [id [Hadd [_ [Hget' [_ [Hk [_ [_ [Hs _]]]]]]]]]]].
    rewrite <- (Hk k Hpk). exists true, cp', rows'. repeat split; auto; lia.
Qed.

Lemma ClientServiceSession_add_session_any today css rows k :
  ClientServiceSession.pk css = Some k -> get ClientServiceSession.pk k rows = Some css ->
  exists b css' rows',
    ClientServiceSession.add_session today css rows = (Ok (b, css'), rows')
    /\ get ClientServiceSession.pk k rows' = Some css'
    /\ ClientServiceSession.client css' = ClientServiceSession.client css
    /\ ClientServiceSession.service css' = ClientServiceSession.service css
    /\ ClientServiceSession.sessions_completed css
       <= ClientServiceSession.sessions_completed css'
       <= ClientServiceSession.sessions_completed css + 1.
Proof.
  intros Hpk Hget. destruct (ClientServiceSession.is_completed css) eqn:E.
  - exists false, css, rows.
    rewrite (ClientServiceSession_add_session_completed today css rows E).
    repeat split; auto; lia.
  - destruct (ClientServiceSession_add_session_spec today css rows E)
      as [css' [rows' [id [Hadd [_ [Hget' [_ [Hk [Hc [Hv [Hs _]]]]]]]]]]].
    rewrite <- (Hk k Hpk). exists true, css', rows'. repeat split; auto; lia.
Qed.

(** The nested [self.save(update_fields=['client_package'])]: the link is
    written, and the hook of [save] runs again on the linked package. *)
Lemma save_with_package_link today depth self id db k cp :
  Appointment.pk self = Some id ->
  Appointment.status self = Appointment.completed ->
  Appointment.client_package self = Some k ->
  Appointment.unique_staff_appointment_time self (Appointment.objects db) = true ->
  existsb (has_pk Appointment.pk id) (Appointment.objects db) = true ->
  get ClientPackage.pk k (Appointment.client_packages db) = Some cp ->
  ClientPackage.pk cp = Some k ->
  exists db' cp',
    Appointment.save today (S depth) (Some [Appointment.client_package_field]) self db
    = (Ok self, db')
    /\ Appointment.objects db'
       = map (fun r => if has_pk Appointment.pk id r
                       then Appointment.set_client_package (Some k) r else r)
             (Appointment.objects db)
    /\ get ClientPackage.pk k (Appointment.client_packages db') = Some cp'
    /\ ClientPackage.sessions_completed cp <= ClientPackage.sessions_completed cp'
       <= ClientPackage.sessions_completed cp + 1
    /\ Appointment.client_service_sessions db' = Appointment.client_service_sessions db.
Proof.
  intros Hpk Hstatus Hlink Hfree Hex Hget Hcpk.
  destruct (ClientPackage_add_session_any today cp (Appointment.client_packages db) k Hcpk Hget)
    as [b [cp' [rows' [Hadd [Hget' Hs]]]]].
  eexists _, cp'. cbn [Appointment.save].
  rewrite (bind_ok _ _ _ _ _ (Appointment_full_clean_persisted self id db Hpk Hfree)).
  unfold bind at 1, Appointment.super_save at 1. rewrite Hpk, Hex.
  rewrite Hstatus, Hlink. cbn [Appointment.status_eqb is_none negb andb fold_left
                               Appointment.copy_field].
  unfold bind at 1, Appointment.fetch_client_package at 1.
  cbn [Appointment.client_packages Appointment.set_objects]. rewrite Hget.
  unfold bind at 1, Appointment.on_client_packages, zoom.
  cbn [Appointment.client_packages Appointment.set_objects]. rewrite Hadd. cbn [ret].
  split; [reflexivity|]. cbn [Appointment.objects Appointment.client_packages
                              Appointment.client_service_sessions
                              Appointment.set_client_packages Appointment.set_objects].
  rewrite Hlink. repeat split; auto; lia.
Qed.

Lemma save_with_session_link today depth self id db k css :
  Appointment.pk self = Some id ->
  Appointment.status self = Appointment.completed ->
  Appointment.client_package self = None ->
  Appointment.client_service_session self = Some k ->
  Appointment.unique_staff_appointment_time self (Appointment.objects db) = true ->
  existsb (has_pk Appointment.pk id) (Appointment.objects db) = true ->
  get ClientServiceSession.pk k (Appointment.client_service_sessions db) = Some css ->
  ClientServiceSession.pk css = Some k ->
  exists db' css',
    Appointment.save today (S depth) (Some [Appointment.client_service_session_field]) self db
    = (Ok self, db')
    /\ Appointment.objects db'
       = map (fun r => if has_pk Appointment.pk id r
                       then Appointment.set_client_service_session (Some k) r else r)
             (Appointment.objects db)
    /\ get ClientServiceSession.pk k (Appointment.client_service_sessions db') = Some css'
    /\ ClientServiceSession.client css' = ClientServiceSession.client css
    /\ ClientServiceSession.service css' = ClientServiceSession.service css
    /\ ClientServiceSession.sessions_completed css
       <= ClientServiceSession.sessions_completed css'
       <= ClientServiceSession.sessions_completed css + 1
    /\ Appointment.client_packages db' = Appointment.client_packages db.
Proof.
  intros Hpk Hstatus Hnone Hlink Hfree Hex Hget Hkey.
  destruct (ClientServiceSession_add_session_any today css
              (Appointment.client_service_sessions db) k Hkey Hget)
    as [b [css' [rows' [Hadd [Hget' [Hc [Hv Hs]]]]]]].
  eexists _, css'. cbn [Appointment.save].
  rewrite (bind_ok _ _ _ _ _ (Appointment_full_clean_persisted self id db Hpk Hfree)).
  unfold bind at 1, Appointment.super_save at 1. rewrite Hpk, Hex.
  rewrite Hstatus, Hnone, Hlink.
  cbn [Appointment.status_eqb is_none negb andb fold_left Appointment.copy_field].
  unfold bind at 1, Appointment.fetch_client_service_session at 1.
  cbn [Appointment.client_service_sessions Appointment.set_objects]. rewrite Hget.
  unfold bind at 1, Appointment.on_client_service_sessions, zoom.
  cbn [Appointment.client_service_sessions Appointment.set_objects]. rewrite Hadd. cbn [ret].
  split; [reflexivity|]. cbn [Appointment.objects Appointment.client_packages
                              Appointment.client_service_sessions
                              Appointment.set_client_service_sessions Appointment.set_objects].
  rewrite Hlink. repeat split; auto; lia.
Qed.

Lemma In_insert_by_assigned_date x y l :
  In x (Appointment.insert_by_assigned_date y l) <-> x = y \/ In x l.
Proof.
  induction l as [|z l IH]; cbn.
  - split; intros [H|H]; auto.
  - destruct (_ <=? _); cbn; [split; intros [H|H]; auto|].
    rewrite IH. split; intros H; tauto.
Qed.

Lemma In_order_by_assigned_date_desc x l :
  In x (Appointment.order_by_assigned_date_desc l) <-> In x l.
Proof.
  induction l as [|y l IH]; cbn; [reflexivity|].
  rewrite In_insert_by_assigned_date, IH. split; intros [H|H]; auto.
Qed.

(** The rows [active_packages] holds: the client's packages that are not
    completed and include the service of the appointment. *)
Lemma In_active_packages self db cp :
  In cp (Appointment.active_packages self db)
  <-> In cp (Appointment.client_packages db)
      /\ ClientPackage.client cp = Appointment.client self
      /\ Appointment.package_includes (ClientPackage.package cp) (Appointment.service self)
                                      (Appointment.package_services db) = true
      /\ ClientPackage.is_completed cp = false.
Proof.
  unfold Appointment.active_packages.
  rewrite In_order_by_assigned_date_desc, filter_In, !andb_true_iff, Pos.eqb_eq,
    negb_true_iff. tauto.
Qed.

Lemma insert_latest_first x l :
  latest_first l -> latest_first (Appointment.insert_by_assigned_date x l).
Proof.
  induction l as [|y l IH]; cbn; [intros _; split; [intros c []|exact I]|].
  intros [Hy Hl]. destruct (Z.leb_spec (ClientPackage.assigned_date y)
                                       (ClientPackage.assigned_date x)); cbn.
  - split; [|split; assumption]. intros c [<-|Hc]; [assumption|].
    specialize (Hy c Hc). lia.
  - split; [|now apply IH]. intros c Hc. apply In_insert_by_assigned_date in Hc.
    destruct Hc as [->|Hc]; [lia|now apply Hy].
Qed.

(** The first row of [active_packages] is one assigned latest. *)
Lemma active_packages_latest_first self db : latest_first (Appointment.active_packages self db).
Proof.
  unfold Appointment.active_packages, Appointment.order_by_assigned_date_desc.
  induction (filter _ _) as [|x l IH]; cbn; [exact I|now apply insert_latest_first].
Qed.

(** A persisted, completed appointment without links: [save] validates,
    writes the row and hands over to [_auto_track_session]. *)
Lemma save_completed_unlinked today depth self id db :
  Appointment.pk self = Some id ->
  Appointment.status self = Appointment.completed ->
  Appointment.client_package self = None ->
  Appointment.client_service_session self = None ->
  Appointment.unique_staff_appointment_time self (Appointment.objects db) = true ->
  exists rows,
    Appointment.save today (S depth) None self db
    = Appointment._auto_track_session today (Appointment.save today depth) self
        (Appointment.set_objects rows db)
    /\ get Appointment.pk id rows = Some self
    /\ Appointment.unique_staff_appointment_time self rows = true.
Proof.
  intros Hpk Hstatus Hcp Hcss Hfree.
  destruct (super_save_persisted self id db Hpk) as [rows [Hsave [Hrows Hget]]].
  exists rows. split; [|split; [exact Hget|]].
  - cbn [Appointment.save].
    rewrite (bind_ok _ _ _ _ _ (Appointment_full_clean_persisted self id db Hpk Hfree)).
    rewrite (bind_ok _ _ _ _ _ Hsave).
    rewrite Hstatus, Hpk, Hcp, Hcss. reflexivity.
  - subst rows. now apply (unique_after_base_save self id).
Qed.

Lemma stored_link_written id (self : Appointment.t) f rows :
  Appointment.pk self = Some id ->
  (forall r, Appointment.pk (f r) = Appointment.pk r) ->
  get Appointment.pk id rows = Some self ->
  get Appointment.pk id
      (map (fun r => if has_pk Appointment.pk id r then f r else r) rows)
  = Some (f self).
Proof.
  intros Hpk Hf Hget. rewrite get_map_same_key.
  - rewrite Hget. cbn. apply (has_pk_iff Appointment.pk) in Hpk. now rewrite Hpk.
  - intros r. destruct (has_pk _ _ _); [apply Hf|reflexivity].
Qed.

(** The package branch of [_auto_track_session]. *)
Lemma auto_track_package today depth self id db cp rest k :
  Appointment.pk self = Some id ->
  Appointment.status self = Appointment.completed ->
  Appointment.unique_staff_appointment_time self (Appointment.objects db) = true ->
  get Appointment.pk id (Appointment.objects db) = Some self ->
  Appointment.active_packages self db = cp :: rest ->
  ClientPackage.pk cp = Some k ->
  exists db' cp',
    Appointment._auto_track_session today (Appointment.save today (S depth)) self db
    = (Ok (Appointment.set_client_package (Some k) self), db')
    /\ get Appointment.pk id (Appointment.objects db')
       = Some (Appointment.set_client_package (Some k) self)
    /\ get ClientPackage.pk k (Appointment.client_packages db') = Some cp'
    /\ ClientPackage.sessions_completed cp + 1 <= ClientPackage.sessions_completed cp'
       <= ClientPackage.sessions_completed cp + 2
    /\ Appointment.client_service_sessions db' = Appointment.client_service_sessions db.
Proof.
  intros Hpk Hstatus Hfree Hget Hactive Hkey.
  assert (ClientPackage.is_completed cp = false) as Hopen.
  { apply (In_active_packages self db cp). rewrite Hactive. now left. }
  destruct (ClientPackage_add_session_spec today cp (Appointment.client_packages db) Hopen)
    as [cp1 [rows1 [k1 [Hadd [Hpk1 [Hget1 [_ [Hk [_ [_ [Hs1 _]]]]]]]]]]].
  specialize (Hk k Hkey). subst k1.
  set (self2 := Appointment.set_client_package (Some k) self).
  destruct (save_with_package_link today depth self2 id
              (Appointment.set_client_packages rows1 db) k cp1)
    as [db' [cp' [Hsave [Hobjects [Hget' [Hs Hcss]]]]]]; try reflexivity; auto.
  { now apply (get_exists Appointment.pk id _ self). }
  exists db', cp'. split; [|split; [|split; [exact Hget'|split; [lia|exact Hcss]]]].
  - unfold Appointment._auto_track_session, bind at 1, gets. rewrite Hactive, Hkey.
    unfold Appointment.on_client_packages.
    rewrite (bind_ok _ _ _ _ _ (zoom_ok _ _ _ _ _ _ Hadd)). exact Hsave.
  - rewrite Hobjects. cbn [Appointment.objects Appointment.set_client_packages].
    now apply (stored_link_written id self (Appointment.set_client_package (Some k))).
Qed.

Lemma ClientServiceSession_save_new_key today self rows self' rows' :
  ClientServiceSession.pk self = None ->
  ClientServiceSession.save today self rows = (Ok self', rows') ->
  ClientServiceSession.pk self' = Some (next_pk ClientServiceSession.pk rows).
Proof.
  intros Hnew. unfold ClientServiceSession.save, ClientServiceSession.super_save,
    ClientServiceSession.adding, base_save.
  destruct self; cbn in *; subst.
  repeat match goal with
         | |- context [if ?b then _ else _] => destruct b; cbn
         end;
    intros H; injection H as <- <-; reflexivity.
Qed.

Lemma auto_track_nothing today save self db :
  Appointment.active_packages self db = [] ->
  Service.sessions_required (Appointment.service self) <= 1 ->
  Appointment._auto_track_session today save self db = (Ok self, db).
Proof.
  intros Hactive Hone. unfold Appointment._auto_track_session, bind, gets.
  rewrite Hactive. destruct (Z.ltb_spec 1 (Service.sessions_required (Appointment.service self)));
    [lia|reflexivity].
Qed.

Lemma auto_track_session_completed today save self db r :
  Appointment.active_packages self db = [] ->
  1 < Service.sessions_required (Appointment.service self) ->
  find (tracks (Appointment.client self) (Appointment.service self))
       (Appointment.client_service_sessions db) = Some r ->
  ClientServiceSession.is_completed r = true ->
  Appointment._auto_track_session today save self db = (Ok self, db).
Proof.
  intros Hactive Hmany Hfound Hdone.
  unfold Appointment._auto_track_session, bind at 1, gets. rewrite Hactive.
  apply Z.ltb_lt in Hmany. rewrite Hmany.
  unfold bind at 1, Appointment.on_client_service_sessions, zoom,
    ClientServiceSession.get_or_create, bind at 1, gets.
  fold (tracks (Appointment.client self) (Appointment.service self)).
  rewrite Hfound. cbn [ret fst]. rewrite Hdone. cbn [negb ret].
  destruct db; reflexivity.
Qed.

Lemma auto_track_session_open today depth self id db r k :
  Appointment.pk self = Some id ->
  Appointment.status self = Appointment.completed ->
  Appointment.client_package self = None ->
  Appointment.unique_staff_appointment_time self (Appointment.objects db) = true ->
  get Appointment.pk id (Appointment.objects db) = Some self ->
  Appointment.active_packages self db = [] ->
  1 < Service.sessions_required (Appointment.service self) ->
  find (tracks (Appointment.client self) (Appointment.service self))
       (Appointment.client_service_sessions db) = Some r ->
  ClientServiceSession.is_completed r = false ->
  ClientServiceSession.pk r = Some k ->
  exists db' r',
    Appointment._auto_track_session today (Appointment.save today (S depth)) self db
    = (Ok (Appointment.set_client_service_session (Some k) self), db')
    /\ get Appointment.pk id (Appointment.objects db')
       = Some (Appointment.set_client_service_session (Some k) self)
    /\ get ClientServiceSession.pk k (Appointment.client_service_sessions db') = Some r'
    /\ ClientServiceSession.client r' = ClientServiceSession.client r
    /\ ClientServiceSession.service r' = ClientServiceSession.service r
    /\ ClientServiceSession.sessions_completed r + 1
       <= ClientServiceSession.sessions_completed r'
       <= ClientServiceSession.sessions_completed r + 2
    /\ Appointment.client_packages db' = Appointment.client_packages db.
Proof.
  intros Hpk Hstatus Hnone Hfree Hget Hactive Hmany Hfound Hopen Hkey.
  destruct (ClientServiceSession_add_session_spec today r
              (Appointment.client_service_sessions db) Hopen)
    as [r1 [rows1 [k1 [Hadd [Hpk1 [Hget1 [_ [Hk [Hc1 [Hv1 [Hs1 _]]]]]]]]]]].
  specialize (Hk k Hkey). subst k1.
  set (self2 := Appointment.set_client_service_session (Some k) self).
  destruct (save_with_session_link today depth self2 id
              (Appointment.set_client_service_sessions rows1 db) k r1)
    as [db' [r' [Hsave [Hobjects [Hget' [Hc [Hv [Hs Hcps]]]]]]]]; try reflexivity; auto.
  { now apply (get_exists Appointment.pk id _ self). }
  exists db', r'.
  split; [|split; [|split; [exact Hget'|split; [congruence|split; [congruence|split;
                                                                    [lia|exact Hcps]]]]]].
  - unfold Appointment._auto_track_session, bind at 1, gets. rewrite Hactive.
    apply Z.ltb_lt in Hmany. rewrite Hmany.
    unfold bind at 1, Appointment.on_client_service_sessions at 1, zoom,
      ClientServiceSession.get_or_create, bind at 1, gets.
    fold (tracks (Appointment.client self) (Appointment.service self)).
    rewrite Hfound. cbn [ret fst]. rewrite Hopen. cbn [negb].
    assert (Appointment.set_client_service_sessions (Appointment.client_service_sessions db) db
            = db) as -> by (destruct db; reflexivity).
    unfold Appointment.on_client_service_sessions.
    rewrite (bind_ok _ _ _ _ _ (zoom_ok _ _ _ _ _ _ Hadd)). cbn [snd]. rewrite Hpk1.
    exact Hsave.
  - rewrite Hobjects. cbn [Appointment.objects Appointment.set_client_service_sessions].
    now apply (stored_link_written id self (Appointment.set_client_service_session (Some k))).
Qed.

Lemma auto_track_session_created today depth self id db :
  Appointment.pk self = Some id ->
  Appointment.status self = Appointment.completed ->
  Appointment.client_package self = None ->
  Appointment.unique_staff_appointment_time self (Appointment.objects db) = true ->
  get Appointment.pk id (Appointment.objects db) = Some self ->
  Appointment.active_packages self db = [] ->
  1 < Service.sessions_required (Appointment.service self) ->
  find (tracks (Appointment.client self) (Appointment.service self))
       (Appointment.client_service_sessions db) = None ->
  exists db' k r',
    Appointment._auto_track_session today (Appointment.save today (S depth)) self db
    = (Ok (Appointment.set_client_service_session (Some k) self), db')
    /\ get Appointment.pk id (Appointment.objects db')
       = Some (Appointment.set_client_service_session (Some k) self)
    /\ get ClientServiceSession.pk k (Appointment.client_service_sessions db) = None
    /\ get ClientServiceSession.pk k (Appointment.client_service_sessions db') = Some r'
    /\ ClientServiceSession.client r' = Appointment.client self
    /\ ClientServiceSession.service r' = Appointment.service self
    /\ 1 <= ClientServiceSession.sessions_completed r' <= 2
    /\ Appointment.client_packages db' = Appointment.client_packages db.
Proof.
  intros Hpk Hstatus Hnone Hfree Hget Hactive Hmany Hfound.
  set (new := ClientServiceSession.mk None (Appointment.client self) (Appointment.service self)
                                      0 false today None).
  destruct (ClientServiceSession_save_spec today new (Appointment.client_service_sessions db))
    as [r0 [rows0 [k [Hcreate [Hpk0 [Hget0 [_ [_ [Hc0 [Hv0 [Hs0 [Hi0 _]]]]]]]]]]]].
  cbn [new ClientServiceSession.client ClientServiceSession.service
       ClientServiceSession.sessions_completed] in Hc0, Hv0, Hs0, Hi0.
  assert (ClientServiceSession.is_completed r0 = false) as Hopen.
  { rewrite Hi0. apply Z.leb_gt. lia. }
  assert (get ClientServiceSession.pk k (Appointment.client_service_sessions db) = None)
    as Hfresh.
  { pose proof (ClientServiceSession_save_new_key today new _ _ _ eq_refl Hcreate) as Hk.
    assert (k = next_pk ClientServiceSession.pk (Appointment.client_service_sessions db))
      as -> by congruence.
    apply get_absent, next_pk_fresh. }
  destruct (ClientServiceSession_add_session_spec today r0 rows0 Hopen)
    as [r1 [rows1 [k1 [Hadd [Hpk1 [Hget1 [_ [Hk [Hc1 [Hv1 [Hs1 _]]]]]]]]]]].
  specialize (Hk k Hpk0). subst k1.
  set (self2 := Appointment.set_client_service_session (Some k) self).
  destruct (save_with_session_link today depth self2 id
              (Appointment.set_client_service_sessions rows1
                 (Appointment.set_client_service_sessions rows0 db)) k r1)
    as [db' [r' [Hsave [Hobjects [Hget' [Hc [Hv [Hs Hcps]]]]]]]]; try reflexivity; auto.
  { now apply (get_exists Appointment.pk id _ self). }
  exists db', k, r'.
  split; [|split; [|split; [exact Hfresh|split; [exact Hget'|split; [congruence|split;
             [congruence|split; [lia|exact Hcps]]]]]]].
  - unfold Appointment._auto_track_session, bind at 1, gets. rewrite Hactive.
    apply Z.ltb_lt in Hmany. rewrite Hmany.
    unfold bind at 1, Appointment.on_client_service_sessions at 1, zoom,
      ClientServiceSession.get_or_create, bind at 1, gets.
    fold (tracks (Appointment.client self) (Appointment.service self)).
    rewrite Hfound. fold new. unfold bind at 1. rewrite Hcreate.
    cbn [ret fst]. rewrite Hopen. cbn [negb].
    unfold Appointment.on_client_service_sessions.
    rewrite (bind_ok _ _ _ _ _
               (zoom_ok Appointment.client_service_sessions
                        Appointment.set_client_service_sessions
                        (ClientServiceSession.add_session today r0)
                        (Appointment.set_client_service_sessions rows0 db) _ _ Hadd)).
    cbn [snd]. rewrite Hpk1. exact Hsave.
  - rewrite Hobjects. cbn [Appointment.objects Appointment.set_client_service_sessions].
    now apply (stored_link_written id self (Appointment.set_client_service_session (Some k))).
Qed.

(** C3, amended: saving a persisted appointment whose status is completed
    and which has no package and no session link (and whose slot no other
    appointment holds) returns normally, and
    - if the client has a package that is not completed and includes the
      service, the first such package in the order of [active_packages]
      (latest [assigned_date] first) is linked, on the instance and on the
      stored row, and its [sessions_completed] is advanced;
    - otherwise, if the service requires more than one session: a session
      record of (client, service) that is not completed is linked and its
      counter is advanced; one that is already completed is left as it
      is and not linked; when there is none, one is created under a new
      key for the client and the service, linked, and its counter is
      advanced from 0;
    - otherwise no tracking record is created or changed and nothing is
      linked. *)
Theorem completed_appointment_tracks_session today depth self id db :
  Appointment.pk self = Some id ->
  Appointment.status self = Appointment.completed ->
  Appointment.client_package self = None ->
  Appointment.client_service_session self = None ->
  Appointment.unique_staff_appointment_time self (Appointment.objects db) = true ->
  let result := Appointment.save today (S (S depth)) None self db in
  let required := Service.sessions_required (Appointment.service self) in
  let tracked := find (tracks (Appointment.client self) (Appointment.service self))
                      (Appointment.client_service_sessions db) in
  (forall cp rest k,
      Appointment.active_packages self db = cp :: rest ->
      ClientPackage.pk cp = Some k ->
      exists db' cp',
        result = (Ok (Appointment.set_client_package (Some k) self), db')
        /\ get Appointment.pk id (Appointment.objects db')
           = Some (Appointment.set_client_package (Some k) self)
        /\ get ClientPackage.pk k (Appointment.client_packages db') = Some cp'
        /\ ClientPackage.sessions_completed cp < ClientPackage.sessions_completed cp'
        /\ Appointment.client_service_sessions db' = Appointment.client_service_sessions db)
  /\ (Appointment.active_packages self db = [] -> 1 < required ->
      (forall r k,
          tracked = Some r -> ClientServiceSession.is_completed r = false ->
          ClientServiceSession.pk r = Some k ->
          exists db' r',
            result = (Ok (Appointment.set_client_service_session (Some k) self), db')
            /\ get Appointment.pk id (Appointment.objects db')
               = Some (Appointment.set_client_service_session (Some k) self)
            /\ get ClientServiceSession.pk k (Appointment.client_service_sessions db')
               = Some r'
            /\ ClientServiceSession.client r' = ClientServiceSession.client r
            /\ ClientServiceSession.service r' = ClientServiceSession.service r
            /\ ClientServiceSession.sessions_completed r
               < ClientServiceSession.sessions_completed r'
            /\ Appointment.client_packages db' = Appointment.client_packages db)
      /\ (forall r,
             tracked = Some r -> ClientServiceSession.is_completed r = true ->
             exists db',
               result = (Ok self, db')
               /\ get Appointment.pk id (Appointment.objects db') = Some self
               /\ Appointment.client_packages db' = Appointment.client_packages db
               /\ Appointment.client_service_sessions db'
                  = Appointment.client_service_sessions db)
      /\ (tracked = None ->
          exists db' k r',
            result = (Ok (Appointment.set_client_service_session (Some k) self), db')
            /\ get Appointment.pk id (Appointment.objects db')
               = Some (Appointment.set_client_service_session (Some k) self)
            /\ get ClientServiceSession.pk k (Appointment.client_service_sessions db) = None
            /\ get ClientServiceSession.pk k (Appointment.client_service_sessions db')
               = Some r'
            /\ ClientServiceSession.client r' = Appointment.client self
            /\ ClientServiceSession.service r' = Appointment.service self
            /\ 0 < ClientServiceSession.sessions_completed r'
            /\ Appointment.client_packages db' = Appointment.client_packages db))
  /\ (Appointment.active_packages self db = [] -> required <= 1 ->
      exists db',
        result = (Ok self, db')
        /\ get Appointment.pk id (Appointment.objects db') = Some self
        /\ Appointment.client_packages db' = Appointment.client_packages db
        /\ Appointment.client_service_sessions db' = Appointment.client_service_sessions db).
Proof.
  intros Hpk Hstatus Hcp Hcss Hfree result required tracked.
  destruct (save_completed_unlinked today (S depth) self id db Hpk Hstatus Hcp Hcss Hfree)
    as [rows [Hsave [Hget Hfree']]].
  subst result. rewrite Hsave. clear Hsave.
  set (db1 := Appointment.set_objects rows db).
  split; [|split].
  - intros cp rest k Hactive Hkey.
    destruct (auto_track_package today depth self id db1 cp rest k Hpk Hstatus Hfree' Hget
                Hactive Hkey) as [db' [cp' [Hrun [Hrow [Hcp' [Hs Hsessions]]]]]].
    exists db', cp'. repeat split; auto. lia.
  - intros Hactive Hmany. split; [|split].
    + intros r k Hfound Hopen Hkey.
      destruct (auto_track_session_open today depth self id db1 r k Hpk Hstatus Hcp Hfree'
                  Hget Hactive Hmany Hfound Hopen Hkey)
        as [db' [r' [Hrun [Hrow [Hr' [Hc [Hv [Hs Hpackages]]]]]]]].
      exists db', r'. repeat split; auto. lia.
    + intros r Hfound Hdone. exists db1.
      rewrite (auto_track_session_completed today _ self db1 r Hactive Hmany Hfound Hdone).
      repeat split. exact Hget.
    + intros Hfound.
      destruct (auto_track_session_created today depth self id db1 Hpk Hstatus Hcp Hfree'
                  Hget Hactive Hmany Hfound)
        as [db' [k [r' [Hrun [Hrow [Hfresh [Hr' [Hc [Hv [Hs Hpackages]]]]]]]]]].
      exists db', k, r'. repeat split; auto. lia.
  - intros Hactive Hone. exists db1.
    rewrite (auto_track_nothing today _ self db1 Hactive Hone).
    repeat split. exact Hget.
Qed.

(** C3, as stated, fails: the service requires six sessions, the client
    has no package, the session record of (client, service) exists and is
    already completed; saving the completed appointment leaves its counter
    at 6 and links nothing, where C3 has it advanced by exactly one. *)
Lemma completed_course_not_advanced :
  Appointment.active_packages laser_done after_finished_course = []
  /\ 1 < Service.sessions_required (Appointment.service laser_done)
  /\ get ClientServiceSession.pk 1%positive
         (Appointment.client_service_sessions after_finished_course)
     = Some finished_course
  /\ exists db',
      Appointment.save 210 2 None laser_done after_finished_course = (Ok laser_done, db')
      /\ option_map ClientServiceSession.sessions_completed
           (get ClientServiceSession.pk 1%positive (Appointment.client_service_sessions db'))
         = Some 6
      /\ 6 <> ClientServiceSession.sessions_completed finished_course + 1.
Proof.
  split; [reflexivity|]. split; [reflexivity|]. split; [reflexivity|].
  eexists. split; [vm_compute; reflexivity|]. split; [reflexivity|discriminate].
Qed.

Lemma completed_appointment_tracks_session_witness :
  exists db' cp',
    Appointment.save 210 2 None facial_done with_open_package
    = (Ok (Appointment.set_client_package (Some 1%positive) facial_done), db')
    /\ get ClientPackage.pk 1%positive (Appointment.client_packages db') = Some cp'
    /\ 0 < ClientPackage.sessions_completed cp'.
Proof.
  destruct (completed_appointment_tracks_session 210 0 facial_done 1%positive
              with_open_package eq_refl eq_refl eq_refl eq_refl eq_refl)
    as [Hpackage _].
  destruct (Hpackage fresh_client_package [] 1%positive eq_refl eq_refl)
    as [db' [cp' [Hsave [_ [Hget [Hs _]]]]]].
  exists db', cp'. split; [exact Hsave|]. split; [exact Hget|exact Hs].
Defined.

(** The nested [self.save(update_fields=...)] of [_auto_track_session]
    runs the completion hook of [save] a second time, now with the link
    set: one save of one completed appointment takes the package from 0
    to 2 sessions of 3, and a newly created session record from 0 to 2. *)
Remark auto_tracking_counts_twice :
  option_map ClientPackage.sessions_completed
    (get ClientPackage.pk 1%positive
         (Appointment.client_packages
            (snd (Appointment.save 210 2 None facial_done with_open_package))))
  = Some 2
  /\ option_map ClientServiceSession.sessions_completed
       (get ClientServiceSession.pk 1%positive
            (Appointment.client_service_sessions
               (snd (Appointment.save 210 2 None laser_done
                       (Appointment.mk_db [laser_done] [] [] [])))))
     = Some 2.
Proof. split; vm_compute; reflexivity. Qed.

(** Two nested calls are all [save] makes: more depth changes nothing. *)
Remark save_depth_two_suffices :
  Appointment.save 210 2 None facial_done with_open_package
  = Appointment.save 210 1000 None facial_done with_open_package.
Proof. vm_compute. reflexivity. Qed.

(** * Further properties *)

(** ** The overlap guard over a sequence of bookings *)

Lemma intervals_intersect_sym a b : intervals_intersect a b <-> intervals_intersect b a.
Proof. unfold intervals_intersect. lia. Qed.

Lemma accepted_new_not_blocked self db :
  Appointment.pk self = None ->
  fst (Appointment.clean self db) = Ok tt ->
  forall r, In r (Appointment.objects db) -> ~ blocks self r.
Proof.
  intros Hnew Hclean r Hin Hblocks.
  rewrite (Appointment_clean_new self db Hnew) in Hclean.
  destruct (existsb (intersects self) (Appointment.overlapping self db)) eqn:E;
    [discriminate Hclean|].
  assert (existsb (intersects self) (Appointment.overlapping self db) = true) as Ht;
    [|congruence].
  apply (blocking_row_iff self db Hnew). now exists r.
Qed.

(** X1: starting from a table where no two different active (pending or
    confirmed) appointments of one staff member and date intersect, saving
    a new appointment, accepted or rejected, leaves a table with the same
    property.  The guard covers creation only: rescheduling a persisted
    appointment into an occupied interval is accepted and breaks it. *)
Theorem creation_keeps_bookings_apart :
  (forall today depth self db,
      Appointment.pk self = None ->
      bookings_ok db ->
      bookings_ok (snd (Appointment.save today (S depth) None self db)))
  /\ (exists today self db db',
         bookings_ok db
         /\ Appointment.pk self <> None
         /\ Appointment.save today 2 None self db = (Ok self, db')
         /\ ~ no_active_overlap (Appointment.objects db')).
Proof.
  split.
  - intros today depth self db Hnew [Hkeyed Hapart].
    rewrite (Appointment_save_new today depth self db Hnew).
    destruct (Appointment_full_clean_spec self db) as [Hst [[m Hm]|[Hfull [Hclean _]]]].
    + destruct (Appointment.full_clean self db) as [[[]|e] db']; cbn [fst snd] in *;
        [discriminate Hm|subst db'; split; assumption].
    + rewrite Hfull. unfold Appointment.super_save, base_save. rewrite Hnew.
      cbn [snd Appointment.set_objects]. unfold bookings_ok. cbn [Appointment.objects].
      set (new := Appointment.with_pk (next_pk Appointment.pk (Appointment.objects db)) self).
      pose proof (accepted_new_not_blocked self db Hnew Hclean) as Hfree.
      assert (forall r, In r (Appointment.objects db) ->
                        Appointment.is_active (Appointment.status r) = true ->
                        Appointment.staff r = Appointment.staff self ->
                        Appointment.appointment_date r = Appointment.appointment_date self ->
                        ~ intervals_intersect self r) as Hself.
      { intros r Hin Hactive Hstaff Hdate Hcut. apply (Hfree r Hin).
        split; [now apply Hkeyed|]. split; [exact Hstaff|]. split; [exact Hdate|].
        split; [now apply status_is_active|exact Hcut]. }
      split.
      * intros r Hin. apply in_app_iff in Hin. destruct Hin as [Hin|[<-|[]]];
          [now apply Hkeyed|discriminate].
      * intros r1 r2 H1 H2 Hne Ha1 Ha2 Hstaff Hdate.
        apply in_app_iff in H1, H2.
        destruct H1 as [H1|[<-|[]]], H2 as [H2|[<-|[]]].
        -- now apply Hapart.
        -- intros Hcut. apply (Hself r1 H1 Ha1 Hstaff Hdate).
           apply intervals_intersect_sym. exact Hcut.
        -- intros Hcut. apply (Hself r2 H2 Ha2); [now symmetry|now symmetry|exact Hcut].
        -- contradiction.
  - exists 150, moved_to_10_30, two_bookings. eexists.
    split; [|split; [discriminate|split; [vm_compute; reflexivity|]]].
    + split.
      * intros r [<-|[<-|[]]]; discriminate.
      * intros r1 r2 [<-|[<-|[]]] [<-|[<-|[]]] Hne _ _ _ _ [Hlt Hgt];
          try (now apply Hne); vm_compute in Hlt, Hgt; discriminate.
    + intros Hapart.
      apply (Hapart booked_at_10 moved_to_10_30); try reflexivity.
      * left. reflexivity.
      * right. left. reflexivity.
      * discriminate.
      * split; vm_compute; reflexivity.
Qed.

Lemma creation_keeps_bookings_apart_witness :
  bookings_ok (day_with booked_at_10)
  /\ bookings_ok (snd (Appointment.save 150 1 None (request_at 11 0) (day_with booked_at_10))).
Proof.
  assert (bookings_ok (day_with booked_at_10)) as Hok.
  { split.
    - intros r [<-|[]]. discriminate.
    - intros r1 r2 [<-|[]] [<-|[]] Hne. now contradiction Hne. }
  split; [exact Hok|].
  exact (proj1 creation_keeps_bookings_apart 150 0%nat (request_at 11 0) (day_with booked_at_10)
           eq_refl Hok).
Defined.

(** ** When [Appointment.save] touches the counters *)

Lemma super_save_frame update_fields self db :
  Appointment.client_packages (snd (Appointment.super_save update_fields self db))
  = Appointment.client_packages db
  /\ Appointment.client_service_sessions (snd (Appointment.super_save update_fields self db))
     = Appointment.client_service_sessions db
  /\ forall a, fst (Appointment.super_save update_fields self db) = Ok a ->
               Appointment.status a = Appointment.status self.
Proof.
  unfold Appointment.super_save. destruct update_fields as [fields|].
  - destruct (Appointment.pk self) as [id|]; [|repeat split; intros a H; discriminate H].
    destruct (existsb _ _); cbn [fst snd]; repeat split; intros a H;
      [now injection H as <-|discriminate H].
  - unfold base_save. destruct (Appointment.pk self) as [id|];
      [destruct (existsb _ _)|]; cbn [fst snd]; repeat split;
      intros a H; now injection H as <-.
Qed.

Lemma super_save_writes_objects update_fields self db :
  exists rows, snd (Appointment.super_save update_fields self db)
               = Appointment.set_objects rows db.
Proof.
  unfold Appointment.super_save. destruct update_fields as [fields|].
  - destruct (Appointment.pk self) as [id|];
      [destruct (existsb _ _)|]; cbn [snd]; try (eexists; reflexivity);
      exists (Appointment.objects db); now destruct db.
  - destruct (base_save _ _ _ _). eexists. reflexivity.
Qed.

(** X2: a save of an appointment that is new, or whose status is not
    completed, never touches a session counter: the tables of client
    packages and of client service sessions are left exactly as they
    were. *)
Theorem save_leaves_counters_unless_completed_edit today depth update_fields self db :
  Appointment.pk self = None \/ Appointment.status self <> Appointment.completed ->
  Appointment.client_packages (snd (Appointment.save today depth update_fields self db))
  = Appointment.client_packages db
  /\ Appointment.client_service_sessions
       (snd (Appointment.save today depth update_fields self db))
     = Appointment.client_service_sessions db.
Proof.
  intros Hcase.
  assert (exists rows, snd (Appointment.save today depth update_fields self db)
                       = Appointment.set_objects rows db) as [rows ->].
  { destruct depth as [|depth]; [exists (Appointment.objects db); now destruct db|].
    cbn [Appointment.save]. unfold bind at 1.
    destruct (Appointment_full_clean_spec self db) as [Hst _].
    destruct (Appointment.full_clean self db) as [[[]|e] db0]; cbn [snd] in Hst; subst db0;
      [|exists (Appointment.objects db); now destruct db].
    unfold bind.
    destruct (super_save_frame update_fields self db) as [_ [_ Hstatus]].
    destruct (super_save_writes_objects update_fields self db) as [rows Hrows].
    destruct (Appointment.super_save update_fields self db) as [[a|e] db1];
      cbn [fst snd] in *; subst db1; exists rows; [|reflexivity].
    assert (Appointment.status_eqb (Appointment.status a) Appointment.completed
            && negb (is_none (Appointment.pk self)) = false) as ->.
    { destruct Hcase as [->|Hstat]; [apply andb_false_r|].
      rewrite (Hstatus a eq_refl). destruct (Appointment.status self);
        try reflexivity. contradiction. }
    reflexivity. }
  split; reflexivity.
Qed.

Lemma save_leaves_counters_unless_completed_edit_witness :
  Appointment.client_packages
    (snd (Appointment.save 210 2 None
            (Appointment.mk (Some 1%positive) 7 facial 2 200 (at_time 10 0)
                            Appointment.confirmed None None)
            with_open_package))
  = [fresh_client_package].
Proof.
  apply (save_leaves_counters_unless_completed_edit 210 2 None
           (Appointment.mk (Some 1%positive) 7 facial 2 200 (at_time 10 0)
                           Appointment.confirmed None None) with_open_package).
  right. discriminate.
Defined.


(** ** The end time of an appointment *)

Lemma combine_split date tm :
  Appointment.combine date tm
  = date * AppointmentEnd.day_microseconds + AppointmentEnd.microseconds_of tm.
Proof.
  unfold Appointment.combine, AppointmentEnd.day_microseconds,
    AppointmentEnd.microseconds_of. ring.
Qed.

Lemma valid_time_microseconds tm :
  AppointmentEnd.valid_time tm ->
  0 <= AppointmentEnd.microseconds_of tm < AppointmentEnd.day_microseconds.
Proof.
  unfold AppointmentEnd.valid_time, AppointmentEnd.microseconds_of,
    AppointmentEnd.day_microseconds. lia.
Qed.

Lemma time_of_valid dt :
  AppointmentEnd.valid_time (AppointmentEnd.time_of dt)
  /\ AppointmentEnd.microseconds_of (AppointmentEnd.time_of dt)
     = dt mod AppointmentEnd.day_microseconds.
Proof.
  unfold AppointmentEnd.valid_time, AppointmentEnd.time_of, AppointmentEnd.microseconds_of,
    AppointmentEnd.day_microseconds.
  cbn [Appointment.hour Appointment.minute Appointment.second Appointment.microsecond].
  assert (0 <= dt mod 86400000000 < 86400000000) as Hus by (apply Z.mod_pos_bound; lia).
  set (us := dt mod 86400000000) in *. clearbody us.
  repeat split; try (apply Z.mod_pos_bound; lia);
    Z.div_mod_to_equations; lia.
Qed.

(** Reading back the time of day of [combine]. *)
Lemma time_of_combine date tm :
  AppointmentEnd.valid_time tm ->
  AppointmentEnd.time_of (Appointment.combine date tm) = tm.
Proof.
  intros Hvalid. pose proof (valid_time_microseconds tm Hvalid) as Hus.
  rewrite combine_split. unfold AppointmentEnd.time_of.
  assert ((date * AppointmentEnd.day_microseconds + AppointmentEnd.microseconds_of tm)
            mod AppointmentEnd.day_microseconds = AppointmentEnd.microseconds_of tm) as ->.
  { rewrite Z.add_comm, Z.mod_add by (unfold AppointmentEnd.day_microseconds; lia).
    now apply Z.mod_small. }
  unfold AppointmentEnd.valid_time, AppointmentEnd.microseconds_of in *.
  destruct tm as [h m s u]; cbn in *. f_equal; Z.div_mod_to_equations; lia.
Qed.

(** X4: for an appointment with a well-formed start time, a non-negative
    duration and a date in range, [get_end_time] returns the time of day
    (start + duration) modulo 24 hours, a well-formed time: it is the end
    that the overlap guard uses when the appointment ends on its own day,
    and an earlier time of day than the start when an appointment shorter
    than a day runs past midnight; past 9999-12-31 it raises
    [OverflowError]. *)
Theorem get_end_time_wraps self :
  AppointmentEnd.valid_time (Appointment.appointment_time self) ->
  0 <= Service.duration (Appointment.service self) ->
  1 <= Appointment.appointment_date self ->
  let start := AppointmentEnd.microseconds_of (Appointment.appointment_time self) in
  let length := Appointment.timedelta_minutes (Service.duration (Appointment.service self)) in
  let day := AppointmentEnd.day_microseconds in
  (Appointment.appointment_date self + (start + length) / day <= AppointmentEnd.max_ordinal ->
   exists t,
     AppointmentEnd.get_end_time self = Ok t
     /\ AppointmentEnd.valid_time t
     /\ AppointmentEnd.microseconds_of t = (start + length) mod day
     /\ (start + length < day ->
         Appointment.combine (Appointment.appointment_date self) t
         = Appointment.end_datetime self)
     /\ (day <= start + length -> length < day -> AppointmentEnd.microseconds_of t < start))
  /\ (AppointmentEnd.max_ordinal < Appointment.appointment_date self + (start + length) / day ->
      AppointmentEnd.get_end_time self = Raise OverflowError).
Proof.
  intros Hvalid Hduration Hdate start length day.
  pose proof (valid_time_microseconds _ Hvalid) as Hstart. fold start day in Hstart.
  assert (0 <= length) as Hlength.
  { unfold length, Appointment.timedelta_minutes. lia. }
  assert (0 < day) as Hday by (unfold day, AppointmentEnd.day_microseconds; lia).
  assert (Appointment.combine (Appointment.appointment_date self)
                              (Appointment.appointment_time self) + length
          = Appointment.appointment_date self * day + (start + length)) as Hsum.
  { rewrite combine_split. fold start day. ring. }
  assert (AppointmentEnd.ordinal_of
            (Appointment.combine (Appointment.appointment_date self)
                                 (Appointment.appointment_time self) + length)
          = Appointment.appointment_date self + (start + length) / day) as Hordinal.
  { unfold AppointmentEnd.ordinal_of. fold day. rewrite Hsum.
    rewrite Z.add_comm, Z.div_add by lia. ring. }
  assert (0 <= (start + length) / day) as Hdays by (apply Z.div_pos; lia).
  unfold AppointmentEnd.get_end_time, AppointmentEnd.add_timedelta. fold length.
  rewrite Hordinal. split.
  - intros Hrange.
    assert ((1 <=? Appointment.appointment_date self + (start + length) / day)
            && (Appointment.appointment_date self + (start + length) / day
                <=? AppointmentEnd.max_ordinal) = true) as ->.
    { apply andb_true_iff. split; apply Z.leb_le; lia. }
    eexists. split; [reflexivity|].
    destruct (time_of_valid (Appointment.combine (Appointment.appointment_date self)
                               (Appointment.appointment_time self) + length))
      as [Hwell Hus].
    fold day in Hus.
    assert ((Appointment.appointment_date self * day + (start + length)) mod day
            = (start + length) mod day) as Hmod.
    { rewrite Z.add_comm, Z.mod_add by lia. reflexivity. }
    rewrite Hsum in Hus at 2. rewrite Hmod in Hus.
    split; [exact Hwell|]. split; [exact Hus|]. split.
    + intros Hsame. rewrite combine_split. fold day. rewrite Hus.
      rewrite Z.mod_small by lia. unfold Appointment.end_datetime, Appointment.start_datetime,
        Appointment.make_aware. fold length. rewrite combine_split. fold start day. ring.
    + intros Hpast Hshort. rewrite Hus.
      assert ((start + length) mod day = start + length - day) as ->.
      { symmetry. apply Z.mod_unique with (q := 1); lia. }
      lia.
  - intros Hover.
    assert ((Appointment.appointment_date self + (start + length) / day
             <=? AppointmentEnd.max_ordinal) = false) as -> by (apply Z.leb_gt; lia).
    rewrite andb_false_r. reflexivity.
Qed.

(** The appointment of [test_appointment_end_time_calculation], and a
    facial that starts at 23:30. *)
Lemma get_end_time_wraps_witness :
  AppointmentEnd.get_end_time booked_at_10 = Ok (at_time 11 0)
  /\ exists t,
      AppointmentEnd.get_end_time
        (Appointment.mk None 8 facial 2 200 (at_time 23 30) Appointment.pending None None)
      = Ok t
      /\ AppointmentEnd.microseconds_of t < AppointmentEnd.microseconds_of (at_time 23 30).
Proof.
  split; [vm_compute; reflexivity|].
  assert (AppointmentEnd.valid_time (at_time 23 30)) as Hvalid.
  { unfold AppointmentEnd.valid_time. cbn. lia. }
  destruct (get_end_time_wraps
              (Appointment.mk None 8 facial 2 200 (at_time 23 30) Appointment.pending None None)
              Hvalid) as [Hin _]; [cbn; lia|cbn; lia|].
  destruct Hin as [t [Hend [_ [_ [_ Hwrap]]]]]; [vm_compute; discriminate|].
  exists t. split; [exact Hend|].
  apply Hwrap; vm_compute; [discriminate|reflexivity].
Defined.

(** ** Session counters: what is left, and calls in a row *)

Lemma ClientPackage_add_sessions_completed today n self rows :
  ClientPackage.is_completed self = true ->
  ClientPackage_add_sessions today n self rows = (Ok self, rows).
Proof.
  intros Hdone. induction n as [|n IH]; cbn [ClientPackage_add_sessions]; [reflexivity|].
  rewrite (bind_ok _ _ _ _ _ (ClientPackage_add_session_completed today self rows Hdone)).
  exact IH.
Qed.

Lemma ClientPackage_add_sessions_spec today n :
  forall self rows,
    ClientPackage.is_completed self = false ->
    ClientPackage.sessions_completed self < Package.total_sessions (ClientPackage.package self) ->
    exists self' rows',
      ClientPackage_add_sessions today n self rows = (Ok self', rows')
      /\ ClientPackage.package self' = ClientPackage.package self
      /\ ClientPackage.sessions_completed self'
         = Z.min (ClientPackage.sessions_completed self + Z.of_nat n)
                 (Package.total_sessions (ClientPackage.package self))
      /\ ClientPackage.is_completed self'
         = (Package.total_sessions (ClientPackage.package self)
            <=? ClientPackage.sessions_completed self + Z.of_nat n).
Proof.
  induction n as [|n IH]; intros self rows Hopen Hbelow.
  - exists self, rows. cbn [ClientPackage_add_sessions ret]. repeat split.
    + lia.
    + rewrite Hopen. symmetry. apply Z.leb_gt. lia.
  - destruct (ClientPackage_add_session_spec today self rows Hopen)
      as [self1 [rows1 [id [Hadd [_ [_ [_ [_ [_ [Hp [Hs [Hi _]]]]]]]]]]]].
    cbn [ClientPackage_add_sessions]. rewrite (bind_ok _ _ _ _ _ Hadd). cbn [snd].
    destruct (Z.leb_spec (Package.total_sessions (ClientPackage.package self))
                         (ClientPackage.sessions_completed self + 1)) as [Hreach|Hmore].
    + rewrite (ClientPackage_add_sessions_completed today n self1 rows1 Hi).
      exists self1, rows1. repeat split; auto; [lia|].
      rewrite Hi. symmetry. apply Z.leb_le. lia.
    + destruct (IH self1 rows1 Hi) as [self' [rows' [Hrun [Hp' [Hs' Hi']]]]]; [rewrite Hp; lia|].
      exists self', rows'. rewrite Hp, Hs in *. repeat split; auto.
      * rewrite Hs'. f_equal. lia.
      * rewrite Hi'. f_equal. lia.
Qed.

Lemma ClientServiceSession_add_sessions_completed today n self rows :
  ClientServiceSession.is_completed self = true ->
  ClientServiceSession_add_sessions today n self rows = (Ok self, rows).
Proof.
  intros Hdone. induction n as [|n IH]; cbn [ClientServiceSession_add_sessions]; [reflexivity|].
  rewrite (bind_ok _ _ _ _ _ (ClientServiceSession_add_session_completed today self rows Hdone)).
  exact IH.
Qed.

Lemma ClientServiceSession_add_sessions_spec today n :
  forall self rows,
    ClientServiceSession.is_completed self = false ->
    ClientServiceSession.sessions_completed self < Service.sessions_required (ClientServiceSession.service self) ->
    exists self' rows',
      ClientServiceSession_add_sessions today n self rows = (Ok self', rows')
      /\ ClientServiceSession.service self' = ClientServiceSession.service self
      /\ ClientServiceSession.sessions_completed self'
         = Z.min (ClientServiceSession.sessions_completed self + Z.of_nat n)
                 (Service.sessions_required (ClientServiceSession.service self))
      /\ ClientServiceSession.is_completed self'
         = (Service.sessions_required (ClientServiceSession.service self)
            <=? ClientServiceSession.sessions_completed self + Z.of_nat n).
Proof.
  induction n as [|n IH]; intros self rows Hopen Hbelow.
  - exists self, rows. cbn [ClientServiceSession_add_sessions ret]. repeat split.
    + lia.
    + rewrite Hopen. symmetry. apply Z.leb_gt. lia.
  - destruct (ClientServiceSession_add_session_spec today self rows Hopen)
      as [self1 [rows1 [id [Hadd [_ [_ [_ [_ [_ [Hp [Hs [Hi _]]]]]]]]]]]].
    cbn [ClientServiceSession_add_sessions]. rewrite (bind_ok _ _ _ _ _ Hadd). cbn [snd].
    destruct (Z.leb_spec (Service.sessions_required (ClientServiceSession.service self))
                         (ClientServiceSession.sessions_completed self + 1)) as [Hreach|Hmore].
    + rewrite (ClientServiceSession_add_sessions_completed today n self1 rows1 Hi).
      exists self1, rows1. repeat split; auto; [lia|].
      rewrite Hi. symmetry. apply Z.leb_le. lia.
    + destruct (IH self1 rows1 Hi) as [self' [rows' [Hrun [Hp' [Hs' Hi']]]]]; [rewrite Hp; lia|].
      exists self', rows'. rewrite Hp, Hs in *. repeat split; auto.
      * rewrite Hs'. f_equal. lia.
      * rewrite Hi'. f_equal. lia.
Qed.

(** X5: [add_session] saturates at the target.  On a record that is not
    completed and below its target, [n] calls in a row leave
    [sessions_completed] at min(count + n, target), the record completed
    exactly when count + n reaches the target, and [get_remaining_sessions]
    at max(0, target - count - n): the calls past the target change
    nothing.  The same holds for [ClientPackage] and
    [ClientServiceSession]. *)
Theorem add_session_saturates today n :
  (forall self rows,
      ClientPackage.is_completed self = false ->
      ClientPackage.sessions_completed self
      < Package.total_sessions (ClientPackage.package self) ->
      exists self' rows',
        ClientPackage_add_sessions today n self rows = (Ok self', rows')
        /\ ClientPackage.sessions_completed self'
           = Z.min (ClientPackage.sessions_completed self + Z.of_nat n)
                   (Package.total_sessions (ClientPackage.package self))
        /\ (ClientPackage.is_completed self' = true
            <-> Package.total_sessions (ClientPackage.package self)
                <= ClientPackage.sessions_completed self + Z.of_nat n)
        /\ ClientPackage.get_remaining_sessions self'
           = Z.max 0 (Package.total_sessions (ClientPackage.package self)
                      - ClientPackage.sessions_completed self - Z.of_nat n))
  /\ (forall self rows,
         ClientServiceSession.is_completed self = false ->
         ClientServiceSession.sessions_completed self
         < Service.sessions_required (ClientServiceSession.service self) ->
         exists self' rows',
           ClientServiceSession_add_sessions today n self rows = (Ok self', rows')
           /\ ClientServiceSession.sessions_completed self'
              = Z.min (ClientServiceSession.sessions_completed self + Z.of_nat n)
                      (Service.sessions_required (ClientServiceSession.service self))
           /\ (ClientServiceSession.is_completed self' = true
               <-> Service.sessions_required (ClientServiceSession.service self)
                   <= ClientServiceSession.sessions_completed self + Z.of_nat n)
           /\ ClientServiceSession.get_remaining_sessions self'
              = Z.max 0 (Service.sessions_required (ClientServiceSession.service self)
                         - ClientServiceSession.sessions_completed self - Z.of_nat n)).
Proof.
  split.
  - intros self rows Hopen Hbelow.
    destruct (ClientPackage_add_sessions_spec today n self rows Hopen Hbelow)
      as [self' [rows' [Hrun [Hp [Hs Hi]]]]].
    exists self', rows'. split; [exact Hrun|]. split; [exact Hs|].
    split; [rewrite Hi; apply Z.leb_le|].
    unfold ClientPackage.get_remaining_sessions. rewrite Hp, Hs. lia.
  - intros self rows Hopen Hbelow.
    destruct (ClientServiceSession_add_sessions_spec today n self rows Hopen Hbelow)
      as [self' [rows' [Hrun [Hp [Hs Hi]]]]].
    exists self', rows'. split; [exact Hrun|]. split; [exact Hs|].
    split; [rewrite Hi; apply Z.leb_le|].
    unfold ClientServiceSession.get_remaining_sessions. rewrite Hp, Hs. lia.
Qed.

Lemma add_session_saturates_witness :
  exists self' rows',
    ClientPackage_add_sessions 120 5 fresh_client_package [fresh_client_package]
    = (Ok self', rows')
    /\ ClientPackage.sessions_completed self' = 3
    /\ ClientPackage.get_remaining_sessions self' = 0.
Proof.
  destruct (proj1 (add_session_saturates 120 5) fresh_client_package [fresh_client_package]
              eq_refl eq_refl) as [self' [rows' [Hrun [Hs [_ Hleft]]]]].
  exists self', rows'. split; [exact Hrun|]. split; [exact Hs|exact Hleft].
Defined.

(** X6: after every [save] of a record that the database takes (its
    counter is in the range of the column and no other row holds its pair
    of client and package, or client and service),
    [get_remaining_sessions] is 0 exactly when the record is marked
    completed, and it is never negative; for [ClientPackage] and for
    [ClientServiceSession]. *)
Theorem saved_record_completed_iff_nothing_remains today :
  (forall self rows,
      ClientPackage_writable self rows ->
      exists self' rows',
        ClientPackage.save today self rows = (Ok self', rows')
        /\ 0 <= ClientPackage.get_remaining_sessions self'
        /\ (ClientPackage.get_remaining_sessions self' = 0
            <-> ClientPackage.is_completed self' = true))
  /\ (forall self rows,
         ClientServiceSession_writable self rows ->
         exists self' rows',
           ClientServiceSession.save today self rows = (Ok self', rows')
           /\ 0 <= ClientServiceSession.get_remaining_sessions self'
           /\ (ClientServiceSession.get_remaining_sessions self' = 0
               <-> ClientServiceSession.is_completed self' = true)).
Proof.
  split.
  - intros self rows _.
    destruct (ClientPackage_save_spec today self rows)
      as [self' [rows' [id [Hsave [_ [_ [_ [_ [_ [Hp [Hs [Hi _]]]]]]]]]]]].
    exists self', rows'. split; [exact Hsave|].
    unfold ClientPackage.get_remaining_sessions. rewrite Hi, Hp, Hs, Z.leb_le. lia.
  - intros self rows _.
    destruct (ClientServiceSession_save_spec today self rows)
      as [self' [rows' [id [Hsave [_ [_ [_ [_ [_ [Hp [Hs [Hi _]]]]]]]]]]]].
    exists self', rows'. split; [exact Hsave|].
    unfold ClientServiceSession.get_remaining_sessions. rewrite Hi, Hp, Hs, Z.leb_le. lia.
Qed.

Lemma saved_record_completed_iff_nothing_remains_witness :
  exists self' rows',
    ClientPackage.save 120 edited_up [edited_up] = (Ok self', rows')
    /\ ClientPackage.get_remaining_sessions self' = 0
    /\ ClientPackage.is_completed self' = true.
Proof.
  destruct (proj1 (saved_record_completed_iff_nothing_remains 120) edited_up [edited_up])
    as [self' [rows' [Hsave [_ Hiff]]]].
  - split; [cbn; lia|]. split; [discriminate|]. intros r [<-|[]] Hpk. now elim Hpk.
  - exists self', rows'. split; [exact Hsave|].
    assert (ClientPackage.get_remaining_sessions self' = 0) as Hzero.
    { vm_compute in Hsave. injection Hsave as <- _. reflexivity. }
    split; [exact Hzero|]. apply Hiff. exact Hzero.
Defined.


(** ** Order items: what a save leaves alone, and saving twice *)

Lemma get_fresh_key {Row} (pk_of : Row -> option positive) rows :
  get pk_of (next_pk pk_of rows) rows = None.
Proof. apply get_absent, next_pk_fresh. Qed.

(** X7: [OrderItem.save] recomputes the total of the item's current order
    only.  Whether the save is accepted or rejected, every other order is
    left exactly as it was (so an order the item was moved away from keeps
    its old total) and so is every other stored order item. *)
Theorem OrderItem_save_touches_only_its_order self st :
  (forall j, j <> OrderItem.order self ->
             get Order.pk j (OrderItem.orders (snd (OrderItem.save self st)))
             = get Order.pk j (OrderItem.orders st))
  /\ (forall j it, OrderItem.pk self <> Some j ->
                   get OrderItem.pk j (OrderItem.objects st) = Some it ->
                   get OrderItem.pk j (OrderItem.objects (snd (OrderItem.save self st)))
                   = Some it).
Proof.
  destruct (OrderItem_save_outcome self st) as [[m ->]|[Hpass [Hwell [parent Hparent]]]];
    [split; auto|].
  rewrite (OrderItem_save_validated self st parent Hpass Hwell Hparent).
  set (priced := OrderItem.set_subtotal _ self).
  destruct (get_some_In _ _ _ _ Hparent) as [_ Hpk].
  assert (forall j it, OrderItem.pk self <> Some j ->
                       get OrderItem.pk j (OrderItem.objects st) = Some it ->
                       get OrderItem.pk j
                           (snd (base_save OrderItem.pk OrderItem.with_pk priced
                                   (OrderItem.objects st))) = Some it) as Hitems.
  { intros j it Hother Hget.
    destruct (base_save OrderItem.pk OrderItem.with_pk priced (OrderItem.objects st))
      as [self' rows'] eqn:E.
    destruct (base_save_stored _ _ OrderItem_pk_with_pk _ _ _ _ E)
      as [id [Hid [_ [Hrest Hself]]]].
    cbn [snd]. rewrite Hrest; [exact Hget|].
    intros ->. change (OrderItem.pk priced) with (OrderItem.pk self) in Hself.
    destruct (OrderItem.pk self) as [k|] eqn:Hk.
    + subst self'. change (OrderItem.pk priced) with (OrderItem.pk self) in Hid. congruence.
    + subst self'. cbn in Hid. injection Hid as <-.
      rewrite (get_fresh_key OrderItem.pk) in Hget. discriminate Hget. }
  destruct (_ && _); [destruct (OrderItem.sum _) as [total|e]|];
    cbn [snd OrderItem.orders OrderItem.objects]; (split; [|exact Hitems]);
    intros j Hj; [now apply get_update_other|reflexivity|reflexivity].
Qed.

(** The facial line moved from order 1 to a second order. *)
Lemma OrderItem_save_touches_only_its_order_witness :
  option_map Order.total_price
    (get Order.pk 1%positive
         (OrderItem.orders (snd (OrderItem.save moved_facial_item two_orders))))
  = Some 10500
  /\ OrderItem.items 1%positive (snd (OrderItem.save moved_facial_item two_orders))
     = [OrderItem.with_pk 1 (OrderItem.set_subtotal (Some 2500) cream_item)].
Proof.
  split; [|vm_compute; reflexivity].
  rewrite (proj1 (OrderItem_save_touches_only_its_order moved_facial_item two_orders)
                 1%positive);
    [vm_compute; reflexivity|discriminate].
Defined.

Lemma forallb_filter_In {A} (test keep : A -> bool) l x :
  forallb test (filter keep l) = true -> In x l -> keep x = true -> test x = true.
Proof.
  intros Hall Hin Hkeep. rewrite forallb_forall in Hall. apply Hall.
  apply filter_In. split; assumption.
Qed.

(** X8: saving an order item twice is saving it once: when a [save] has
    returned and the total it wrote for the order has at most 10 digits, a
    second [save] of the returned instance returns the same instance and
    leaves the store exactly as the first save left it. *)
Theorem OrderItem_save_twice self st self' st' :
  OrderItem.save self st = (Ok self', st') ->
  (forall parent', get Order.pk (OrderItem.order self) (OrderItem.orders st') = Some parent' ->
                   fits (Order.total_price parent')) ->
  OrderItem.save self' st' = (Ok self', st').
Proof.
  intros Hsave Hwritten.
  destruct (OrderItem_save_returned self st self' st' Hsave)
    as [Hpass [Hwell [Hself' [parent [total [Hparent [_ [Hall [Hsum Hst']]]]]]]]].
  set (priced := OrderItem.set_subtotal _ self) in *.
  destruct (base_save OrderItem.pk OrderItem.with_pk priced (OrderItem.objects st))
    as [s rows'] eqn:E. cbn [fst snd] in *. subst s.
  pose proof (base_save_again _ _ OrderItem_pk_with_pk _ _ _ _ E) as Hagain.
  destruct (base_save_stored _ _ OrderItem_pk_with_pk _ _ _ _ E)
    as [id [Hid [Hstored [_ Hshape]]]].
  destruct (get_some_In _ _ _ _ Hparent) as [Hin Hpk].
  assert (OrderItem.order self' = OrderItem.order self
          /\ OrderItem.quantity self' = OrderItem.quantity self
          /\ OrderItem.unit_price self' = OrderItem.unit_price self
          /\ OrderItem.subtotal self'
             = Some (OrderItem.quantity self * OrderItem.unit_price self)
          /\ OrderItem.set_subtotal
               (Some (OrderItem.quantity self' * OrderItem.unit_price self')) self' = self'
          /\ (malformed self' -> malformed self))
    as [Horder [Hq [Hp [Hsub [Hpriced Hsame]]]]].
  { destruct (OrderItem.pk priced); subst self'; repeat split; auto. }
  set (parent' := Order.set_total_price total parent) in *.
  assert (Order.pk parent' = Some (OrderItem.order self)) as Hpk' by exact Hpk.
  assert (get Order.pk (OrderItem.order self) (OrderItem.orders st') = Some parent')
    as Hparent'.
  { subst st'. cbn [OrderItem.orders]. apply get_update; [exact Hpk'|].
    exact (get_exists _ _ _ _ Hparent). }
  assert (fits (OrderItem.quantity self * OrderItem.unit_price self)) as Hfit.
  { assert (OrderItem.readable self' = true) as Hread.
    { apply (forallb_filter_In _ _ _ _ Hall).
      - exact (proj1 (get_some_In _ _ _ _ Hstored)).
      - rewrite Horder. apply Pos.eqb_refl. }
    unfold OrderItem.readable in Hread. rewrite Hsub in Hread.
    apply andb_true_iff in Hread. now apply ten_digits_fits. }
  assert (fields_pass self' st') as Hpass'.
  { destruct Hpass as [_ [Hrange [Hprice _]]].
    split; [rewrite Horder; now exists parent'|].
    split; [rewrite Hq; exact Hrange|]. split; [rewrite Hp; exact Hprice|].
    eexists. split; [exact Hsub|exact Hfit]. }
  assert (~ malformed self') as Hwell' by (intros Hbad; apply Hwell; now apply Hsame).
  rewrite <- Horder in Hparent'.
  rewrite (OrderItem_save_validated self' st' parent' Hpass' Hwell' Hparent').
  rewrite Hpriced, Horder. subst st'. cbn [OrderItem.objects OrderItem.orders].
  rewrite Hagain. cbn [fst snd].
  rewrite Horder in Hparent'.
  rewrite (proj2 (ten_digits_fits _) (Hwritten parent' Hparent')), Hall, Hsum.
  cbn [andb].
  assert (Order.set_total_price total parent' = parent') as -> by reflexivity.
  rewrite (update_update _ _ _ _ Hpk'). reflexivity.
Qed.

Lemma OrderItem_save_twice_witness :
  exists self' st',
    OrderItem.save cream_item one_order = (Ok self', st')
    /\ OrderItem.save self' st' = (Ok self', st').
Proof.
  eexists _, _. split; [vm_compute; reflexivity|].
  apply (OrderItem_save_twice cream_item one_order); [vm_compute; reflexivity|].
  intros parent' Hparent'. vm_compute in Hparent'. injection Hparent' as <-.
  vm_compute. reflexivity.
Defined.

(** X16: when the product quantity x unit_price needs more than 10
    digits, [save] fails after it has written the item: for an item whose
    fields pass validation, that [clean] accepts and whose order can be
    read, the call raises [decimal.InvalidOperation] when the lines are
    read back; by then a row for the item is stored, and the orders, the
    total of the item's order among them, are left as they were. *)
Theorem OrderItem_save_oversized_product self st :
  fields_valid self st -> ~ malformed self ->
  ~ fits (OrderItem.quantity self * OrderItem.unit_price self) ->
  (forall parent, get Order.pk (OrderItem.order self) (OrderItem.orders st) = Some parent ->
                  fits (Order.total_price parent)) ->
  fst (OrderItem.save self st) = Raise InvalidOperation
  /\ OrderItem.orders (snd (OrderItem.save self st)) = OrderItem.orders st
  /\ exists stored id,
      get OrderItem.pk id (OrderItem.objects (snd (OrderItem.save self st))) = Some stored
      /\ (forall k, OrderItem.pk self = Some k -> id = k)
      /\ OrderItem.order stored = OrderItem.order self
      /\ OrderItem.quantity stored = OrderItem.quantity self
      /\ OrderItem.unit_price stored = OrderItem.unit_price self.
Proof.
  intros Hvalid Hwell Hbig Htotal.
  pose proof (fields_valid_pass _ _ Hvalid) as Hpass.
  destruct (proj1 Hpass) as [parent Hparent].
  rewrite (OrderItem_save_validated self st parent Hpass Hwell Hparent).
  set (priced := OrderItem.set_subtotal _ self).
  destruct (base_save OrderItem.pk OrderItem.with_pk priced (OrderItem.objects st))
    as [self' rows'] eqn:E. cbn [fst snd].
  destruct (base_save_stored _ _ OrderItem_pk_with_pk _ _ _ _ E)
    as [id [Hid [Hstored [_ Hshape]]]].
  assert (OrderItem.order self' = OrderItem.order self
          /\ OrderItem.quantity self' = OrderItem.quantity self
          /\ OrderItem.unit_price self' = OrderItem.unit_price self
          /\ OrderItem.subtotal self'
             = Some (OrderItem.quantity self * OrderItem.unit_price self)
          /\ (forall k, OrderItem.pk self = Some k -> id = k))
    as [Horder [Hq [Hp [Hsub Hkey]]]].
  { change (OrderItem.pk priced) with (OrderItem.pk self) in Hshape.
    destruct (OrderItem.pk self) as [k|] eqn:Hk; subst self'; repeat split;
      try reflexivity; intros k' Hk'; [|discriminate Hk'].
    change (OrderItem.pk priced) with (OrderItem.pk self) in Hid. congruence. }
  assert (forallb OrderItem.readable
                  (filter (fun it => Pos.eqb (OrderItem.order it) (OrderItem.order self))
                          rows') = false) as Hunreadable.
  { destruct (forallb _ _) eqn:Hall; [|reflexivity]. exfalso. apply Hbig.
    assert (OrderItem.readable self' = true) as Hread.
    { apply (forallb_filter_In _ _ _ _ Hall).
      - exact (proj1 (get_some_In _ _ _ _ Hstored)).
      - rewrite Horder. apply Pos.eqb_refl. }
    unfold OrderItem.readable in Hread. rewrite Hsub in Hread.
    apply andb_true_iff in Hread. now apply ten_digits_fits. }
  rewrite Hunreadable, andb_false_r. cbn [fst snd OrderItem.objects OrderItem.orders].
  split; [reflexivity|]. split; [reflexivity|].
  exists self', id. repeat split; assumption.
Qed.

Lemma OrderItem_save_oversized_product_witness :
  fst (OrderItem.save
         (OrderItem.mk None 1 (Some 3%positive) None None 2 9999999999 (Some 0))
         one_order) = Raise InvalidOperation
  /\ exists stored id,
      get OrderItem.pk id
          (OrderItem.objects
             (snd (OrderItem.save
                     (OrderItem.mk None 1 (Some 3%positive) None None 2 9999999999 (Some 0))
                     one_order))) = Some stored.
Proof.
  destruct (OrderItem_save_oversized_product
              (OrderItem.mk None 1 (Some 3%positive) None None 2 9999999999 (Some 0))
              one_order)
    as [Hraise [_ [stored [id [Hget _]]]]].
  - split; [now exists open_order|]. split; [cbn; lia|].
    split; [vm_compute; reflexivity|]. exists 0. split; [reflexivity|vm_compute; reflexivity].
  - intros [[H _]|[[_ H]|[s [a [H _]]]]]; [discriminate|now apply H|discriminate].
  - vm_compute. discriminate.
  - intros parent Hparent. injection Hparent as <-. vm_compute. reflexivity.
  - split; [exact Hraise|]. now exists stored, id.
Defined.


(** ** The session buttons *)

Lemma ClientPackage_save_existing today self rows k :
  ClientPackage.pk self = Some k ->
  existsb (has_pk ClientPackage.pk k) rows = true ->
  let self' :=
    ClientPackage.mk (Some k) (ClientPackage.client self) (ClientPackage.package self)
      (ClientPackage.sessions_completed self)
      (Package.total_sessions (ClientPackage.package self)
       <=? ClientPackage.sessions_completed self)
      (ClientPackage.assigned_date self)
      (date_after_save today
         (Package.total_sessions (ClientPackage.package self)
          <=? ClientPackage.sessions_completed self)
         (ClientPackage.is_completed self) (ClientPackage.completed_date self)) in
  ClientPackage.save today self rows = (Ok self', update ClientPackage.pk k self' rows).
Proof.
  intros Hk Hex. destruct self as [pk c p sc done ad cd]. cbn in Hk. subst pk.
  unfold ClientPackage.save, ClientPackage.super_save, ClientPackage.adding, base_save,
    date_after_save, is_none.
  cbn.
  destruct (Package.total_sessions p <=? sc), done, cd; cbn; rewrite Hex; cbn;
    rewrite ?Hex; reflexivity.
Qed.

Lemma ClientServiceSession_save_existing today self rows k :
  ClientServiceSession.pk self = Some k ->
  existsb (has_pk ClientServiceSession.pk k) rows = true ->
  let self' :=
    ClientServiceSession.mk (Some k) (ClientServiceSession.client self)
      (ClientServiceSession.service self)
      (ClientServiceSession.sessions_completed self)
      (Service.sessions_required (ClientServiceSession.service self)
       <=? ClientServiceSession.sessions_completed self)
      (ClientServiceSession.started_date self)
      (date_after_save today
         (Service.sessions_required (ClientServiceSession.service self)
          <=? ClientServiceSession.sessions_completed self)
         (ClientServiceSession.is_completed self)
         (ClientServiceSession.completed_date self)) in
  ClientServiceSession.save today self rows
  = (Ok self', update ClientServiceSession.pk k self' rows).
Proof.
  intros Hk Hex. destruct self as [pk c p sc done ad cd]. cbn in Hk. subst pk.
  unfold ClientServiceSession.save, ClientServiceSession.super_save,
    ClientServiceSession.adding, base_save, date_after_save, is_none.
  cbn.
  destruct (Service.sessions_required p <=? sc), done, cd; cbn; rewrite Hex; cbn;
    rewrite ?Hex; reflexivity.
Qed.

Lemma stored_item_cases item_type item_id st it :
  stored_item item_type item_id st = Some it ->
  (item_type = "package"%string
   /\ exists cp, it = Views.package_item cp
                 /\ get ClientPackage.pk item_id (Views.client_packages st) = Some cp)
  \/ (item_type = "service"%string
      /\ exists css, it = Views.service_item css
                     /\ get ClientServiceSession.pk item_id
                            (Views.client_service_sessions st) = Some css).
Proof.
  unfold stored_item. intros H.
  destruct (String.eqb_spec item_type "package") as [->|_].
  - left. split; [reflexivity|].
    destruct (get ClientPackage.pk item_id (Views.client_packages st)) as [cp|];
      [|discriminate]. exists cp. cbn in H. split; congruence.
  - destruct (String.eqb_spec item_type "service") as [->|_]; [|discriminate].
    right. split; [reflexivity|].
    destruct (get ClientServiceSession.pk item_id (Views.client_service_sessions st))
      as [css|]; [|discriminate]. exists css. cbn in H. split; congruence.
Qed.

Lemma others_unchanged_packages id cp' st :
  ClientPackage.pk cp' = Some id ->
  others_unchanged "package" id st
    (Views.set_client_packages (update ClientPackage.pk id cp' (Views.client_packages st)) st).
Proof.
  intros Hpk ty j Hne. unfold stored_item.
  destruct (String.eqb_spec ty "package") as [->|_]; [|reflexivity].
  cbn -[update get]. rewrite get_update_other; [reflexivity|assumption|].
  destruct Hne as [Hne|Hne]; [now elim Hne|assumption].
Qed.

Lemma others_unchanged_services id css' st :
  ClientServiceSession.pk css' = Some id ->
  others_unchanged "service" id st
    (Views.set_client_service_sessions
       (update ClientServiceSession.pk id css' (Views.client_service_sessions st)) st).
Proof.
  intros Hpk ty j Hne. unfold stored_item.
  destruct (String.eqb_spec ty "package") as [->|_]; [reflexivity|].
  destruct (String.eqb_spec ty "service") as [->|_]; [|reflexivity].
  cbn -[update get]. rewrite get_update_other; [reflexivity|assumption|].
  destruct Hne as [Hne|Hne]; [now elim Hne|assumption].
Qed.

Lemma others_unchanged_messages item_type item_id st l t :
  others_unchanged item_type item_id st (Views.add_message l t st).
Proof. intros ty j _. reflexivity. Qed.

Lemma others_unchanged_trans item_type item_id st1 st2 st3 :
  others_unchanged item_type item_id st1 st2 ->
  others_unchanged item_type item_id st2 st3 ->
  others_unchanged item_type item_id st1 st3.
Proof. intros H12 H23 ty j Hne. rewrite (H23 ty j Hne). apply H12, Hne. Qed.

Lemma others_unchanged_refl item_type item_id st :
  others_unchanged item_type item_id st st.
Proof. intros ty j _. reflexivity. Qed.

Lemma ClientPackage_add_session_existing today self rows k :
  ClientPackage.pk self = Some k ->
  existsb (has_pk ClientPackage.pk k) rows = true ->
  ClientPackage.is_completed self = false ->
  let reached := Package.total_sessions (ClientPackage.package self)
                 <=? ClientPackage.sessions_completed self + 1 in
  let self' :=
    ClientPackage.mk (Some k) (ClientPackage.client self) (ClientPackage.package self)
      (ClientPackage.sessions_completed self + 1) reached
      (ClientPackage.assigned_date self)
      (if reached then Some today else ClientPackage.completed_date self) in
  ClientPackage.add_session today self rows
  = (Ok (true, self'), update ClientPackage.pk k self' rows).
Proof.
  intros Hk Hex Hdone. destruct self as [pk c p sc done ad cd]. cbn in Hk, Hdone.
  subst pk done.
  unfold ClientPackage.add_session. cbn.
  destruct (Package.total_sessions p <=? sc + 1) eqn:Hreached.
  - rewrite bind_ok with (a := ClientPackage.mk (Some k) c p (sc + 1) true ad (Some today))
                          (s' := update ClientPackage.pk k
                                   (ClientPackage.mk (Some k) c p (sc + 1) true ad (Some today))
                                   rows); [reflexivity|].
    rewrite (ClientPackage_save_existing today _ _ k); [|reflexivity|exact Hex].
    cbn. rewrite Hreached. reflexivity.
  - rewrite bind_ok with (a := ClientPackage.mk (Some k) c p (sc + 1) false ad cd)
                          (s' := update ClientPackage.pk k
                                   (ClientPackage.mk (Some k) c p (sc + 1) false ad cd)
                                   rows); [reflexivity|].
    rewrite (ClientPackage_save_existing today _ _ k); [|reflexivity|exact Hex].
    cbn. rewrite Hreached. reflexivity.
Qed.

Lemma ClientServiceSession_add_session_existing today self rows k :
  ClientServiceSession.pk self = Some k ->
  existsb (has_pk ClientServiceSession.pk k) rows = true ->
  ClientServiceSession.is_completed self = false ->
  ClientServiceSession.add_session today self rows
  = (Ok (true, ClientServiceSession_plus_one today self),
     update ClientServiceSession.pk k (ClientServiceSession_plus_one today self) rows).
Proof.
  intros Hk Hex Hdone. destruct self as [pk c p sc done ad cd]. cbn in Hk, Hdone.
  subst pk done.
  unfold ClientServiceSession.add_session, ClientServiceSession_plus_one. cbn.
  destruct (Service.sessions_required p <=? sc + 1) eqn:Hreached.
  - rewrite bind_ok
      with (a := ClientServiceSession.mk (Some k) c p (sc + 1) true ad (Some today))
           (s' := update ClientServiceSession.pk k
                    (ClientServiceSession.mk (Some k) c p (sc + 1) true ad (Some today))
                    rows); [reflexivity|].
    rewrite (ClientServiceSession_save_existing today _ _ k); [|reflexivity|exact Hex].
    cbn. rewrite Hreached. reflexivity.
  - rewrite bind_ok
      with (a := ClientServiceSession.mk (Some k) c p (sc + 1) false ad cd)
           (s' := update ClientServiceSession.pk k
                    (ClientServiceSession.mk (Some k) c p (sc + 1) false ad cd)
                    rows); [reflexivity|].
    rewrite (ClientServiceSession_save_existing today _ _ k); [|reflexivity|exact Hex].
    cbn. rewrite Hreached. reflexivity.
Qed.

Lemma adjust_package_decrement today ajax id st cp :
  get ClientPackage.pk id (Views.client_packages st) = Some cp ->
  Views.adjust_session_count today ajax (Some "decrement"%string) "package" id st
  = if 0 <? ClientPackage.sessions_completed cp then
      answer_of ajax (Views.package_item (ClientPackage_minus_one today cp))
                Views.success "Session removed."
                (Views.set_client_packages
                   (update ClientPackage.pk id (ClientPackage_minus_one today cp)
                           (Views.client_packages st)) st)
    else answer_of ajax (Views.package_item cp) Views.warning "Cannot go below 0." st.
Proof.
  intros Hget.
  destruct (get_some_In _ _ _ _ Hget) as [_ Hpk].
  pose proof (get_exists _ _ _ _ Hget) as Hex.
  unfold Views.adjust_session_count. cbn [String.eqb Ascii.eqb Bool.eqb andb].
  rewrite Hget. cbn [option_map Views.item_sessions_completed Views.item_is_completed].
  destruct (0 <? ClientPackage.sessions_completed cp) eqn:Hpos.
  - unfold Views.item_remove_session.
    rewrite (ClientPackage_save_existing today _ _ id); [|exact Hpk|exact Hex].
    cbn -[update get].
    assert (forall b, date_after_save today b false None = if b then Some today else None)
      as -> by (intros [|]; reflexivity).
    unfold ClientPackage_minus_one. rewrite Hpk.
    set (cp' := ClientPackage.mk _ _ _ _ _ _ _).
    unfold answer_of.
    destruct ajax; [|reflexivity].
    unfold Views.item_refresh_from_db, Views.refresh_package. cbn -[update get].
    rewrite get_update; [|reflexivity|exact Hex].
    reflexivity.
  - unfold answer_of. destruct ajax; [|reflexivity].
    unfold Views.item_refresh_from_db, Views.refresh_package. rewrite Hpk, Hget.
    reflexivity.
Qed.

Lemma adjust_service_decrement today ajax id st css :
  get ClientServiceSession.pk id (Views.client_service_sessions st) = Some css ->
  Views.adjust_session_count today ajax (Some "decrement"%string) "service" id st
  = if 0 <? ClientServiceSession.sessions_completed css then
      answer_of ajax (Views.service_item (ClientServiceSession_minus_one today css))
                Views.success "Session removed."
                (Views.set_client_service_sessions
                   (update ClientServiceSession.pk id
                           (ClientServiceSession_minus_one today css)
                           (Views.client_service_sessions st)) st)
    else answer_of ajax (Views.service_item css) Views.warning "Cannot go below 0." st.
Proof.
  intros Hget.
  destruct (get_some_In _ _ _ _ Hget) as [_ Hpk].
  pose proof (get_exists _ _ _ _ Hget) as Hex.
  unfold Views.adjust_session_count. cbn [String.eqb Ascii.eqb Bool.eqb andb].
  rewrite Hget. cbn [option_map Views.item_sessions_completed Views.item_is_completed].
  destruct (0 <? ClientServiceSession.sessions_completed css) eqn:Hpos.
  - unfold Views.item_remove_session.
    rewrite (ClientServiceSession_save_existing today _ _ id); [|exact Hpk|exact Hex].
    cbn -[update get].
    assert (forall b, date_after_save today b false None = if b then Some today else None)
      as -> by (intros [|]; reflexivity).
    unfold ClientServiceSession_minus_one. rewrite Hpk.
    set (css' := ClientServiceSession.mk _ _ _ _ _ _ _).
    unfold answer_of.
    destruct ajax; [|reflexivity].
    unfold Views.item_refresh_from_db, Views.refresh_service. cbn -[update get].
    rewrite get_update; [|reflexivity|exact Hex].
    reflexivity.
  - unfold answer_of. destruct ajax; [|reflexivity].
    unfold Views.item_refresh_from_db, Views.refresh_service. rewrite Hpk, Hget.
    reflexivity.
Qed.

Lemma adjust_package_increment today ajax id st cp :
  get ClientPackage.pk id (Views.client_packages st) = Some cp ->
  Views.adjust_session_count today ajax (Some "increment"%string) "package" id st
  = if ClientPackage.is_completed cp then
      answer_of ajax (Views.package_item cp) Views.warning "Already completed." st
    else
      answer_of ajax (Views.package_item (ClientPackage_plus_one today cp))
                Views.success "Session added."
                (Views.set_client_packages
                   (update ClientPackage.pk id (ClientPackage_plus_one today cp)
                           (Views.client_packages st)) st).
Proof.
  intros Hget.
  destruct (get_some_In _ _ _ _ Hget) as [_ Hpk].
  pose proof (get_exists _ _ _ _ Hget) as Hex.
  unfold Views.adjust_session_count. cbn [String.eqb Ascii.eqb Bool.eqb andb].
  rewrite Hget. cbn [option_map Views.item_sessions_completed Views.item_is_completed].
  destruct (ClientPackage.is_completed cp) eqn:Hdone; cbn [negb].
  - unfold answer_of. destruct ajax; [|reflexivity].
    unfold Views.item_refresh_from_db, Views.refresh_package. rewrite Hpk, Hget.
    reflexivity.
  - unfold Views.item_add_session.
    rewrite (ClientPackage_add_session_existing today _ _ id); [|exact Hpk|exact Hex|exact Hdone].
    cbn -[update get].
    unfold ClientPackage_plus_one. rewrite Hpk.
    set (cp' := ClientPackage.mk _ _ _ _ _ _ _).
    unfold answer_of.
    destruct ajax; [|reflexivity].
    unfold Views.item_refresh_from_db, Views.refresh_package. cbn -[update get].
    rewrite get_update; [|reflexivity|exact Hex].
    reflexivity.
Qed.

Lemma adjust_service_increment today ajax id st css :
  get ClientServiceSession.pk id (Views.client_service_sessions st) = Some css ->
  Views.adjust_session_count today ajax (Some "increment"%string) "service" id st
  = if ClientServiceSession.is_completed css then
      answer_of ajax (Views.service_item css) Views.warning "Already completed." st
    else
      answer_of ajax (Views.service_item (ClientServiceSession_plus_one today css))
                Views.success "Session added."
                (Views.set_client_service_sessions
                   (update ClientServiceSession.pk id
                           (ClientServiceSession_plus_one today css)
                           (Views.client_service_sessions st)) st).
Proof.
  intros Hget.
  destruct (get_some_In _ _ _ _ Hget) as [_ Hpk].
  pose proof (get_exists _ _ _ _ Hget) as Hex.
  unfold Views.adjust_session_count. cbn [String.eqb Ascii.eqb Bool.eqb andb].
  rewrite Hget. cbn [option_map Views.item_sessions_completed Views.item_is_completed].
  destruct (ClientServiceSession.is_completed css) eqn:Hdone; cbn [negb].
  - unfold answer_of. destruct ajax; [|reflexivity].
    unfold Views.item_refresh_from_db, Views.refresh_service. rewrite Hpk, Hget.
    reflexivity.
  - unfold Views.item_add_session.
    rewrite (ClientServiceSession_add_session_existing today _ _ id);
      [|exact Hpk|exact Hex|exact Hdone].
    cbn -[update get].
    unfold ClientServiceSession_plus_one. rewrite Hpk.
    set (css' := ClientServiceSession.mk _ _ _ _ _ _ _).
    unfold answer_of.
    destruct ajax; [|reflexivity].
    unfold Views.item_refresh_from_db, Views.refresh_service. cbn -[update get].
    rewrite get_update; [|reflexivity|exact Hex].
    reflexivity.
Qed.

Lemma answer_of_tables ajax it l s st :
  Views.client_packages (snd (answer_of ajax it l s st)) = Views.client_packages st
  /\ Views.client_service_sessions (snd (answer_of ajax it l s st))
     = Views.client_service_sessions st.
Proof.
  unfold answer_of. destruct ajax; [|split; reflexivity].
  destruct (Views.item_get_progress_percentage it); split; reflexivity.
Qed.

Lemma stored_item_tables st st' :
  Views.client_packages st' = Views.client_packages st ->
  Views.client_service_sessions st' = Views.client_service_sessions st ->
  forall ty id, stored_item ty id st' = stored_item ty id st.
Proof. intros Hp Hs ty id. unfold stored_item. rewrite Hp, Hs. reflexivity. Qed.

Lemma stored_item_answer ajax it l s st ty id :
  stored_item ty id (snd (answer_of ajax it l s st)) = stored_item ty id st.
Proof. destruct (answer_of_tables ajax it l s st). now apply stored_item_tables. Qed.

Lemma stored_item_package_update id cp' st :
  ClientPackage.pk cp' = Some id ->
  existsb (has_pk ClientPackage.pk id) (Views.client_packages st) = true ->
  stored_item "package" id
    (Views.set_client_packages (update ClientPackage.pk id cp' (Views.client_packages st)) st)
  = Some (Views.package_item cp').
Proof.
  intros Hpk Hex. unfold stored_item. cbn -[update get].
  rewrite get_update; [reflexivity|exact Hpk|exact Hex].
Qed.

Lemma stored_item_service_update id css' st :
  ClientServiceSession.pk css' = Some id ->
  existsb (has_pk ClientServiceSession.pk id) (Views.client_service_sessions st) = true ->
  stored_item "service" id
    (Views.set_client_service_sessions
       (update ClientServiceSession.pk id css' (Views.client_service_sessions st)) st)
  = Some (Views.service_item css').
Proof.
  intros Hpk Hex. unfold stored_item. cbn -[update get].
  rewrite get_update; [reflexivity|exact Hpk|exact Hex].
Qed.

(** The stored state after a decrement, and after an increment, of a
    stored record. *)
Lemma stored_after_decrement today ajax item_type item_id st it :
  stored_item item_type item_id st = Some it ->
  let st' := snd (Views.adjust_session_count today ajax (Some "decrement"%string)
                    item_type item_id st) in
  others_unchanged item_type item_id st st'
  /\ stored_item item_type item_id st'
     = Some (if 0 <? Views.item_sessions_completed it then
               match it with
               | Views.package_item cp =>
                   Views.package_item (ClientPackage_minus_one today cp)
               | Views.service_item css =>
                   Views.service_item (ClientServiceSession_minus_one today css)
               end
             else it).
Proof.
  intros Hit st'. subst st'.
  destruct (stored_item_cases _ _ _ _ Hit) as [[-> [cp [-> Hget]]]|[-> [css [-> Hget]]]].
  - destruct (get_some_In _ _ _ _ Hget) as [_ Hpk].
    pose proof (get_exists _ _ _ _ Hget) as Hex.
    rewrite (adjust_package_decrement today ajax item_id st cp Hget).
    cbn [Views.item_sessions_completed].
    destruct (0 <? ClientPackage.sessions_completed cp).
    + split.
      * intros ty j Hne. rewrite stored_item_answer.
        apply others_unchanged_packages; [|exact Hne].
        unfold ClientPackage_minus_one. cbn. exact Hpk.
      * rewrite stored_item_answer. apply stored_item_package_update; [|exact Hex].
        unfold ClientPackage_minus_one. cbn. exact Hpk.
    + split.
      * intros ty j Hne. apply stored_item_answer.
      * rewrite stored_item_answer. exact Hit.
  - destruct (get_some_In _ _ _ _ Hget) as [_ Hpk].
    pose proof (get_exists _ _ _ _ Hget) as Hex.
    rewrite (adjust_service_decrement today ajax item_id st css Hget).
    cbn [Views.item_sessions_completed].
    destruct (0 <? ClientServiceSession.sessions_completed css).
    + split.
      * intros ty j Hne. rewrite stored_item_answer.
        apply others_unchanged_services; [|exact Hne].
        unfold ClientServiceSession_minus_one. cbn. exact Hpk.
      * rewrite stored_item_answer. apply stored_item_service_update; [|exact Hex].
        unfold ClientServiceSession_minus_one. cbn. exact Hpk.
    + split.
      * intros ty j Hne. apply stored_item_answer.
      * rewrite stored_item_answer. exact Hit.
Qed.

Lemma stored_after_increment today ajax item_type item_id st it :
  stored_item item_type item_id st = Some it ->
  let st' := snd (Views.adjust_session_count today ajax (Some "increment"%string)
                    item_type item_id st) in
  others_unchanged item_type item_id st st'
  /\ stored_item item_type item_id st'
     = Some (if Views.item_is_completed it then it
             else match it with
                  | Views.package_item cp =>
                      Views.package_item (ClientPackage_plus_one today cp)
                  | Views.service_item css =>
                      Views.service_item (ClientServiceSession_plus_one today css)
                  end).
Proof.
  intros Hit st'. subst st'.
  destruct (stored_item_cases _ _ _ _ Hit) as [[-> [cp [-> Hget]]]|[-> [css [-> Hget]]]].
  - destruct (get_some_In _ _ _ _ Hget) as [_ Hpk].
    pose proof (get_exists _ _ _ _ Hget) as Hex.
    rewrite (adjust_package_increment today ajax item_id st cp Hget).
    cbn [Views.item_is_completed].
    destruct (ClientPackage.is_completed cp).
    + split.
      * intros ty j Hne. apply stored_item_answer.
      * rewrite stored_item_answer. exact Hit.
    + split.
      * intros ty j Hne. rewrite stored_item_answer.
        apply others_unchanged_packages; [|exact Hne].
        unfold ClientPackage_plus_one. cbn. exact Hpk.
      * rewrite stored_item_answer. apply stored_item_package_update; [|exact Hex].
        unfold ClientPackage_plus_one. cbn. exact Hpk.
  - destruct (get_some_In _ _ _ _ Hget) as [_ Hpk].
    pose proof (get_exists _ _ _ _ Hget) as Hex.
    rewrite (adjust_service_increment today ajax item_id st css Hget).
    cbn [Views.item_is_completed].
    destruct (ClientServiceSession.is_completed css).
    + split.
      * intros ty j Hne. apply stored_item_answer.
      * rewrite stored_item_answer. exact Hit.
    + split.
      * intros ty j Hne. rewrite stored_item_answer.
        apply others_unchanged_services; [|exact Hne].
        unfold ClientServiceSession_plus_one. cbn. exact Hpk.
      * rewrite stored_item_answer. apply stored_item_service_update; [|exact Hex].
        unfold ClientServiceSession_plus_one. cbn. exact Hpk.
Qed.

(** X9 (core.views.adjust_session_count, action [decrement]).  On a stored
    record the decrement never takes the counter below zero: at zero or
    below the record stays as it is; above zero the counter drops by
    one, and the record is completed afterwards exactly when the lower
    count still reaches the total, with today as its completion date in
    that case and none otherwise.  Client, total and every other record
    keep their stored state. *)
Theorem decrement_stops_at_zero today ajax item_type item_id st it :
  stored_item item_type item_id st = Some it ->
  let st' := snd (Views.adjust_session_count today ajax (Some "decrement"%string)
                    item_type item_id st) in
  others_unchanged item_type item_id st st'
  /\ exists it',
      stored_item item_type item_id st' = Some it'
      /\ Views.item_client it' = Views.item_client it
      /\ Views.item_total_sessions it' = Views.item_total_sessions it
      /\ (0 <= Views.item_sessions_completed it -> 0 <= Views.item_sessions_completed it')
      /\ (Views.item_sessions_completed it <= 0 -> it' = it)
      /\ (0 < Views.item_sessions_completed it ->
          Views.item_sessions_completed it' = Views.item_sessions_completed it - 1
          /\ Views.item_is_completed it'
             = (Views.item_total_sessions it <=? Views.item_sessions_completed it - 1)
          /\ Views.item_completed_date it'
             = if Views.item_is_completed it' then Some today else None).
Proof.
  intros Hit st'.
  destruct (stored_after_decrement today ajax _ _ _ _ Hit) as [Hothers Hstored].
  fold st' in Hothers, Hstored.
  split; [exact Hothers|].
  eexists. split; [exact Hstored|].
  destruct (0 <? Views.item_sessions_completed it) eqn:Hpos.
  - apply Z.ltb_lt in Hpos.
    destruct it as [cp|css]; cbn in *;
      (repeat split; try reflexivity; try lia).
  - apply Z.ltb_ge in Hpos.
    repeat split; try reflexivity; try lia.
Qed.

Lemma decrement_stops_at_zero_witness :
  stored_item "package" 1 profile_of_client_7
  = Some (Views.package_item nearly_done_client_package)
  /\ exists it',
      stored_item "package" 1
        (snd (Views.adjust_session_count 300 false (Some "decrement"%string)
                "package" 1 profile_of_client_7)) = Some it'
      /\ Views.item_sessions_completed it' = 1.
Proof.
  split; [reflexivity|].
  destruct (decrement_stops_at_zero 300 false "package" 1 profile_of_client_7
              (Views.package_item nearly_done_client_package) eq_refl)
    as [_ [it' [Hstored [_ [_ [_ [_ Hdown]]]]]]].
  exists it'. split; [exact Hstored|].
  destruct Hdown as [H _]; [cbn; lia|exact H].
Defined.

Lemma stored_item_dec (ty ty' : string) (id id' : positive) :
  (ty' = ty /\ id' = id) \/ (ty' <> ty \/ id' <> id).
Proof.
  destruct (string_dec ty' ty) as [->|Hty]; [|right; left; exact Hty].
  destruct (Pos.eq_dec id' id) as [->|Hid]; [left; split; reflexivity|right; right; exact Hid].
Qed.

(** X10 (core.views.adjust_session_count, [increment] then [decrement]).
    On a stored record that is open, has no completion date and a counter
    from zero up to below the total, adding a session and taking it back
    restores the stored state of every record, whatever the dates of the
    two requests and whether or not they are AJAX requests. *)
Theorem increment_then_decrement_restores
        today today' ajax ajax' item_type item_id st it :
  stored_item item_type item_id st = Some it ->
  Views.item_is_completed it = false ->
  Views.item_completed_date it = None ->
  0 <= Views.item_sessions_completed it < Views.item_total_sessions it ->
  let st1 := snd (Views.adjust_session_count today ajax (Some "increment"%string)
                    item_type item_id st) in
  let st2 := snd (Views.adjust_session_count today' ajax' (Some "decrement"%string)
                    item_type item_id st1) in
  forall ty id, stored_item ty id st2 = stored_item ty id st.
Proof.
  intros Hit Hopen Hdate Hrange st1 st2 ty id.
  destruct (stored_after_increment today ajax _ _ _ _ Hit) as [Hothers1 Hstored1].
  fold st1 in Hothers1, Hstored1. rewrite Hopen in Hstored1.
  destruct (stored_after_decrement today' ajax' _ _ _ _ Hstored1) as [Hothers2 Hstored2].
  fold st2 in Hothers2, Hstored2.
  destruct (stored_item_dec item_type ty item_id id) as [[-> ->]|Hne].
  - rewrite Hstored2, Hit. f_equal.
    destruct it as [cp|css]; cbn in Hopen, Hdate, Hrange |- *.
    + destruct cp as [pk c p sc done ad cd]. cbn in Hopen, Hdate, Hrange |- *.
      subst done cd.
      replace (0 <? sc + 1) with true by (symmetry; apply Z.ltb_lt; lia).
      unfold ClientPackage_minus_one, ClientPackage_plus_one. cbn.
      replace (sc + 1 - 1) with sc by lia.
      replace (Package.total_sessions p <=? sc) with false
        by (symmetry; apply Z.leb_gt; lia).
      reflexivity.
    + destruct css as [pk c p sc done ad cd]. cbn in Hopen, Hdate, Hrange |- *.
      subst done cd.
      replace (0 <? sc + 1) with true by (symmetry; apply Z.ltb_lt; lia).
      unfold ClientServiceSession_minus_one, ClientServiceSession_plus_one. cbn.
      replace (sc + 1 - 1) with sc by lia.
      replace (Service.sessions_required p <=? sc) with false
        by (symmetry; apply Z.leb_gt; lia).
      reflexivity.
  - rewrite (Hothers2 ty id Hne). apply Hothers1, Hne.
Qed.

Lemma increment_then_decrement_restores_witness :
  stored_item "package" 1
    (snd (Views.adjust_session_count 301 true (Some "decrement"%string) "package" 1
            (snd (Views.adjust_session_count 300 false (Some "increment"%string)
                    "package" 1 profile_of_client_7))))
  = Some (Views.package_item nearly_done_client_package).
Proof.
  rewrite (increment_then_decrement_restores 300 301 false true "package" 1
             profile_of_client_7 (Views.package_item nearly_done_client_package));
    [reflexivity|reflexivity|reflexivity|reflexivity|cbn; lia].
Defined.

(** X11 (core.views.adjust_session_count, [decrement] then [increment]).
    Taking a session back and adding it again is not the identity.  With a
    positive counter up to the total, the counter comes back, the record is
    completed exactly when the counter reaches the total, and its
    completion date is then the date of the second request, whatever it was
    before.  With a counter above the total the decrement leaves the record
    completed, the increment is refused, and the counter stays one lower. *)
Theorem decrement_then_increment_restamps
        today today' ajax ajax' item_type item_id st it :
  stored_item item_type item_id st = Some it ->
  0 < Views.item_sessions_completed it ->
  let st1 := snd (Views.adjust_session_count today ajax (Some "decrement"%string)
                    item_type item_id st) in
  let st2 := snd (Views.adjust_session_count today' ajax' (Some "increment"%string)
                    item_type item_id st1) in
  others_unchanged item_type item_id st st2
  /\ exists it2,
      stored_item item_type item_id st2 = Some it2
      /\ (Views.item_sessions_completed it <= Views.item_total_sessions it ->
          Views.item_sessions_completed it2 = Views.item_sessions_completed it
          /\ Views.item_is_completed it2
             = (Views.item_total_sessions it <=? Views.item_sessions_completed it)
          /\ Views.item_completed_date it2
             = if Views.item_is_completed it2 then Some today' else None)
      /\ (Views.item_total_sessions it < Views.item_sessions_completed it ->
          Views.item_sessions_completed it2 = Views.item_sessions_completed it - 1
          /\ Views.item_is_completed it2 = true
          /\ Views.item_completed_date it2 = Some today).
Proof.
  intros Hit Hpos st1 st2.
  destruct (stored_after_decrement today ajax _ _ _ _ Hit) as [Hothers1 Hstored1].
  fold st1 in Hothers1, Hstored1.
  replace (0 <? Views.item_sessions_completed it) with true in Hstored1
    by (symmetry; apply Z.ltb_lt; exact Hpos).
  destruct (stored_after_increment today' ajax' _ _ _ _ Hstored1) as [Hothers2 Hstored2].
  fold st2 in Hothers2, Hstored2.
  split; [exact (others_unchanged_trans _ _ _ _ _ Hothers1 Hothers2)|].
  eexists. split; [exact Hstored2|].
  destruct it as [cp|css]; cbn in Hpos |- *.
  - destruct cp as [pk c p sc done ad cd]. cbn in Hpos |- *.
    unfold ClientPackage_minus_one, ClientPackage_plus_one. cbn.
    split.
    + intros Hle.
      replace (Package.total_sessions p <=? sc - 1) with false
        by (symmetry; apply Z.leb_gt; lia).
      cbn. replace (sc - 1 + 1) with sc by lia. repeat split; reflexivity.
    + intros Hgt.
      replace (Package.total_sessions p <=? sc - 1) with true
        by (symmetry; apply Z.leb_le; lia).
      cbn. repeat split; reflexivity.
  - destruct css as [pk c p sc done ad cd]. cbn in Hpos |- *.
    unfold ClientServiceSession_minus_one, ClientServiceSession_plus_one. cbn.
    split.
    + intros Hle.
      replace (Service.sessions_required p <=? sc - 1) with false
        by (symmetry; apply Z.leb_gt; lia).
      cbn. replace (sc - 1 + 1) with sc by lia. repeat split; reflexivity.
    + intros Hgt.
      replace (Service.sessions_required p <=? sc - 1) with true
        by (symmetry; apply Z.leb_le; lia).
      cbn. repeat split; reflexivity.
Qed.

Lemma decrement_then_increment_restamps_witness :
  stored_item "service" 1 profile_of_client_7 = Some (Views.service_item finished_course)
  /\ exists it2,
      stored_item "service" 1
        (snd (Views.adjust_session_count 301 false (Some "increment"%string) "service" 1
                (snd (Views.adjust_session_count 300 false (Some "decrement"%string)
                        "service" 1 profile_of_client_7)))) = Some it2
      /\ Views.item_completed_date it2 = Some 301.
Proof.
  split; [reflexivity|].
  destruct (decrement_then_increment_restamps 300 301 false false "service" 1
              profile_of_client_7 (Views.service_item finished_course) eq_refl)
    as [_ [it2 [Hstored [Hle _]]]]; [cbn; lia|].
  exists it2. split; [exact Hstored|].
  destruct Hle as [_ [Hdone Hdate]]; [cbn; lia|].
  rewrite Hdate, Hdone. reflexivity.
Defined.

Lemma adjust_unknown_item today ajax action item_type item_id st :
  stored_item item_type item_id st = None ->
  Views.adjust_session_count today ajax action item_type item_id st
  = if String.eqb item_type "package" || String.eqb item_type "service"
    then Views.adjust_failed ajax None Views.Http404 st
    else (Views.redirect_admin_index, st).
Proof.
  unfold stored_item, Views.adjust_session_count.
  destruct (String.eqb item_type "package"); cbn [orb].
  - destruct (get ClientPackage.pk item_id (Views.client_packages st));
      [discriminate|reflexivity].
  - destruct (String.eqb item_type "service"); [|reflexivity].
    destruct (get ClientServiceSession.pk item_id (Views.client_service_sessions st));
      [discriminate|reflexivity].
Qed.

Lemma adjust_failed_tables ajax client_id e st :
  Views.client_packages (snd (Views.adjust_failed ajax client_id e st))
  = Views.client_packages st
  /\ Views.client_service_sessions (snd (Views.adjust_failed ajax client_id e st))
     = Views.client_service_sessions st.
Proof.
  unfold Views.adjust_failed. destruct ajax; [split; reflexivity|].
  destruct client_id; split; reflexivity.
Qed.

Lemma adjust_other_action today ajax action item_type item_id st it :
  other_action action ->
  stored_item item_type item_id st = Some it ->
  Views.adjust_session_count today ajax action item_type item_id st
  = if ajax then
      match Views.item_get_progress_percentage it with
      | Ok percentage => (Views.JsonResponse 200 (json_of it percentage), st)
      | Raise e => (Views.JsonError 400 (Views.model_error e), st)
      end
    else (Views.redirect_client_profile (Views.item_client it), st).
Proof.
  intros Hother Hit.
  assert (match action with
          | Some a => String.eqb a "increment" = false /\ String.eqb a "decrement" = false
          | None => True
          end) as Hact.
  { destruct action as [a|]; [|exact I]. destruct Hother as [Hi Hd].
    split; apply String.eqb_neq; assumption. }
  destruct (stored_item_cases _ _ _ _ Hit) as [[-> [cp [-> Hget]]]|[-> [css [-> Hget]]]].
  - destruct (get_some_In _ _ _ _ Hget) as [_ Hpk].
    unfold Views.adjust_session_count. cbn [String.eqb Ascii.eqb Bool.eqb andb].
    rewrite Hget. cbn [option_map].
    destruct action as [a|]; [destruct Hact as [-> ->]|];
      (destruct ajax; [|reflexivity]);
      unfold Views.item_refresh_from_db, Views.refresh_package; rewrite Hpk, Hget;
      reflexivity.
  - destruct (get_some_In _ _ _ _ Hget) as [_ Hpk].
    unfold Views.adjust_session_count. cbn [String.eqb Ascii.eqb Bool.eqb andb].
    rewrite Hget. cbn [option_map].
    destruct action as [a|]; [destruct Hact as [-> ->]|];
      (destruct ajax; [|reflexivity]);
      unfold Views.item_refresh_from_db, Views.refresh_service; rewrite Hpk, Hget;
      reflexivity.
Qed.

Lemma action_cases (action : option string) :
  action = Some "increment"%string \/ action = Some "decrement"%string
  \/ other_action action.
Proof.
  destruct action as [a|]; [|right; right; exact I].
  destruct (string_dec a "increment") as [->|Hi]; [left; reflexivity|].
  destruct (string_dec a "decrement") as [->|Hd]; [right; left; reflexivity|].
  right; right. split; assumption.
Qed.

(** X12 (core.views.adjust_session_count, AJAX requests).  A request with
    the header [x-requested-with: XMLHttpRequest] never queues a message
    and is never sent to the client's profile.  For an item type other
    than [package] and [service] it is sent to the admin index and
    nothing changes.  For these two types and a key that no record has it
    gets JSON with status 400 and the [Http404] as its error, and nothing
    changes.  For a stored record it gets JSON with status 200 and the
    state the record has in the database after the request (counter,
    total, flag, progress, dates), or with status 400 and the exception
    when computing the progress raises one. *)
Theorem ajax_adjust_reports_stored_state today action item_type item_id st :
  Views.messages (snd (Views.adjust_session_count today true action item_type item_id st))
  = Views.messages st
  /\ (item_type <> "package"%string -> item_type <> "service"%string ->
      Views.adjust_session_count today true action item_type item_id st
      = (Views.redirect_admin_index, st))
  /\ (item_type = "package"%string \/ item_type = "service"%string ->
      stored_item item_type item_id st = None ->
      Views.adjust_session_count today true action item_type item_id st
      = (Views.JsonError 400 Views.Http404, st))
  /\ (forall it,
         stored_item item_type item_id st = Some it ->
         exists it',
           stored_item item_type item_id
             (snd (Views.adjust_session_count today true action item_type item_id st))
           = Some it'
           /\ fst (Views.adjust_session_count today true action item_type item_id st)
              = match Views.item_get_progress_percentage it' with
                | Ok percentage => Views.JsonResponse 200 (json_of it' percentage)
                | Raise e => Views.JsonError 400 (Views.model_error e)
                end).
Proof.
  assert (forall it l s st0,
             stored_item item_type item_id st0 = Some it ->
             Views.messages st0 = Views.messages st ->
             Views.messages (snd (answer_of true it l s st0)) = Views.messages st
             /\ stored_item item_type item_id (snd (answer_of true it l s st0)) = Some it
             /\ fst (answer_of true it l s st0)
                = match Views.item_get_progress_percentage it with
                  | Ok percentage => Views.JsonResponse 200 (json_of it percentage)
                  | Raise e => Views.JsonError 400 (Views.model_error e)
                  end) as Hanswer.
  { intros it l s st0 Hst0 Hmsg. unfold answer_of.
    destruct (Views.item_get_progress_percentage it) as [p|e]; cbn [fst snd];
      repeat split; assumption. }
  assert (forall it,
             stored_item item_type item_id st = Some it ->
             exists it',
               Views.messages
                 (snd (Views.adjust_session_count today true action item_type item_id st))
               = Views.messages st
               /\ stored_item item_type item_id
                    (snd (Views.adjust_session_count today true action item_type item_id st))
                  = Some it'
               /\ fst (Views.adjust_session_count today true action item_type item_id st)
                  = match Views.item_get_progress_percentage it' with
                    | Ok percentage => Views.JsonResponse 200 (json_of it' percentage)
                    | Raise e => Views.JsonError 400 (Views.model_error e)
                    end) as Hstored.
  { intros it Hit.
    destruct (action_cases action) as [->|[->|Hother]].
    - destruct (stored_after_increment today true _ _ _ _ Hit) as [_ Hnew].
      destruct (stored_item_cases _ _ _ _ Hit)
        as [[-> [cp [-> Hget]]]|[-> [css [-> Hget]]]].
      + rewrite (adjust_package_increment today true item_id st cp Hget) in Hnew |- *.
        cbn [Views.item_is_completed] in Hnew.
        destruct (ClientPackage.is_completed cp).
        * eexists. apply Hanswer; [exact Hit|reflexivity].
        * rewrite stored_item_answer in Hnew.
          eexists. apply Hanswer; [exact Hnew|reflexivity].
      + rewrite (adjust_service_increment today true item_id st css Hget) in Hnew |- *.
        cbn [Views.item_is_completed] in Hnew.
        destruct (ClientServiceSession.is_completed css).
        * eexists. apply Hanswer; [exact Hit|reflexivity].
        * rewrite stored_item_answer in Hnew.
          eexists. apply Hanswer; [exact Hnew|reflexivity].
    - destruct (stored_after_decrement today true _ _ _ _ Hit) as [_ Hnew].
      destruct (stored_item_cases _ _ _ _ Hit)
        as [[-> [cp [-> Hget]]]|[-> [css [-> Hget]]]].
      + rewrite (adjust_package_decrement today true item_id st cp Hget) in Hnew |- *.
        cbn [Views.item_sessions_completed] in Hnew.
        destruct (0 <? ClientPackage.sessions_completed cp).
        * rewrite stored_item_answer in Hnew.
          eexists. apply Hanswer; [exact Hnew|reflexivity].
        * eexists. apply Hanswer; [exact Hit|reflexivity].
      + rewrite (adjust_service_decrement today true item_id st css Hget) in Hnew |- *.
        cbn [Views.item_sessions_completed] in Hnew.
        destruct (0 <? ClientServiceSession.sessions_completed css).
        * rewrite stored_item_answer in Hnew.
          eexists. apply Hanswer; [exact Hnew|reflexivity].
        * eexists. apply Hanswer; [exact Hit|reflexivity].
    - rewrite (adjust_other_action today true action _ _ _ it Hother Hit).
      exists it. apply (Hanswer it Views.success ""%string st); [exact Hit|reflexivity]. }
  assert (stored_item item_type item_id st = None ->
          Views.adjust_session_count today true action item_type item_id st
          = if String.eqb item_type "package" || String.eqb item_type "service"
            then (Views.JsonError 400 Views.Http404, st)
            else (Views.redirect_admin_index, st)) as Hunknown.
  { intros Hnone. rewrite (adjust_unknown_item today true action _ _ _ Hnone).
    reflexivity. }
  split; [|split; [|split]].
  - destruct (stored_item item_type item_id st) as [it|] eqn:Hit.
    + destruct (Hstored it eq_refl) as [it' [Hmsg _]]. exact Hmsg.
    + rewrite (Hunknown eq_refl). destruct (_ || _); reflexivity.
  - intros Hp Hs.
    assert (stored_item item_type item_id st = None) as Hnone.
    { unfold stored_item.
      destruct (String.eqb_spec item_type "package"); [contradiction|].
      destruct (String.eqb_spec item_type "service"); [contradiction|reflexivity]. }
    rewrite (Hunknown Hnone).
    destruct (String.eqb_spec item_type "package"); [contradiction|].
    destruct (String.eqb_spec item_type "service"); [contradiction|reflexivity].
  - intros Htype Hnone. rewrite (Hunknown Hnone).
    destruct Htype as [->| ->]; reflexivity.
  - intros it Hit. destruct (Hstored it Hit) as [it' [_ [Hnew Hresp]]].
    exists it'. split; assumption.
Qed.

Lemma add_package_session_stored today id st cp :
  get ClientPackage.pk id (Views.client_packages st) = Some cp ->
  Views.add_package_session today id st
  = if ClientPackage.is_completed cp then
      (Views.redirect_client_profile (ClientPackage.client cp),
       Views.add_message Views.warning (Views.plain "This package is already completed.") st)
    else
      let cp' := ClientPackage_plus_one today cp in
      let st1 := Views.add_message Views.success
                   (Views.session_added_progress
                      (ClientPackage.sessions_completed cp + 1)
                      (Package.total_sessions (ClientPackage.package cp)))
                   (Views.set_client_packages
                      (update ClientPackage.pk id cp' (Views.client_packages st)) st) in
      (Views.redirect_client_profile (ClientPackage.client cp),
       if ClientPackage.is_completed cp'
       then Views.add_message Views.info (Views.plain "Package completed!") st1
       else st1).
Proof.
  intros Hget.
  destruct (get_some_In _ _ _ _ Hget) as [_ Hpk].
  pose proof (get_exists _ _ _ _ Hget) as Hex.
  unfold Views.add_package_session. rewrite Hget.
  destruct (ClientPackage.is_completed cp) eqn:Hdone; [reflexivity|].
  rewrite (ClientPackage_add_session_existing today _ _ id); [|exact Hpk|exact Hex|exact Hdone].
  unfold Views.refresh_package. cbn -[update get].
  rewrite get_update; [|reflexivity|exact Hex].
  unfold ClientPackage_plus_one. rewrite Hpk. reflexivity.
Qed.

Lemma add_service_session_stored today id st css :
  get ClientServiceSession.pk id (Views.client_service_sessions st) = Some css ->
  Views.add_service_session today id st
  = if ClientServiceSession.is_completed css then
      (Views.redirect_client_profile (ClientServiceSession.client css),
       Views.add_message Views.warning (Views.plain "This service is already completed.") st)
    else
      let css' := ClientServiceSession_plus_one today css in
      let st1 := Views.add_message Views.success
                   (Views.session_added_progress
                      (ClientServiceSession.sessions_completed css + 1)
                      (Service.sessions_required (ClientServiceSession.service css)))
                   (Views.set_client_service_sessions
                      (update ClientServiceSession.pk id css'
                              (Views.client_service_sessions st)) st) in
      (Views.redirect_client_profile (ClientServiceSession.client css),
       if ClientServiceSession.is_completed css'
       then Views.add_message Views.info (Views.plain "Service completed!") st1
       else st1).
Proof.
  intros Hget.
  destruct (get_some_In _ _ _ _ Hget) as [_ Hpk].
  pose proof (get_exists _ _ _ _ Hget) as Hex.
  unfold Views.add_service_session. rewrite Hget.
  destruct (ClientServiceSession.is_completed css) eqn:Hdone; [reflexivity|].
  rewrite (ClientServiceSession_add_session_existing today _ _ id);
    [|exact Hpk|exact Hex|exact Hdone].
  unfold Views.refresh_service. cbn -[update get ClientServiceSession_plus_one].
  change (ClientServiceSession.pk (ClientServiceSession_plus_one today css))
    with (ClientServiceSession.pk css).
  rewrite Hpk, get_update; [|exact Hpk|exact Hex].
  reflexivity.
Qed.

Lemma ajax_adjust_reports_stored_state_witness :
  exists it',
    stored_item "package" 1
      (snd (Views.adjust_session_count 300 true (Some "increment"%string) "package" 1
              profile_of_client_7)) = Some it'
    /\ Views.item_sessions_completed it' = 3
    /\ exists percentage,
        fst (Views.adjust_session_count 300 true (Some "increment"%string) "package" 1
               profile_of_client_7)
        = Views.JsonResponse 200 (json_of it' percentage).
Proof.
  destruct (ajax_adjust_reports_stored_state 300 (Some "increment"%string) "package" 1
              profile_of_client_7) as [_ [_ [_ Hstored]]].
  destruct (Hstored (Views.package_item nearly_done_client_package) eq_refl)
    as [it' [Hnew Hresp]].
  exists it'. split; [exact Hnew|].
  vm_compute in Hnew. injection Hnew as <-. split; [reflexivity|].
  exists 100. rewrite Hresp. vm_compute. reflexivity.
Defined.

(** X13 (core.views.add_package_session).  With an unknown key the view
    changes no table, queues one error message and sends the user to the
    admin index.  With a stored package it always returns to the profile
    of the package's client and touches no other record: a completed
    package is left as it is, with one warning; an open one gets one more
    session and is completed exactly when the new count reaches the
    total, the success message reports the stored count and total, and
    [Package completed!] follows exactly when the stored record is
    completed.  The message [Could not add session.] is never queued. *)
Theorem add_package_session_outcome today id st :
  let resp := fst (Views.add_package_session today id st) in
  let st' := snd (Views.add_package_session today id st) in
  Views.client_service_sessions st' = Views.client_service_sessions st
  /\ (In (Views.error, Views.plain "Could not add session.") (Views.messages st') ->
      In (Views.error, Views.plain "Could not add session.") (Views.messages st))
  /\ match get ClientPackage.pk id (Views.client_packages st) with
     | None =>
         resp = Views.redirect_admin_index
         /\ Views.client_packages st' = Views.client_packages st
         /\ Views.messages st'
            = Views.messages st
              ++ [(Views.error, Views.error_adding_session Views.Http404)]
     | Some cp =>
         resp = Views.redirect_client_profile (ClientPackage.client cp)
         /\ (forall j, j <> id ->
                       get ClientPackage.pk j (Views.client_packages st')
                       = get ClientPackage.pk j (Views.client_packages st))
         /\ exists cp',
             get ClientPackage.pk id (Views.client_packages st') = Some cp'
             /\ if ClientPackage.is_completed cp then
                  cp' = cp
                  /\ Views.messages st'
                     = Views.messages st
                       ++ [(Views.warning,
                            Views.plain "This package is already completed.")]
                else
                  ClientPackage.sessions_completed cp'
                  = ClientPackage.sessions_completed cp + 1
                  /\ ClientPackage.is_completed cp'
                     = (Package.total_sessions (ClientPackage.package cp)
                        <=? ClientPackage.sessions_completed cp + 1)
                  /\ Views.messages st'
                     = Views.messages st
                       ++ (Views.success,
                           Views.session_added_progress
                             (ClientPackage.sessions_completed cp')
                             (Package.total_sessions (ClientPackage.package cp')))
                          :: (if ClientPackage.is_completed cp'
                              then [(Views.info, Views.plain "Package completed!")]
                              else [])
     end.
Proof.
  intros resp st'. subst resp st'.
  destruct (get ClientPackage.pk id (Views.client_packages st)) as [cp|] eqn:Hget.
  - destruct (get_some_In _ _ _ _ Hget) as [_ Hpk].
    pose proof (get_exists _ _ _ _ Hget) as Hex.
    rewrite (add_package_session_stored today id st cp Hget).
    destruct (ClientPackage.is_completed cp) eqn:Hdone.
    + cbn. split; [reflexivity|]. split.
      * intros Hin. apply in_app_or in Hin as [Hin|[Hin|[]]]; [exact Hin|discriminate].
      * split; [reflexivity|]. split; [reflexivity|].
        exists cp. repeat split; [exact Hget].
    + cbn zeta.
      assert (get ClientPackage.pk id
                (update ClientPackage.pk id (ClientPackage_plus_one today cp)
                        (Views.client_packages st))
              = Some (ClientPackage_plus_one today cp)) as Hnew
          by (apply get_update; [exact Hpk|exact Hex]).
      destruct (ClientPackage.is_completed (ClientPackage_plus_one today cp)) eqn:Hdone';
        cbn -[update get ClientPackage_plus_one].
      * split; [reflexivity|]. split.
        -- intros Hin. rewrite <- app_assoc in Hin.
           apply in_app_or in Hin as [Hin|[Hin|[Hin|[]]]];
             [exact Hin|discriminate|discriminate].
        -- split; [reflexivity|]. split.
           ++ intros j Hj. apply get_update_other; [exact Hpk|exact Hj].
           ++ exists (ClientPackage_plus_one today cp). split; [exact Hnew|].
              rewrite Hdone'. split; [reflexivity|]. split; [symmetry; exact Hdone'|].
              rewrite <- app_assoc. reflexivity.
      * split; [reflexivity|]. split.
        -- intros Hin.
           apply in_app_or in Hin as [Hin|[Hin|[]]]; [exact Hin|discriminate].
        -- split; [reflexivity|]. split.
           ++ intros j Hj. apply get_update_other; [exact Hpk|exact Hj].
           ++ exists (ClientPackage_plus_one today cp). split; [exact Hnew|].
              rewrite Hdone'. split; [reflexivity|]. split; [symmetry; exact Hdone'|].
              reflexivity.
  - unfold Views.add_package_session. rewrite Hget.
    unfold Views.add_package_session_failed. cbn -[get]. rewrite Hget. cbn.
    split; [reflexivity|]. split.
    + intros Hin. apply in_app_or in Hin as [Hin|[Hin|[]]]; [exact Hin|discriminate].
    + repeat split.
Qed.

(** X14 (core.views.add_service_session).  With an unknown key the view
    changes no table, queues one error message and sends the user to the
    admin index.  With a stored session record it always returns to the
    profile of the record's client and touches no other record: a
    completed record is left as it is, with one warning; an open one gets
    one more session and is completed exactly when the new count reaches
    the sessions the service requires, the success message reports the
    stored count and requirement, and [Service completed!] follows exactly
    when the stored record is completed.  The message
    [Could not add session.] is never queued. *)
Theorem add_service_session_outcome today id st :
  let resp := fst (Views.add_service_session today id st) in
  let st' := snd (Views.add_service_session today id st) in
  Views.client_packages st' = Views.client_packages st
  /\ (In (Views.error, Views.plain "Could not add session.") (Views.messages st') ->
      In (Views.error, Views.plain "Could not add session.") (Views.messages st))
  /\ match get ClientServiceSession.pk id (Views.client_service_sessions st) with
     | None =>
         resp = Views.redirect_admin_index
         /\ Views.client_service_sessions st' = Views.client_service_sessions st
         /\ Views.messages st'
            = Views.messages st
              ++ [(Views.error, Views.error_adding_session Views.Http404)]
     | Some css =>
         resp = Views.redirect_client_profile (ClientServiceSession.client css)
         /\ (forall j, j <> id ->
                       get ClientServiceSession.pk j (Views.client_service_sessions st')
                       = get ClientServiceSession.pk j (Views.client_service_sessions st))
         /\ exists css',
             get ClientServiceSession.pk id (Views.client_service_sessions st') = Some css'
             /\ if ClientServiceSession.is_completed css then
                  css' = css
                  /\ Views.messages st'
                     = Views.messages st
                       ++ [(Views.warning,
                            Views.plain "This service is already completed.")]
                else
                  ClientServiceSession.sessions_completed css'
                  = ClientServiceSession.sessions_completed css + 1
                  /\ ClientServiceSession.is_completed css'
                     = (Service.sessions_required (ClientServiceSession.service css)
                        <=? ClientServiceSession.sessions_completed css + 1)
                  /\ Views.messages st'
                     = Views.messages st
                       ++ (Views.success,
                           Views.session_added_progress
                             (ClientServiceSession.sessions_completed css')
                             (Service.sessions_required (ClientServiceSession.service css')))
                          :: (if ClientServiceSession.is_completed css'
                              then [(Views.info, Views.plain "Service completed!")]
                              else [])
     end.
Proof.
  intros resp st'. subst resp st'.
  destruct (get ClientServiceSession.pk id (Views.client_service_sessions st)) as [css|] eqn:Hget.
  - destruct (get_some_In _ _ _ _ Hget) as [_ Hpk].
    pose proof (get_exists _ _ _ _ Hget) as Hex.
    rewrite (add_service_session_stored today id st css Hget).
    destruct (ClientServiceSession.is_completed css) eqn:Hdone.
    + cbn. split; [reflexivity|]. split.
      * intros Hin. apply in_app_or in Hin as [Hin|[Hin|[]]]; [exact Hin|discriminate].
      * split; [reflexivity|]. split; [reflexivity|].
        exists css. repeat split; [exact Hget].
    + cbn zeta.
      assert (get ClientServiceSession.pk id
                (update ClientServiceSession.pk id (ClientServiceSession_plus_one today css)
                        (Views.client_service_sessions st))
              = Some (ClientServiceSession_plus_one today css)) as Hnew
          by (apply get_update; [exact Hpk|exact Hex]).
      destruct (ClientServiceSession.is_completed (ClientServiceSession_plus_one today css)) eqn:Hdone';
        cbn -[update get ClientServiceSession_plus_one].
      * split; [reflexivity|]. split.
        -- intros Hin. rewrite <- app_assoc in Hin.
           apply in_app_or in Hin as [Hin|[Hin|[Hin|[]]]];
             [exact Hin|discriminate|discriminate].
        -- split; [reflexivity|]. split.
           ++ intros j Hj. apply get_update_other; [exact Hpk|exact Hj].
           ++ exists (ClientServiceSession_plus_one today css). split; [exact Hnew|].
              rewrite Hdone'. split; [reflexivity|]. split; [symmetry; exact Hdone'|].
              rewrite <- app_assoc. reflexivity.
      * split; [reflexivity|]. split.
        -- intros Hin.
           apply in_app_or in Hin as [Hin|[Hin|[]]]; [exact Hin|discriminate].
        -- split; [reflexivity|]. split.
           ++ intros j Hj. apply get_update_other; [exact Hpk|exact Hj].
           ++ exists (ClientServiceSession_plus_one today css). split; [exact Hnew|].
              rewrite Hdone'. split; [reflexivity|]. split; [symmetry; exact Hdone'|].
              reflexivity.
  - unfold Views.add_service_session. rewrite Hget.
    unfold Views.add_service_session_failed. cbn -[get]. rewrite Hget. cbn.
    split; [reflexivity|]. split.
    + intros Hin. apply in_app_or in Hin as [Hin|[Hin|[]]]; [exact Hin|discriminate].
    + repeat split.
Qed.

(** X15 (core.views: add_package_session, add_service_session and
    adjust_session_count with action [increment]).  The two ways of adding
    a session leave the same tables: for every key, stored or not, and for
    AJAX and plain requests alike, the add-session view and the increment
    of [adjust_session_count] end with the same client packages and the
    same client service sessions. *)
Theorem increment_buttons_agree today ajax id st :
  (let st1 := snd (Views.add_package_session today id st) in
   let st2 := snd (Views.adjust_session_count today ajax (Some "increment"%string)
                     "package" id st) in
   Views.client_packages st1 = Views.client_packages st2
   /\ Views.client_service_sessions st1 = Views.client_service_sessions st2)
  /\ (let st1 := snd (Views.add_service_session today id st) in
      let st2 := snd (Views.adjust_session_count today ajax (Some "increment"%string)
                        "service" id st) in
      Views.client_packages st1 = Views.client_packages st2
      /\ Views.client_service_sessions st1 = Views.client_service_sessions st2).
Proof.
  split; intros st1 st2; subst st1 st2.
  - destruct (get ClientPackage.pk id (Views.client_packages st)) as [cp|] eqn:Hget.
    + rewrite (add_package_session_stored today id st cp Hget),
        (adjust_package_increment today ajax id st cp Hget).
      destruct (ClientPackage.is_completed cp).
      * destruct (answer_of_tables ajax (Views.package_item cp) Views.warning
                    "Already completed." st) as [-> ->].
        split; reflexivity.
      * match goal with
        | |- context [answer_of ?a ?i ?l ?s ?t] =>
            destruct (answer_of_tables a i l s t) as [-> ->]
        end.
        cbn zeta.
        destruct (ClientPackage.is_completed (ClientPackage_plus_one today cp));
          split; reflexivity.
    + rewrite (adjust_unknown_item today ajax _ "package" id st)
        by (unfold stored_item; cbn -[get]; rewrite Hget; reflexivity).
      cbn [String.eqb Ascii.eqb Bool.eqb andb orb].
      destruct (adjust_failed_tables ajax None Views.Http404 st) as [-> ->].
      unfold Views.add_package_session. rewrite Hget.
      unfold Views.add_package_session_failed. cbn -[get]. rewrite Hget.
      split; reflexivity.
  - destruct (get ClientServiceSession.pk id (Views.client_service_sessions st))
      as [css|] eqn:Hget.
    + rewrite (add_service_session_stored today id st css Hget),
        (adjust_service_increment today ajax id st css Hget).
      destruct (ClientServiceSession.is_completed css).
      * destruct (answer_of_tables ajax (Views.service_item css) Views.warning
                    "Already completed." st) as [-> ->].
        split; reflexivity.
      * match goal with
        | |- context [answer_of ?a ?i ?l ?s ?t] =>
            destruct (answer_of_tables a i l s t) as [-> ->]
        end.
        cbn zeta.
        destruct (ClientServiceSession.is_completed
                    (ClientServiceSession_plus_one today css));
          split; reflexivity.
    + rewrite (adjust_unknown_item today ajax _ "service" id st)
        by (unfold stored_item; cbn -[get]; rewrite Hget; reflexivity).
      cbn [String.eqb Ascii.eqb Bool.eqb andb orb].
      destruct (adjust_failed_tables ajax None Views.Http404 st) as [-> ->].
      unfold Views.add_service_session. rewrite Hget.
      unfold Views.add_service_session_failed. cbn -[get]. rewrite Hget.
      split; reflexivity.
Qed.

(** ** The progress percentage: the guard, and how far the result is off *)

Lemma range_In start n x : start <= x < start + Z.of_nat n -> In x (range start n).
Proof.
  revert start. induction n as [|n IH]; intros start Hx; [lia|].
  cbn [range]. destruct (Z.eq_dec x start) as [->|Hne]; [left; reflexivity|].
  right. apply IH. lia.
Qed.

(** The result over 0..400 sessions of 1..200: the truncated exact
    percentage, or one below it where the exact percentage is whole. *)
Lemma percentage_grid :
  forallb (fun b =>
    forallb (fun a =>
      match percentage a b with
      | Ok p => (p =? a * 100 / b)
                || ((a * 100 mod b =? 0) && (p =? a * 100 / b - 1))
      | Raise _ => false
      end) (range 0 401)) (range 1 200) = true.
Proof. vm_compute. reflexivity. Qed.

Lemma percentage_near_exact a b :
  1 <= b <= 200 -> 0 <= a <= 400 ->
  exists p, percentage a b = Ok p
            /\ a * 100 / b - 1 <= p <= a * 100 / b
            /\ (a * 100 mod b <> 0 -> p = a * 100 / b).
Proof.
  intros Hb Ha. pose proof percentage_grid as Hgrid.
  rewrite forallb_forall in Hgrid.
  assert (In b (range 1 200)) as Hinb by (apply range_In; lia).
  assert (In a (range 0 401)) as Hina by (apply range_In; lia).
  specialize (Hgrid b Hinb). rewrite forallb_forall in Hgrid.
  specialize (Hgrid a Hina).
  destruct (percentage a b) as [p|e]; [|discriminate Hgrid].
  exists p. split; [reflexivity|].
  apply orb_true_iff in Hgrid. destruct Hgrid as [Hexact|Hbelow].
  - apply Z.eqb_eq in Hexact. subst p. split; [lia|reflexivity].
  - apply andb_true_iff in Hbelow. destruct Hbelow as [Hwhole Hp].
    apply Z.eqb_eq in Hwhole, Hp. subst p. split; [lia|]. intros Hne. contradiction.
Qed.

(** X17: [get_progress_percentage] returns 0 when the target is 0 and
    never raises [ZeroDivisionError], whatever the counter and the target;
    for up to 400 sessions of a target from 1 to 200 it returns the
    truncated exact percentage sessions_completed x 100 / target, or one
    below it, and one below only where the exact percentage is a whole
    number.  The same holds for [ClientPackage] and
    [ClientServiceSession]. *)
Theorem get_progress_percentage_near_exact :
  (forall self,
      let target := Package.total_sessions (ClientPackage.package self) in
      let count := ClientPackage.sessions_completed self in
      (target = 0 -> ClientPackage.get_progress_percentage self = Ok 0)
      /\ ClientPackage.get_progress_percentage self <> Raise ZeroDivisionError
      /\ (1 <= target <= 200 -> 0 <= count <= 400 ->
          exists p, ClientPackage.get_progress_percentage self = Ok p
                    /\ count * 100 / target - 1 <= p <= count * 100 / target
                    /\ (count * 100 mod target <> 0 -> p = count * 100 / target)))
  /\ (forall self,
         let target := Service.sessions_required (ClientServiceSession.service self) in
         let count := ClientServiceSession.sessions_completed self in
         (target = 0 -> ClientServiceSession.get_progress_percentage self = Ok 0)
         /\ ClientServiceSession.get_progress_percentage self <> Raise ZeroDivisionError
         /\ (1 <= target <= 200 -> 0 <= count <= 400 ->
             exists p, ClientServiceSession.get_progress_percentage self = Ok p
                       /\ count * 100 / target - 1 <= p <= count * 100 / target
                       /\ (count * 100 mod target <> 0 -> p = count * 100 / target))).
Proof.
  split.
  - intros self target count. unfold ClientPackage.get_progress_percentage.
    fold target count. split; [intros ->; reflexivity|]. split.
    + destruct (Z.eqb_spec target 0); [discriminate|].
      now apply percentage_no_zero_division.
    + intros Ht Hc. destruct (Z.eqb_spec target 0); [lia|].
      now apply percentage_near_exact.
  - intros self target count. unfold ClientServiceSession.get_progress_percentage.
    fold target count. split; [intros ->; reflexivity|]. split.
    + destruct (Z.eqb_spec target 0); [discriminate|].
      now apply percentage_no_zero_division.
    + intros Ht Hc. destruct (Z.eqb_spec target 0); [lia|].
      now apply percentage_near_exact.
Qed.

Lemma get_progress_percentage_near_exact_witness :
  ClientPackage.get_progress_percentage package_without_sessions = Ok 0
  /\ exists p, ClientPackage.get_progress_percentage half_done_client_package = Ok p
               /\ p = 50.
Proof.
  split.
  - apply (proj1 get_progress_percentage_near_exact package_without_sessions). reflexivity.
  - destruct (proj1 get_progress_percentage_near_exact half_done_client_package)
      as [_ [_ Hvalue]].
    destruct Hvalue as [p [Hp [Hrange _]]]; [cbn; lia|cbn; lia|].
    exists p. split; [exact Hp|].
    vm_compute in Hp. injection Hp as <-. reflexivity.
Defined.
